(** * bearister_server: users, plans, quotas and subscriptions

    A shallow embedding of the request handlers, the two scheduled jobs,
    the authentication middleware and the identity-provider webhook of
    the server, together with the properties of the quota / subscription
    state machine.

    Conventions.
    - A JavaScript [Date] is its time value: milliseconds since the epoch,
      an integer ([Z]).  A time value outside +-8.64e15 stands for an
      invalid [Date]; no handler reads one, and the persistence layer
      refuses it.  The methods that work in local time ([getMonth],
      [setMonth]) take the time zone of the server as an argument.
    - The columns [messagesUsed], [documentsUsed], [messageLeft] and
      [documentLeft] are [Int]: the persistence layer refuses a number
      outside the 32-bit range, and a date outside the range of
      [DateTime].
    - The table [User] is a list of rows.  The audit columns [createdAt]
      and [updatedAt], which the ORM maintains by itself, are left out.
    - Request bodies are typed: each field a handler reads is optional and,
      when present, has the type the column has.
    - Logging ([console.log], [logger.*]) has no effect on the store or on
      the response and is left out. *)

From Stdlib Require Import ZArith List String Ascii Bool Lia.
From stdpp Require Import base decidable option list strings.
Import ListNotations.

Local Open Scope string_scope.
Local Open Scope list_scope.
Local Open Scope Z_scope.

(** ** Schema (prisma/schema.prisma) *)

Inductive PlanType := BASIC | CORE | ADVANCED | PRO.

Inductive SubscriptionStatus :=
  | ACTIVE | CANCELED | PAST_DUE | INCOMPLETE | INCOMPLETE_EXPIRED
  | TRIALING | UNPAID.

#[global] Instance PlanType_eq_dec : EqDecision PlanType.
Proof. solve_decision. Defined.

#[global] Instance SubscriptionStatus_eq_dec : EqDecision SubscriptionStatus.
Proof. solve_decision. Defined.

Record User := mkUser {
  id : string;
  email : string;
  oauthId : string;
  username : option string;
  subscriptioStartDate : option Z;
  subscriptionEndDate : option Z;
  subscriptionStatus : SubscriptionStatus;
  planType : PlanType;
  messagesUsed : Z;
  documentsUsed : Z;
  messageLeft : Z;
  documentLeft : Z
}.

#[global] Instance User_eq_dec : EqDecision User.
Proof. solve_decision. Defined.

(** [Object.values(PlanType).includes(s)] and its typed reading. *)
Definition parsePlanType (s : string) : option PlanType :=
  if decide (s = "BASIC") then Some BASIC
  else if decide (s = "CORE") then Some CORE
  else if decide (s = "ADVANCED") then Some ADVANCED
  else if decide (s = "PRO") then Some PRO
  else None.

Definition parseSubscriptionStatus (s : string) : option SubscriptionStatus :=
  if decide (s = "ACTIVE") then Some ACTIVE
  else if decide (s = "CANCELED") then Some CANCELED
  else if decide (s = "PAST_DUE") then Some PAST_DUE
  else if decide (s = "INCOMPLETE") then Some INCOMPLETE
  else if decide (s = "INCOMPLETE_EXPIRED") then Some INCOMPLETE_EXPIRED
  else if decide (s = "TRIALING") then Some TRIALING
  else if decide (s = "UNPAID") then Some UNPAID
  else None.

Definition planTypeName (p : PlanType) : string :=
  match p with
  | BASIC => "BASIC" | CORE => "CORE" | ADVANCED => "ADVANCED" | PRO => "PRO"
  end.

Definition isValidPlanType (plan : string) : bool :=
  bool_decide (is_Some (parsePlanType plan)).

Definition isValidSubscriptionStatus (status : string) : bool :=
  bool_decide (is_Some (parseSubscriptionStatus status)).

(** The double-quote character, as a string. *)
Definition dq : string := String (ascii_of_nat 34) EmptyString.

(** JavaScript truthiness of the values that the handlers test. *)
Definition truthy_string (s : string) : bool := negb (bool_decide (s = "")).

Definition truthy_opt_string (o : option string) : bool :=
  match o with Some s => truthy_string s | None => false end.

(** ** The persistence layer: the Prisma client on the table [User] *)

Module prisma.

Inductive PrismaError :=
  | P2002                       (* unique constraint failed *)
  | P2025                       (* record to update / delete not found *)
  | PrismaClientValidationError (* ill-typed argument, no [code] *)
  | ValueOutOfRange             (* a value the column cannot hold; neither
                                   of the two codes above *).

Inductive Result (A : Type) :=
  | Ok (a : A)
  | Throw (e : PrismaError).
Arguments Ok {A} a.
Arguments Throw {A} e.

Definition Store := list User.

(** [where: { id }], [where: { email }], [where: { oauthId }]. *)
Inductive UserWhereUnique :=
  | WhereId (i : string)
  | WhereEmail (e : string)
  | WhereOauthId (o : string).

Definition matches (w : UserWhereUnique) (u : User) : bool :=
  match w with
  | WhereId i => bool_decide (id u = i)
  | WhereEmail e => bool_decide (email u = e)
  | WhereOauthId o => bool_decide (oauthId u = o)
  end.

(** The [data] argument of [update]: every column is optional; a
    nullable column may be set to [null]. *)
Record UserUpdate := mkUpdate {
  u_email : option string;
  u_oauthId : option string;
  u_username : option (option string);
  u_subscriptioStartDate : option (option Z);
  u_subscriptionEndDate : option (option Z);
  u_subscriptionStatus : option SubscriptionStatus;
  u_planType : option PlanType;
  u_messagesUsed : option Z;
  u_documentsUsed : option Z;
  u_messageLeft : option Z;
  u_documentLeft : option Z
}.

Definition applyUpdate (d : UserUpdate) (u : User) : User :=
  {| id := id u;
     email := default (email u) (u_email d);
     oauthId := default (oauthId u) (u_oauthId d);
     username := default (username u) (u_username d);
     subscriptioStartDate :=
       default (subscriptioStartDate u) (u_subscriptioStartDate d);
     subscriptionEndDate :=
       default (subscriptionEndDate u) (u_subscriptionEndDate d);
     subscriptionStatus :=
       default (subscriptionStatus u) (u_subscriptionStatus d);
     planType := default (planType u) (u_planType d);
     messagesUsed := default (messagesUsed u) (u_messagesUsed d);
     documentsUsed := default (documentsUsed u) (u_documentsUsed d);
     messageLeft := default (messageLeft u) (u_messageLeft d);
     documentLeft := default (documentLeft u) (u_documentLeft d) |}.

(** The column type [Int]: a 32-bit signed integer. *)
Definition fitsInt (n : Z) : bool :=
  (-2147483648 <=? n) && (n <=? 2147483647).

(** The column type [DateTime].  The client refuses an invalid [Date];
    a valid one travels as [toISOString()], which the query engine reads
    as an RFC 3339 time stamp, with a year of four digits:
    0000-01-01T00:00:00.000Z to 9999-12-31T23:59:59.999Z. *)
Definition fitsDateTime (t : Z) : bool :=
  (-62167219200000 <=? t) && (t <=? 253402300799999).

Definition fitsOptInt (o : option Z) : bool :=
  match o with Some n => fitsInt n | None => true end.

Definition fitsOptDateTime (o : option Z) : bool :=
  match o with Some t => fitsDateTime t | None => true end.

(** The values of [data] that the columns can hold. *)
Definition validData (d : UserUpdate) : bool :=
  fitsOptDateTime (default None (u_subscriptioStartDate d))
  && fitsOptDateTime (default None (u_subscriptionEndDate d))
  && fitsOptInt (u_messagesUsed d) && fitsOptInt (u_documentsUsed d)
  && fitsOptInt (u_messageLeft d) && fitsOptInt (u_documentLeft d).

(** A row as the table can hold it. *)
Definition fitsColumns (u : User) : bool :=
  fitsOptDateTime (subscriptioStartDate u)
  && fitsOptDateTime (subscriptionEndDate u)
  && fitsInt (messagesUsed u) && fitsInt (documentsUsed u)
  && fitsInt (messageLeft u) && fitsInt (documentLeft u).

Definition findUnique (w : UserWhereUnique) (st : Store) : option User :=
  List.find (matches w) st.

Definition findMany (p : User -> bool) (st : Store) : list User :=
  List.filter p st.

Definition findFirst (p : User -> bool) (st : Store) : option User :=
  List.find p st.

Fixpoint replaceFirst (p : User -> bool) (u' : User) (st : Store) : Store :=
  match st with
  | [] => []
  | r :: rs => if p r then u' :: rs else r :: replaceFirst p u' rs
  end.

Fixpoint removeFirst (p : User -> bool) (st : Store) : Store :=
  match st with
  | [] => []
  | r :: rs => if p r then rs else r :: removeFirst p rs
  end.

(** The unique indexes on [email] and [oauthId]: a write of one of
    these columns is refused when another row holds the value. *)
Definition violatesUnique (d : UserUpdate) (u u' : User) (st : Store) : bool :=
  existsb
    (fun r =>
       negb (bool_decide (id r = id u))
       && ((bool_decide (is_Some (u_email d))
            && bool_decide (email r = email u'))
           || (bool_decide (is_Some (u_oauthId d))
               && bool_decide (oauthId r = oauthId u'))))
    st.

(** [prisma.user.update({ where, data })]: a value that a column cannot
    hold is refused before anything is written. *)
Definition update (w : UserWhereUnique) (d : UserUpdate) (st : Store)
  : Result (User * Store) :=
  if negb (validData d) then Throw ValueOutOfRange
  else
    match findUnique w st with
    | None => Throw P2025
    | Some u =>
        let u' := applyUpdate d u in
        if violatesUnique d u u' st then Throw P2002
        else Ok (u', replaceFirst (matches w) u' st)
    end.

(** The [data] argument of [create]; the columns left out take the
    schema's defaults. *)
Record UserCreate := mkCreate {
  c_email : string;
  c_oauthId : string;
  c_username : option string;
  c_planType : option PlanType;
  c_messageLeft : option Z;
  c_documentLeft : option Z
}.

Definition newRow (uuid : string) (d : UserCreate) : User :=
  {| id := uuid;
     email := c_email d;
     oauthId := c_oauthId d;
     username := c_username d;
     subscriptioStartDate := None;
     subscriptionEndDate := None;
     subscriptionStatus := UNPAID;
     planType := default BASIC (c_planType d);
     messagesUsed := 0;
     documentsUsed := 0;
     messageLeft := default 20 (c_messageLeft d);
     documentLeft := default 0 (c_documentLeft d) |}.

(** [uuid] is the value that [@default(uuid())] draws for the primary
    key. *)
Definition create (uuid : string) (d : UserCreate) (st : Store)
  : Result (User * Store) :=
  if negb (fitsOptInt (c_messageLeft d) && fitsOptInt (c_documentLeft d))
  then Throw ValueOutOfRange
  else if existsb
       (fun r =>
          bool_decide (id r = uuid)
          || bool_decide (email r = c_email d)
          || bool_decide (oauthId r = c_oauthId d))
       st
  then Throw P2002
  else Ok (newRow uuid d, st ++ [newRow uuid d]).

Definition delete (w : UserWhereUnique) (st : Store) : Result (User * Store) :=
  match findUnique w st with
  | None => Throw P2025
  | Some u => Ok (u, removeFirst (matches w) st)
  end.

End prisma.

Import prisma.

(** ** JavaScript strings *)

Module JsString.

(** [s.split(sep)] for a one-character separator. *)
Fixpoint split (sep : ascii) (s : string) : list string :=
  match s with
  | EmptyString => [""]
  | String c rest =>
      if bool_decide (c = sep) then "" :: split sep rest
      else match split sep rest with
           | h :: t => String c h :: t
           | [] => [String c ""]
           end
  end.

(** [a[i]], [undefined] out of range. *)
Definition index (l : list string) (i : nat) : option string := nth_error l i.

Fixpoint startsWith (prefix s : string) : bool :=
  match prefix, s with
  | EmptyString, _ => true
  | String a p, String b r => bool_decide (a = b) && startsWith p r
  | String _ _, EmptyString => false
  end.

(** The character class [\s], on 8-bit characters. *)
Definition isSpace (c : ascii) : bool :=
  let n := nat_of_ascii c in
  ((9 <=? n)%nat && (n <=? 13)%nat) || (n =? 32)%nat || (n =? 160)%nat.

(** The character class [[^\s@]]. *)
Definition notSpaceNorAt (c : ascii) : bool :=
  negb (isSpace c) && negb (bool_decide (c = "@"%char)).

Definition chars (s : string) : list ascii := list_ascii_of_string s.

End JsString.

(** [/^[^\s@]+@[^\s@]+\.[^\s@]+$/.test(email)]: one [@], no white space,
    a non-empty local part, and a dot strictly inside the domain. *)
Definition isValidEmail (email : string) : bool :=
  match JsString.split "@" email with
  | [loc; dom] =>
      let l := JsString.chars loc in
      let d := JsString.chars dom in
      negb (bool_decide (l = []))
      && forallb JsString.notSpaceNorAt l
      && forallb JsString.notSpaceNorAt d
      && existsb (fun c => bool_decide (c = "."%char))
           (removelast (List.tl d))
  | _ => false
  end.

(** ** JavaScript dates (ECMAScript time values) *)

Module JsDate.

Definition msPerDay : Z := 86400000.

Definition Day (t : Z) : Z := t / msPerDay.
Definition TimeWithinDay (t : Z) : Z := t mod msPerDay.

(** Year, month (1..12) and day of the month of a day number counted
    from 1970-01-01, in the proleptic Gregorian calendar. *)
Definition civilFromDays (z : Z) : Z * Z * Z :=
  let z := z + 719468 in
  let era := z / 146097 in
  let doe := z - era * 146097 in
  let yoe := (doe - doe / 1460 + doe / 36524 - doe / 146096) / 365 in
  let y := yoe + era * 400 in
  let doy := doe - (365 * yoe + yoe / 4 - yoe / 100) in
  let mp := (5 * doy + 2) / 153 in
  let d := doy - (153 * mp + 2) / 5 + 1 in
  let m := if mp <? 10 then mp + 3 else mp - 9 in
  (if m <=? 2 then y + 1 else y, m, d).

(** Day number of the first..last day of a month, and beyond: [d] is
    not required to be a day of the month [m] (1..12) of year [y]. *)
Definition daysFromCivil (y m d : Z) : Z :=
  let y := if m <=? 2 then y - 1 else y in
  let era := y / 400 in
  let yoe := y - era * 400 in
  let doy := (153 * (if 2 <? m then m - 3 else m + 9) + 2) / 5 + d - 1 in
  let doe := yoe * 365 + yoe / 4 - yoe / 100 + doy in
  era * 146097 + doe - 719468.

Definition YearFromTime (t : Z) : Z := fst (fst (civilFromDays (Day t))).
Definition MonthFromTime (t : Z) : Z := snd (fst (civilFromDays (Day t))) - 1.
Definition DateFromTime (t : Z) : Z := snd (civilFromDays (Day t)).

(** [MakeDay(year, month, date)], with [month] any integer. *)
Definition MakeDay (year month date : Z) : Z :=
  daysFromCivil (year + month / 12) (month mod 12 + 1) 1 + date - 1.

Definition MakeDate (day time : Z) : Z := day * msPerDay + time.

(** The local time zone of the server (its TZ setting), as the
    implementation-defined [LocalTZA(t, isUTC)]: the offset of local
    time from UTC in milliseconds, at the UTC time [t] when [isUTC] and
    at the local time [t] otherwise. *)
Definition TimeZone := Z -> bool -> Z.

Definition LocalTime (LocalTZA : TimeZone) (t : Z) : Z := t + LocalTZA t true.
Definition UTC (LocalTZA : TimeZone) (t : Z) : Z := t - LocalTZA t false.

(** The zone UTC. *)
Definition utc : TimeZone := fun _ _ => 0.

(** [d.getTime()], [d.getMonth()], [d.setMonth(month)].  The last two
    work on local time.  ([TimeClip] turns a result outside +-8.64e15
    into an invalid [Date]; such a time value stands for one here.) *)
Definition getTime (t : Z) : Z := t.
Definition getMonth (LocalTZA : TimeZone) (t : Z) : Z :=
  MonthFromTime (LocalTime LocalTZA t).
Definition setMonth (LocalTZA : TimeZone) (t month : Z) : Z :=
  let t := LocalTime LocalTZA t in
  UTC LocalTZA
    (MakeDate (MakeDay (YearFromTime t) month (DateFromTime t))
       (TimeWithinDay t)).

(** [Math.ceil(x / d)] on integers, [0 < d]. *)
Definition ceilDiv (x d : Z) : Z := - ((- x) / d).

(** By how many days [d.setMonth(d.getMonth() + 1)] moves a date that
    lies on the day with number [z]. *)
Definition nextMonthShift (z : Z) : Z :=
  let '(y, m, d) := civilFromDays z in MakeDay y m d - z.

End JsDate.

(** ** HTTP responses *)

Inductive Quota := unlimited | finite (n : Z).

Record UsageStats := mkUsageStats {
  used : Z;
  remaining : Quota;
  total : Quota
}.

Record Stats := mkStats {
  stats_userId : string;
  stats_planType : PlanType;
  stats_subscriptionStatus : SubscriptionStatus;
  usage_messages : UsageStats;
  usage_documents : UsageStats;
  subscription_startDate : option Z;
  subscription_endDate : option Z;
  subscription_daysRemaining : option Z
}.

(** The [data] member of a success envelope, for the handlers below. *)
Inductive Data :=
  | DataUser (u : User)
  | DataStats (s : Stats).

(** The status line and the JSON envelope; the [timestamp] field of the
    envelope is left out. *)
Record Response := mkResponse {
  statusCode : Z;
  json_status : string;
  json_message : string;
  json_data : option Data
}.

Definition sendError (status : Z) (message : string) : Response :=
  mkResponse status "error" message None.

Definition sendSuccess (data : Data) (message : option string) : Response :=
  mkResponse 200 "success"
    (if truthy_opt_string message
     then default "" message
     else "Operation completed successfully")
    (Some data).

(** What a handler leaves behind: the response and the table. *)
Definition Handler := Store -> Response * Store.

(** ** The request body of the update endpoints

    The body is the JSON object the client sent.  [planType] and
    [subscriptionStatus] arrive as strings and are validated by the
    handlers; a date arrives as an ISO string and is held here as the
    time value it denotes. *)

Record UpdateBody := mkBody {
  b_email : option string;
  b_oauthId : option string;
  b_username : option (option string);
  b_subscriptioStartDate : option (option Z);
  b_subscriptionEndDate : option (option Z);
  b_subscriptionStatus : option string;
  b_planType : option string;
  b_messagesUsed : option Z;
  b_documentsUsed : option Z;
  b_messageLeft : option Z;
  b_documentLeft : option Z;
  b_incrementMessage : option bool;
  b_incrementDocument : option bool
}.

Definition emptyBody : UpdateBody :=
  mkBody None None None None None None None None None None None None None.

(** Assignments [updateData.field = value]. *)
Definition set_messagesUsed (v : Z) (b : UpdateBody) : UpdateBody :=
  mkBody (b_email b) (b_oauthId b) (b_username b) (b_subscriptioStartDate b)
    (b_subscriptionEndDate b) (b_subscriptionStatus b) (b_planType b)
    (Some v) (b_documentsUsed b) (b_messageLeft b) (b_documentLeft b)
    (b_incrementMessage b) (b_incrementDocument b).

Definition set_documentsUsed (v : Z) (b : UpdateBody) : UpdateBody :=
  mkBody (b_email b) (b_oauthId b) (b_username b) (b_subscriptioStartDate b)
    (b_subscriptionEndDate b) (b_subscriptionStatus b) (b_planType b)
    (b_messagesUsed b) (Some v) (b_messageLeft b) (b_documentLeft b)
    (b_incrementMessage b) (b_incrementDocument b).

Definition set_messageLeft (v : Z) (b : UpdateBody) : UpdateBody :=
  mkBody (b_email b) (b_oauthId b) (b_username b) (b_subscriptioStartDate b)
    (b_subscriptionEndDate b) (b_subscriptionStatus b) (b_planType b)
    (b_messagesUsed b) (b_documentsUsed b) (Some v) (b_documentLeft b)
    (b_incrementMessage b) (b_incrementDocument b).

Definition set_documentLeft (v : Z) (b : UpdateBody) : UpdateBody :=
  mkBody (b_email b) (b_oauthId b) (b_username b) (b_subscriptioStartDate b)
    (b_subscriptionEndDate b) (b_subscriptionStatus b) (b_planType b)
    (b_messagesUsed b) (b_documentsUsed b) (b_messageLeft b) (Some v)
    (b_incrementMessage b) (b_incrementDocument b).

Definition set_planType (v : string) (b : UpdateBody) : UpdateBody :=
  mkBody (b_email b) (b_oauthId b) (b_username b) (b_subscriptioStartDate b)
    (b_subscriptionEndDate b) (b_subscriptionStatus b) (Some v)
    (b_messagesUsed b) (b_documentsUsed b) (b_messageLeft b) (b_documentLeft b)
    (b_incrementMessage b) (b_incrementDocument b).

Definition set_subscriptionStatus (v : string) (b : UpdateBody) : UpdateBody :=
  mkBody (b_email b) (b_oauthId b) (b_username b) (b_subscriptioStartDate b)
    (b_subscriptionEndDate b) (Some v) (b_planType b)
    (b_messagesUsed b) (b_documentsUsed b) (b_messageLeft b) (b_documentLeft b)
    (b_incrementMessage b) (b_incrementDocument b).

Definition set_subscriptioStartDate (v : option Z) (b : UpdateBody) : UpdateBody :=
  mkBody (b_email b) (b_oauthId b) (b_username b) (Some v)
    (b_subscriptionEndDate b) (b_subscriptionStatus b) (b_planType b)
    (b_messagesUsed b) (b_documentsUsed b) (b_messageLeft b) (b_documentLeft b)
    (b_incrementMessage b) (b_incrementDocument b).

Definition set_subscriptionEndDate (v : option Z) (b : UpdateBody) : UpdateBody :=
  mkBody (b_email b) (b_oauthId b) (b_username b) (b_subscriptioStartDate b)
    (Some v) (b_subscriptionStatus b) (b_planType b)
    (b_messagesUsed b) (b_documentsUsed b) (b_messageLeft b) (b_documentLeft b)
    (b_incrementMessage b) (b_incrementDocument b).

(** [Object.keys(updateData).length === 0]. *)
Definition noKeys (b : UpdateBody) : bool :=
  match b with
  | mkBody None None None None None None None None None None None None None =>
      true
  | _ => false
  end.

(** Plan limits: one entry of [PLAN_LIMITS]. *)
Record Limits := mkLimits { messages : Z; documents : Z }.

(** An enum-typed field of a Prisma argument: a string that is not a
    member of the enum is refused by the client's validation. *)
Definition enumField {A} (parse : string -> option A) (o : option string)
  : option (option A) :=
  match o with
  | None => Some None
  | Some s => match parse s with Some a => Some (Some a) | None => None end
  end.

(** The object [updateData] as the [data] argument of
    [prisma.user.update]; [None] when the client's validation refuses it
    (a string that is no member of the enum, a key that is no column). *)
Definition asUserUpdate (b : UpdateBody) : option UserUpdate :=
  match enumField parseSubscriptionStatus (b_subscriptionStatus b),
        enumField parsePlanType (b_planType b),
        b_incrementMessage b, b_incrementDocument b with
  | Some status, Some plan, None, None =>
      Some {| u_email := b_email b; u_oauthId := b_oauthId b;
              u_username := b_username b;
              u_subscriptioStartDate := b_subscriptioStartDate b;
              u_subscriptionEndDate := b_subscriptionEndDate b;
              u_subscriptionStatus := status; u_planType := plan;
              u_messagesUsed := b_messagesUsed b;
              u_documentsUsed := b_documentsUsed b;
              u_messageLeft := b_messageLeft b;
              u_documentLeft := b_documentLeft b |}
  | _, _, _, _ => None
  end.

(** ** The create endpoint, the same text in both revisions *)

(** The body [{ email, oauthId, username, planType }]. *)
Record CreateBody := mkCreateBody {
  cb_email : option string;
  cb_oauthId : option string;
  cb_username : option string;
  cb_planType : option string
}.

(** [router.post(`${BASE_PATH}/users`, ...)], over the revision's
    [PLAN_LIMITS]; [uuid] is the primary key the database draws. *)
Definition postUserWith (PLAN_LIMITS : PlanType -> Limits) (uuid : string)
    (body : CreateBody) : Handler :=
  fun st =>
  let bodyEmail := cb_email body in
  let bodyOauthId := cb_oauthId body in
  let bodyUsername := cb_username body in
  let bodyPlanType := default "BASIC" (cb_planType body) in
  if negb (truthy_opt_string bodyEmail) || negb (truthy_opt_string bodyOauthId)
  then (sendError 400 "Email and oauthId are required", st)
  else if negb (isValidEmail (default "" bodyEmail)) then
    (sendError 400 "Invalid email format", st)
  else if truthy_string bodyPlanType && negb (isValidPlanType bodyPlanType) then
    (sendError 400 "Invalid plan type", st)
  else
    match findFirst
            (fun r => bool_decide (email r = default "" bodyEmail)
                      || bool_decide (oauthId r = default "" bodyOauthId))
            st with
    | Some existingUser =>
        (sendError 409 "User with this email or oauthId already exists", st)
    | None =>
        match parsePlanType bodyPlanType with
        | None => (sendError 500 "Internal server error", st)
        | Some plan =>
            let limits := PLAN_LIMITS plan in
            let userData :=
              {| c_email := default "" bodyEmail;
                 c_oauthId := default "" bodyOauthId;
                 c_username :=
                   if truthy_opt_string bodyUsername then bodyUsername
                   else None;
                 c_planType := Some plan;
                 c_messageLeft := Some (messages limits);
                 c_documentLeft := Some (documents limits) |} in
            match create uuid userData st with
            | Ok (user, st') =>
                (sendSuccess (DataUser user) (Some "User created successfully"),
                 st')
            | Throw _ => (sendError 500 "Internal server error", st)
            end
        end
    end.

(** The answers of the delete endpoints: [data] is [null] in the first
    revision and [{ id, oauthId }] in the second. *)
Inductive Deleted :=
  | DeletedNull
  | DeletedKeys (i o : string).

Record DeleteResponse := mkDeleteResponse {
  del_statusCode : Z;
  del_status : string;
  del_message : string;
  del_data : option Deleted
}.

Definition sendDeleteError (status : Z) (message : string) : DeleteResponse :=
  mkDeleteResponse status "error" message None.

Definition sendDeleted (data : Deleted) (message : string) : DeleteResponse :=
  mkDeleteResponse 200 "success" message (Some data).

(** ** Routes keyed by the internal id (first revision of routes/index.ts) *)

Module RoutesById.

Definition PLAN_LIMITS (p : PlanType) : Limits :=
  match p with
  | BASIC => mkLimits 20 0
  | CORE => mkLimits 100 10
  | ADVANCED => mkLimits 500 50
  | PRO => mkLimits (-1) (-1)
  end.

Definition limitsData (limits : Limits) : UserUpdate :=
  {| u_email := None; u_oauthId := None; u_username := None;
     u_subscriptioStartDate := None; u_subscriptionEndDate := None;
     u_subscriptionStatus := None; u_planType := None;
     u_messagesUsed := Some 0; u_documentsUsed := Some 0;
     u_messageLeft := Some (messages limits);
     u_documentLeft := Some (documents limits) |}.

Definition resetUserLimits (userId : string) (planType : PlanType) (st : Store)
  : Result (User * Store) :=
  let limits := PLAN_LIMITS planType in
  update (WhereId userId) (limitsData limits) st.

(** [for (const user of users) { await step(user) }]: the writes made
    before a throw stay in the table. *)
Fixpoint forEach (users : list User)
    (step : User -> Store -> Result (User * Store)) (st : Store)
  : Store * option PrismaError :=
  match users with
  | [] => (st, None)
  | user :: rest =>
      match step user st with
      | Ok (_, st') => forEach rest step st'
      | Throw e => (st, Some e)
      end
  end.

Definition ltDate (d : option Z) (now : Z) : bool :=
  match d with Some t => t <? now | None => false end.

Definition betweenDates (d : option Z) (lo hi : Z) : bool :=
  match d with Some t => (lo <=? t) && (t <=? hi) | None => false end.

Definition isExpired (now : Z) (u : User) : bool :=
  ltDate (subscriptionEndDate u) now
  && negb (bool_decide (subscriptionStatus u = CANCELED)).

Definition isActive (u : User) : bool :=
  bool_decide (subscriptionStatus u = ACTIVE).

Definition downgradeData : UserUpdate :=
  {| u_email := None; u_oauthId := None; u_username := None;
     u_subscriptioStartDate := Some None;
     u_subscriptionEndDate := Some None;
     u_subscriptionStatus := Some UNPAID;
     u_planType := Some BASIC;
     u_messagesUsed := Some 0; u_documentsUsed := Some 0;
     u_messageLeft := Some (messages (PLAN_LIMITS BASIC));
     u_documentLeft := Some (documents (PLAN_LIMITS BASIC)) |}.

(** [cron.schedule('0 0 1 * *', ...)]: the table after the run and the
    error that the job's [catch] logged, if any. *)
Definition monthlyJob (now : Z) (st : Store) : Store * option PrismaError :=
  let expiredUsers := findMany (isExpired now) st in
  match forEach expiredUsers
          (fun user => update (WhereId (id user)) downgradeData) st with
  | (st1, Some e) => (st1, Some e)
  | (st1, None) =>
      let activeUsers := findMany isActive st1 in
      forEach activeUsers
        (fun user => resetUserLimits (id user) (planType user)) st1
  end.

Definition isSoonToExpire (now : Z) (u : User) : bool :=
  let threeDaysFromNow := JsDate.getTime now + 3 * 24 * 60 * 60 * 1000 in
  betweenDates (subscriptionEndDate u) now threeDaysFromNow
  && bool_decide (subscriptionStatus u = ACTIVE).

Definition pastDueData : UserUpdate :=
  {| u_email := None; u_oauthId := None; u_username := None;
     u_subscriptioStartDate := None; u_subscriptionEndDate := None;
     u_subscriptionStatus := Some PAST_DUE; u_planType := None;
     u_messagesUsed := None; u_documentsUsed := None;
     u_messageLeft := None; u_documentLeft := None |}.

(** [cron.schedule('0 0 * * *', ...)]. *)
Definition dailyJob (now : Z) (st : Store) : Store * option PrismaError :=
  let soonToExpire := findMany (isSoonToExpire now) st in
  forEach soonToExpire
    (fun user => update (WhereId (id user)) pastDueData) st.

(** [router.patch(`${BASE_PATH}/users/:id`, ...)]. *)
Definition patchUser (params_id : string) (updateData : UpdateBody) : Handler :=
  fun st =>
  if negb (truthy_string params_id) then
    (sendError 400 "User ID is required", st)
  else if truthy_opt_string (b_email updateData)
          && negb (isValidEmail (default "" (b_email updateData))) then
    (sendError 400 "Invalid email format", st)
  else if truthy_opt_string (b_planType updateData)
          && negb (isValidPlanType (default "" (b_planType updateData))) then
    (sendError 400 "Invalid plan type", st)
  else if truthy_opt_string (b_subscriptionStatus updateData)
          && negb (isValidSubscriptionStatus
                     (default "" (b_subscriptionStatus updateData))) then
    (sendError 400 "Invalid subscription status", st)
  else
    match findUnique (WhereId params_id) st with
    | None => (sendError 404 "User not found", st)
    | Some existingUser =>
        let updateData :=
          if truthy_opt_string (b_planType updateData)
             && negb (bool_decide (default "" (b_planType updateData)
                                   = planTypeName (planType existingUser)))
          then
            match parsePlanType (default "" (b_planType updateData)) with
            | Some p =>
                let limits := PLAN_LIMITS p in
                Some (set_documentsUsed 0
                        (set_messagesUsed 0
                           (set_documentLeft (documents limits)
                              (set_messageLeft (messages limits)
                                 updateData))))
            | None => None
            end
          else Some updateData in
        match updateData with
        | None => (sendError 500 "Internal server error", st)
        | Some updateData =>
            match asUserUpdate updateData with
            | None => (sendError 500 "Internal server error", st)
            | Some data =>
                match update (WhereId params_id) data st with
                | Ok (updatedUser, st') =>
                    (sendSuccess (DataUser updatedUser)
                       (Some "User updated successfully"), st')
                | Throw P2002 =>
                    (sendError 409 "Email or oauthId already exists", st)
                | Throw _ => (sendError 500 "Internal server error", st)
                end
            end
        end
    end.

(** The body of the usage endpoint: [{ type, amount = 1 }]. *)
Record UsageBody := mkUsageBody {
  ub_type : option string;
  ub_amount : option Z
}.

Definition isUsageType (type : option string) : bool :=
  match type with
  | Some t => bool_decide (t = "message") || bool_decide (t = "document")
  | None => false
  end.

Definition usageData (messagesUsed documentsUsed messageLeft documentLeft
                      : option Z) : UserUpdate :=
  {| u_email := None; u_oauthId := None; u_username := None;
     u_subscriptioStartDate := None; u_subscriptionEndDate := None;
     u_subscriptionStatus := None; u_planType := None;
     u_messagesUsed := messagesUsed; u_documentsUsed := documentsUsed;
     u_messageLeft := messageLeft; u_documentLeft := documentLeft |}.

(** [router.patch(`${BASE_PATH}/users/:id/usage`, ...)]. *)
Definition patchUsage (params_id : string) (body : UsageBody) : Handler :=
  fun st =>
  let type := ub_type body in
  let amount := default 1 (ub_amount body) in
  if negb (truthy_string params_id) then
    (sendError 400 "User ID is required", st)
  else if negb (truthy_opt_string type) || negb (isUsageType type) then
    (sendError 400
       ("Type must be either " +:+ dq +:+ "message" +:+ dq +:+ " or "
        +:+ dq +:+ "document" +:+ dq),
     st)
  else if amount <? 1 then
    (sendError 400 "Amount must be positive", st)
  else
    match findUnique (WhereId params_id) st with
    | None => (sendError 404 "User not found", st)
    | Some user =>
        let isMessage := bool_decide (type = Some "message") in
        let currentLeft :=
          if isMessage then messageLeft user else documentLeft user in
        if negb (currentLeft =? -1) && (currentLeft <? amount) then
          (sendError 403
             ("Insufficient " +:+ default "" type +:+ " quota remaining"),
           st)
        else
          let updateData :=
            if isMessage then
              usageData (Some (messagesUsed user + amount)) None
                (if negb (messageLeft user =? -1)
                 then Some (messageLeft user - amount) else None)
                None
            else
              usageData None (Some (documentsUsed user + amount)) None
                (if negb (documentLeft user =? -1)
                 then Some (documentLeft user - amount) else None) in
          match update (WhereId params_id) updateData st with
          | Ok (updatedUser, st') =>
              (sendSuccess (DataUser updatedUser)
                 (Some (default "" type +:+ " usage updated successfully")),
               st')
          | Throw _ => (sendError 500 "Internal server error", st)
          end
    end.

(** [router.get(`${BASE_PATH}/users/:id/stats`, ...)]; [now] is the
    value of [new Date()]. *)
Definition getStats (now : Z) (params_id : string) : Handler :=
  fun st =>
  if negb (truthy_string params_id) then
    (sendError 400 "User ID is required", st)
  else
    match findUnique (WhereId params_id) st with
    | None => (sendError 404 "User not found", st)
    | Some user =>
        let stats :=
          {| stats_userId := id user;
             stats_planType := planType user;
             stats_subscriptionStatus := subscriptionStatus user;
             usage_messages :=
               {| used := messagesUsed user;
                  remaining :=
                    if messageLeft user =? -1 then unlimited
                    else finite (messageLeft user);
                  total :=
                    if messageLeft user =? -1 then unlimited
                    else finite (messagesUsed user + messageLeft user) |};
             usage_documents :=
               {| used := documentsUsed user;
                  remaining :=
                    if documentLeft user =? -1 then unlimited
                    else finite (documentLeft user);
                  total :=
                    if documentLeft user =? -1 then unlimited
                    else finite (documentsUsed user + documentLeft user) |};
             subscription_startDate := subscriptioStartDate user;
             subscription_endDate := subscriptionEndDate user;
             subscription_daysRemaining :=
               match subscriptionEndDate user with
               | Some endDate =>
                   Some (JsDate.ceilDiv
                           (JsDate.getTime endDate - JsDate.getTime now)
                           (1000 * 60 * 60 * 24))
               | None => None
               end |} in
        (sendSuccess (DataStats stats) None, st)
    end.

(** [router.post(`${BASE_PATH}/users`, ...)]. *)
Definition postUser : string -> CreateBody -> Handler :=
  postUserWith PLAN_LIMITS.

(** [router.get(`${BASE_PATH}/users/:id`, ...)]. *)
Definition getUser (params_id : string) : Handler :=
  fun st =>
  if negb (truthy_string params_id) then
    (sendError 400 "User ID is required", st)
  else
    match findUnique (WhereId params_id) st with
    | None => (sendError 404 "User not found", st)
    | Some user => (sendSuccess (DataUser user) None, st)
    end.


(** The body [{ planType, subscriptionStatus, durationMonths = 1 }]. *)
Record SubscriptionBody := mkSubscriptionBody {
  sb_planType : option string;
  sb_subscriptionStatus : option string;
  sb_durationMonths : option Z
}.

(** [router.patch(`${BASE_PATH}/users/:id/subscription`, ...)]. *)
Definition patchSubscription (now : Z) (params_id : string)
    (body : SubscriptionBody) : Handler :=
  fun st =>
  let durationMonths := default 1 (sb_durationMonths body) in
  if negb (truthy_string params_id) then
    (sendError 400 "User ID is required", st)
  else if negb (truthy_opt_string (sb_planType body))
          || negb (isValidPlanType (default "" (sb_planType body))) then
    (sendError 400 "Valid plan type is required", st)
  else if negb (truthy_opt_string (sb_subscriptionStatus body))
          || negb (isValidSubscriptionStatus
                     (default "" (sb_subscriptionStatus body))) then
    (sendError 400 "Valid subscription status is required", st)
  else
    match findUnique (WhereId params_id) st with
    | None => (sendError 404 "User not found", st)
    | Some existingUser =>
        let endDate :=
          JsDate.getTime now + durationMonths * 30 * 24 * 60 * 60 * 1000 in
        match parsePlanType (default "" (sb_planType body)),
              parseSubscriptionStatus
                (default "" (sb_subscriptionStatus body)) with
        | Some plan, Some status =>
            let limits := PLAN_LIMITS plan in
            match update (WhereId params_id)
                    {| u_email := None; u_oauthId := None; u_username := None;
                       u_subscriptioStartDate := Some (Some now);
                       u_subscriptionEndDate := Some (Some endDate);
                       u_subscriptionStatus := Some status;
                       u_planType := Some plan;
                       u_messagesUsed := Some 0; u_documentsUsed := Some 0;
                       u_messageLeft := Some (messages limits);
                       u_documentLeft := Some (documents limits) |} st with
            | Ok (updatedUser, st') =>
                (sendSuccess (DataUser updatedUser)
                   (Some "Subscription updated successfully"), st')
            | Throw _ => (sendError 500 "Internal server error", st)
            end
        | _, _ => (sendError 500 "Internal server error", st)
        end
    end.

(** [router.delete(`${BASE_PATH}/users/:id`, ...)]. *)
Definition deleteUser (params_id : string) (st : Store)
  : DeleteResponse * Store :=
  if negb (truthy_string params_id) then
    (sendDeleteError 400 "User ID is required", st)
  else
    match findUnique (WhereId params_id) st with
    | None => (sendDeleteError 404 "User not found", st)
    | Some existingUser =>
        match delete (WhereId params_id) st with
        | Ok (_, st') =>
            (sendDeleted DeletedNull "User deleted successfully", st')
        | Throw _ => (sendDeleteError 500 "Internal server error", st)
        end
    end.

End RoutesById.

(** ** Routes keyed by the external identifier (second revision) *)

Module RoutesByOauthId.

Definition PLAN_LIMITS (p : PlanType) : Limits :=
  match p with
  | BASIC => mkLimits 20 0
  | CORE => mkLimits 100 10
  | ADVANCED => mkLimits 700 50
  | PRO => mkLimits 1500 400
  end.

(** [flag === true]; on a boolean flag this is also its truthiness. *)
Definition isTrue (flag : option bool) : bool :=
  match flag with Some true => true | _ => false end.

(** [const { incrementMessage, incrementDocument, messagesUsed,
    documentsUsed, planType, ...updateData } = req.body]. *)
Definition rest (body : UpdateBody) : UpdateBody :=
  mkBody (b_email body) (b_oauthId body) (b_username body)
    (b_subscriptioStartDate body) (b_subscriptionEndDate body)
    (b_subscriptionStatus body) None None None
    (b_messageLeft body) (b_documentLeft body) None None.

(** The block "Handle plan type changes with automatic subscription
    setup", entered with a [planType] that is truthy and differs from
    the stored one.  [None]: [PLAN_LIMITS[newPlan]] is undefined and
    reading [limits.messages] throws. *)
Definition planChange (LocalTZA : JsDate.TimeZone) (now : Z)
    (planType : string) (updateData : UpdateBody) : option UpdateBody :=
  match parsePlanType planType with
  | None => None
  | Some newPlan =>
      let limits := PLAN_LIMITS newPlan in
      let updateData := set_messageLeft (messages limits) updateData in
      let updateData := set_documentLeft (documents limits) updateData in
      let updateData := set_messagesUsed 0 updateData in
      let updateData := set_documentsUsed 0 updateData in
      let updateData := set_planType (planTypeName newPlan) updateData in
      if bool_decide (newPlan = CORE) || bool_decide (newPlan = ADVANCED)
         || bool_decide (newPlan = PRO) then
        let subscriptionEnd :=
          JsDate.setMonth LocalTZA now (JsDate.getMonth LocalTZA now + 1) in
        let updateData := set_subscriptioStartDate (Some now) updateData in
        let updateData :=
          set_subscriptionEndDate (Some subscriptionEnd) updateData in
        Some (set_subscriptionStatus "ACTIVE" updateData)
      else if bool_decide (newPlan = BASIC) then
        let updateData := set_subscriptionStatus "CANCELED" updateData in
        let updateData := set_subscriptionEndDate None updateData in
        Some (set_subscriptioStartDate None updateData)
      else Some updateData
  end.

(** The block "Handle usage updates (only if not changing plan type)",
    on the flags and the absolute values of the body. *)
Definition usageUpdate (existingUser : User) (body : UpdateBody)
    (updateData : UpdateBody) : UpdateBody :=
  let incrementMessage := b_incrementMessage body in
  let incrementDocument := b_incrementDocument body in
  let updateData :=
    if isTrue incrementMessage then
      let updateData :=
        set_messagesUsed (messagesUsed existingUser + 1) updateData in
      if negb (messageLeft existingUser =? -1)
      then set_messageLeft (Z.max 0 (messageLeft existingUser - 1)) updateData
      else updateData
    else updateData in
  let updateData :=
    if isTrue incrementDocument then
      let updateData :=
        set_documentsUsed (documentsUsed existingUser + 1) updateData in
      if negb (documentLeft existingUser =? -1)
      then set_documentLeft (Z.max 0 (documentLeft existingUser - 1)) updateData
      else updateData
    else updateData in
  let updateData :=
    match b_messagesUsed body with
    | Some bodyMessagesUsed =>
        if negb (isTrue incrementMessage) then
          let newMessagesUsed := Z.max 0 bodyMessagesUsed in
          let updateData := set_messagesUsed newMessagesUsed updateData in
          if negb (messageLeft existingUser =? -1) then
            let usageDifference :=
              newMessagesUsed - messagesUsed existingUser in
            set_messageLeft
              (Z.max 0 (messageLeft existingUser - usageDifference)) updateData
          else updateData
        else updateData
    | None => updateData
    end in
  match b_documentsUsed body with
  | Some bodyDocumentsUsed =>
      if negb (isTrue incrementDocument) then
        let newDocumentsUsed := Z.max 0 bodyDocumentsUsed in
        let updateData := set_documentsUsed newDocumentsUsed updateData in
        if negb (documentLeft existingUser =? -1) then
          let usageDifference :=
            newDocumentsUsed - documentsUsed existingUser in
          set_documentLeft
            (Z.max 0 (documentLeft existingUser - usageDifference)) updateData
        else updateData
      else updateData
  | None => updateData
  end.

(** [router.patch(`${BASE_PATH}/users/:oauthId`, ...)]; [now] is the
    value of [new Date()] and [LocalTZA] the time zone of the server. *)
Definition patchUser (LocalTZA : JsDate.TimeZone) (now : Z)
    (params_oauthId : string) (body : UpdateBody) : Handler :=
  fun st =>
  let bodyPlanType := b_planType body in
  let updateData := rest body in
  if negb (truthy_string params_oauthId) then
    (sendError 400 "OAuth ID is required", st)
  else if truthy_opt_string (b_email updateData)
          && negb (isValidEmail (default "" (b_email updateData))) then
    (sendError 400 "Invalid email format", st)
  else if truthy_opt_string bodyPlanType
          && negb (isValidPlanType (default "" bodyPlanType)) then
    (sendError 400 "Invalid plan type", st)
  else if truthy_opt_string (b_subscriptionStatus updateData)
          && negb (isValidSubscriptionStatus
                     (default "" (b_subscriptionStatus updateData))) then
    (sendError 400 "Invalid subscription status", st)
  else
    match findUnique (WhereOauthId params_oauthId) st with
    | None => (sendError 404 "User not found", st)
    | Some existingUser =>
        let updateData :=
          if truthy_opt_string bodyPlanType
             && negb (bool_decide
                        (default "" bodyPlanType
                         = planTypeName (planType existingUser)))
          then planChange LocalTZA now (default "" bodyPlanType) updateData
          else Some updateData in
        match updateData with
        | None => (sendError 500 "Internal server error", st)
        | Some updateData =>
            let updateData :=
              if negb (truthy_opt_string bodyPlanType)
                 && (isTrue (b_incrementMessage body)
                     || isTrue (b_incrementDocument body)
                     || bool_decide (is_Some (b_messagesUsed body))
                     || bool_decide (is_Some (b_documentsUsed body)))
              then usageUpdate existingUser body updateData
              else updateData in
            if noKeys updateData then
              (sendError 400 "No valid updates provided", st)
            else
              match asUserUpdate updateData with
              | None => (sendError 500 "Internal server error", st)
              | Some data =>
                  match update (WhereOauthId params_oauthId) data st with
                  | Ok (updatedUser, st') =>
                      (sendSuccess (DataUser updatedUser)
                         (Some "User updated successfully"), st')
                  | Throw P2002 =>
                      (sendError 409 "Email or oauthId already exists", st)
                  | Throw P2025 => (sendError 404 "User not found", st)
                  | Throw _ => (sendError 500 "Internal server error", st)
                  end
              end
        end
    end.

(** [router.post(`${BASE_PATH}/users`, ...)]. *)
Definition postUser : string -> CreateBody -> Handler :=
  postUserWith PLAN_LIMITS.

(** [router.get(`${BASE_PATH}/users/:oauthId`, ...)]. *)
Definition getUser (params_oauthId : string) : Handler :=
  fun st =>
  if negb (truthy_string params_oauthId) then
    (sendError 400 "OAuth ID is required", st)
  else
    match findUnique (WhereOauthId params_oauthId) st with
    | None => (sendError 404 "User not found", st)
    | Some user => (sendSuccess (DataUser user) None, st)
    end.

(** [router.get(`${BASE_PATH}/users/id/:id`, ...)]. *)
Definition getUserById (params_id : string) : Handler :=
  fun st =>
  if negb (truthy_string params_id) then
    (sendError 400 "User ID is required", st)
  else
    match findUnique (WhereId params_id) st with
    | None => (sendError 404 "User not found", st)
    | Some user => (sendSuccess (DataUser user) None, st)
    end.

(** [router.delete(`${BASE_PATH}/users/:oauthId`, ...)]. *)
Definition deleteUser (params_oauthId : string) (st : Store)
  : DeleteResponse * Store :=
  if negb (truthy_string params_oauthId) then
    (sendDeleteError 400 "OAuth ID is required", st)
  else
    match findUnique (WhereOauthId params_oauthId) st with
    | None => (sendDeleteError 404 "User not found", st)
    | Some existingUser =>
        match delete (WhereOauthId params_oauthId) st with
        | Ok (_, st') =>
            (sendDeleted (DeletedKeys (id existingUser) params_oauthId)
               "User deleted successfully", st')
        | Throw P2025 => (sendDeleteError 404 "User not found", st)
        | Throw _ => (sendDeleteError 500 "Internal server error", st)
        end
    end.

(** [router.delete(`${BASE_PATH}/users/id/:id`, ...)]. *)
Definition deleteUserById (params_id : string) (st : Store)
  : DeleteResponse * Store :=
  if negb (truthy_string params_id) then
    (sendDeleteError 400 "User ID is required", st)
  else
    match findUnique (WhereId params_id) st with
    | None => (sendDeleteError 404 "User not found", st)
    | Some existingUser =>
        match delete (WhereId params_id) st with
        | Ok (_, st') =>
            (sendDeleted (DeletedKeys params_id (oauthId existingUser))
               "User deleted successfully", st')
        | Throw P2025 => (sendDeleteError 404 "User not found", st)
        | Throw _ => (sendDeleteError 500 "Internal server error", st)
        end
    end.

End RoutesByOauthId.

(** ** Middleware (middleware/clerkAuthenticate.ts) *)

(** What a middleware or a webhook handler does with the request: it
    answers, or it hands over with [next()]. *)
Inductive Action :=
  | Send (res : Response)
  | CallNext.

(** The headers the server reads. *)
Record Headers := mkHeaders {
  authorization : option string;
  svix_id : option string;
  svix_timestamp : option string;
  svix_signature : option string
}.

Module clerk.

(** [clerkClient.verifyToken(token)]: the promise resolves with the
    claims of the session or rejects. *)
Inductive Verification :=
  | Resolved (claims : string)
  | Rejected (reason : string).

Definition Client := string -> Verification.

End clerk.

Definition clerkAuthenticate (verifyToken : clerk.Client) (headers : Headers)
  : Action :=
  let sessionToken :=
    match authorization headers with
    | Some a => JsString.index (JsString.split " " a) 1
    | None => None
    end in
  match verifyToken (if truthy_opt_string sessionToken
                     then default "" sessionToken else "") with
  | clerk.Resolved response => CallNext
  | clerk.Rejected error => CallNext
  end.

(** [router.METHOD(path, middleware, handler)]. *)
Definition route (middleware : Headers -> Action) (handler : Handler)
  : Headers -> Handler :=
  fun headers st =>
    match middleware headers with
    | CallNext => handler st
    | Send res => (res, st)
    end.

(** ** The identity-provider webhook (webhooks/clerkUserWebhook.ts) *)

Module svix.

Record EmailAddress := mkEmailAddress {
  ea_id : string;
  email_address : string
}.

(** [event.data] of a user event. *)
Record UserJSON := mkUserJSON {
  data_id : string;
  email_addresses : list EmailAddress;
  primary_email_address_id : option string;
  data_username : option string
}.

Record WebhookEvent := mkEvent {
  type : string;
  data : UserJSON
}.

(** The library: [new Webhook(secret)] may throw on a secret it cannot
    decode; [webhook.verify(body, headers)] returns the event or throws. *)
Record Library := mkLibrary {
  Webhook : Type;
  newWebhook : string -> option Webhook;
  verify : Webhook -> string -> Headers -> option WebhookEvent
}.

End svix.

Module clerkUserWebhook.

Import svix.

(** [process.env]. *)
Record Env := mkEnv {
  USER_WEBHOOK_SECRET : option string;
  WEBHOOK_SECRET : option string
}.

(** The request: its headers and [JSON.stringify(req.body)]. *)
Record Request := mkRequest {
  headers : Headers;
  body : string
}.

Definition primaryEmailOf (userData : UserJSON) : option EmailAddress :=
  List.find
    (fun email =>
       bool_decide (Some (ea_id email) = primary_email_address_id userData))
    (email_addresses userData).

Definition usernameOf (userData : UserJSON) (primaryEmail : EmailAddress)
  : option string :=
  if truthy_opt_string (data_username userData) then data_username userData
  else JsString.index (JsString.split "@" (email_address primaryEmail)) 0.

(** [uuid] is the primary key the database draws if a row is created. *)
Definition handleUserCreated (uuid : string) (userData : UserJSON)
    (st : Store) : Result Store :=
  match primaryEmailOf userData with
  | None => Ok st
  | Some primaryEmail =>
      match create uuid
              {| c_email := email_address primaryEmail;
                 c_oauthId := data_id userData;
                 c_username := usernameOf userData primaryEmail;
                 c_planType := None; c_messageLeft := None;
                 c_documentLeft := None |} st with
      | Ok (user, st') => Ok st'
      | Throw error => Throw error
      end
  end.

Definition handleUserUpdated (userData : UserJSON) (st : Store)
  : Result Store :=
  match primaryEmailOf userData with
  | None => Ok st
  | Some primaryEmail =>
      match update (WhereOauthId (data_id userData))
              {| u_email := Some (email_address primaryEmail);
                 u_oauthId := None;
                 u_username := Some (usernameOf userData primaryEmail);
                 u_subscriptioStartDate := None;
                 u_subscriptionEndDate := None;
                 u_subscriptionStatus := None; u_planType := None;
                 u_messagesUsed := None; u_documentsUsed := None;
                 u_messageLeft := None; u_documentLeft := None |} st with
      | Ok (user, st') => Ok st'
      | Throw error => Throw error
      end
  end.

Definition handleUserDeleted (userData : UserJSON) (st : Store)
  : Result Store :=
  match delete (WhereOauthId (data_id userData)) st with
  | Ok (_, st') => Ok st'
  | Throw error => Throw error
  end.

Definition json (status : Z) (kind message : string) : Action :=
  Send (mkResponse status kind message None).

(** The [switch] on the type of a verified user event. *)
Definition dispatch (uuid : string) (event : WebhookEvent) (st : Store)
  : Result Store :=
  if bool_decide (type event = "user.created") then
    handleUserCreated uuid (data event) st
  else if bool_decide (type event = "user.updated") then
    handleUserUpdated (data event) st
  else if bool_decide (type event = "user.deleted") then
    handleUserDeleted (data event) st
  else Ok st.

(** [process.env.USER_WEBHOOK_SECRET || process.env.WEBHOOK_SECRET]. *)
Definition webhookSecret (env : Env) : option string :=
  if truthy_opt_string (USER_WEBHOOK_SECRET env)
  then USER_WEBHOOK_SECRET env else WEBHOOK_SECRET env.

Definition handleUserWebhook (lib : Library) (env : Env) (uuid : string)
    (req : Request) (st : Store) : Action * Store :=
  let WEBHOOK_SECRET := webhookSecret env in
  if negb (truthy_opt_string WEBHOOK_SECRET) then
    (json 500 "error" "Server configuration error", st)
  else if negb (truthy_opt_string (svix_id (headers req)))
          || negb (truthy_opt_string (svix_timestamp (headers req)))
          || negb (truthy_opt_string (svix_signature (headers req))) then
    (json 400 "error" "Missing verification headers", st)
  else
    match newWebhook lib (default "" WEBHOOK_SECRET) with
    | None => (json 500 "error" "Error processing webhook", st)
    | Some webhook =>
        match verify lib webhook (body req) (headers req) with
        | None => (json 400 "error" "Invalid webhook signature", st)
        | Some event =>
            if JsString.startsWith "user." (type event) then
              match dispatch uuid event st with
              | Ok st' =>
                  (json 200 "success" "User webhook processed successfully",
                   st')
              | Throw _ => (json 500 "error" "Error processing webhook", st)
              end
            else (CallNext, st)
        end
    end.

End clerkUserWebhook.

(** A request that gets past the guards of [handleUserWebhook]: the
    secret is configured, the three headers are there, and the verifier
    built from the secret returns [event] for this body and these
    headers. *)
Definition verifiedAs (lib : svix.Library) (env : clerkUserWebhook.Env)
    (req : clerkUserWebhook.Request) (event : svix.WebhookEvent) : Prop :=
  exists s w,
    clerkUserWebhook.webhookSecret env = Some s /\ s <> ""
    /\ truthy_opt_string (svix_id (clerkUserWebhook.headers req)) = true
    /\ truthy_opt_string (svix_timestamp (clerkUserWebhook.headers req)) = true
    /\ truthy_opt_string (svix_signature (clerkUserWebhook.headers req)) = true
    /\ svix.newWebhook lib s = Some w
    /\ svix.verify lib w (clerkUserWebhook.body req)
         (clerkUserWebhook.headers req) = Some event.

(** ** The constraints of the schema

    [id] is the primary key; [email] and [oauthId] carry [@unique]. *)
Definition wellKeyed (st : Store) : Prop :=
  List.NoDup (map id st)
  /\ List.NoDup (map email st)
  /\ List.NoDup (map oauthId st).

(** ** Errors (utils/errorHandler.ts, middleware/errorHandlers.ts) *)

Module errorHandlers.

(** An error object as the handlers look at it: a [CustomError] with its
    status code, or any other error with its optional [code] and
    [meta.target]. *)
Inductive JsError :=
  | CustomError (message : string) (statusCode : Z) (stack : string)
  | OtherError (message : string) (code : option string)
      (target : option string) (stack : string).

Definition stack_of (error : JsError) : string :=
  match error with
  | CustomError _ _ stack => stack
  | OtherError _ _ _ stack => stack
  end.

(** The JSON body of an error response and its status line. *)
Record ErrorResponse := mkErrorResponse {
  err_httpStatus : Z;
  err_status : string;
  err_statusCode : Z;
  err_message : string;
  err_stack : option string
}.

(** [errorMap[prismaError.code] || { status: 500, ... }]. *)
Definition errorInfo (code : string) (target : option string) : Z * string :=
  if bool_decide (code = "P2002") then
    (409, "Duplicate entry: " +:+ default "undefined" target)
  else if bool_decide (code = "P2003") then
    (400, "Foreign key constraint failed")
  else if bool_decide (code = "P2025") then (404, "Record not found")
  else if bool_decide (code = "P1001") then (503, "Database connection failed")
  else if bool_decide (code = "P1009") then (503, "Database connection timeout")
  else (500, "Database error occurred").

(** [prismaErrorHandler]: the error it hands to [next]. *)
Definition prismaErrorHandler (here : string) (error : JsError) : JsError :=
  match error with
  | OtherError _ (Some code) target _ =>
      if truthy_string code && JsString.startsWith "P" code then
        CustomError (snd (errorInfo code target)) (fst (errorInfo code target))
          here
      else error
  | _ => error
  end.

(** [globalErrorHandler]; [NODE_ENV] is [process.env.NODE_ENV]. *)
Definition globalErrorHandler (NODE_ENV : option string) (error : JsError)
  : ErrorResponse :=
  let statusCode :=
    match error with CustomError _ statusCode _ => statusCode | _ => 500 end in
  let message :=
    match error with
    | CustomError message _ _ => message
    | _ => "Internal Server Error"
    end in
  mkErrorResponse statusCode "error" statusCode message
    (if bool_decide (NODE_ENV = Some "development")
     then Some (stack_of error) else None).

(** The error-handling chain of app.ts:
    [app.use(prismaErrorHandler); app.use(globalErrorHandler)]. *)
Definition errorChain (NODE_ENV : option string) (here : string)
    (error : JsError) : ErrorResponse :=
  globalErrorHandler NODE_ENV (prismaErrorHandler here error).

End errorHandlers.

(** The names of the members of [SubscriptionStatus]. *)
Definition subscriptionStatusName (s : SubscriptionStatus) : string :=
  match s with
  | ACTIVE => "ACTIVE" | CANCELED => "CANCELED" | PAST_DUE => "PAST_DUE"
  | INCOMPLETE => "INCOMPLETE" | INCOMPLETE_EXPIRED => "INCOMPLETE_EXPIRED"
  | TRIALING => "TRIALING" | UNPAID => "UNPAID"
  end.

(** ** Sample data *)

Module Sample.

(** A user as the create endpoint makes it on the BASIC plan. *)
Definition alice : User :=
  {| id := "u1"; email := "a@b.com"; oauthId := "x1";
     username := Some "a";
     subscriptioStartDate := None; subscriptionEndDate := None;
     subscriptionStatus := UNPAID; planType := BASIC;
     messagesUsed := 0; documentsUsed := 0;
     messageLeft := 20; documentLeft := 0 |}.

(** A user whose used-counter has reached the end of its column. *)
Definition heavy : User :=
  {| id := "u6"; email := "heavy@example.com"; oauthId := "x6";
     username := None;
     subscriptioStartDate := None; subscriptionEndDate := None;
     subscriptionStatus := UNPAID; planType := BASIC;
     messagesUsed := 2147483647; documentsUsed := 0;
     messageLeft := 5; documentLeft := 0 |}.

(** 2024-01-31T12:00:00Z. *)
Definition jan31 : Z := 1706702400000.

(** The zone America/New_York in 2024: five hours behind UTC, four from
    2024-03-10T07:00:00Z to 2024-11-03T06:00:00Z.  A local time that the
    clock skips or shows twice is read with the offset in force before
    the change. *)
Definition newYork : JsDate.TimeZone :=
  fun t isUTC =>
    let lo := if isUTC then 1710054000000 else 1710054000000 - 14400000 in
    let hi := if isUTC then 1730613600000 else 1730613600000 - 14400000 in
    if (lo <=? t) && (t <? hi) then -14400000 else -18000000.

(** A paying user whose subscription ends two days after [jan31]. *)
Definition bob : User :=
  {| id := "u2"; email := "bob@example.com"; oauthId := "x2";
     username := None;
     subscriptioStartDate := Some (jan31 - 28 * JsDate.msPerDay);
     subscriptionEndDate := Some (jan31 + 2 * JsDate.msPerDay);
     subscriptionStatus := ACTIVE; planType := CORE;
     messagesUsed := 5; documentsUsed := 1;
     messageLeft := 95; documentLeft := 9 |}.

(** A paying user whose subscription ended the day before [jan31]. *)
Definition carol : User :=
  {| id := "u3"; email := "carol@example.com"; oauthId := "x3";
     username := Some "carol";
     subscriptioStartDate := Some (jan31 - 32 * JsDate.msPerDay);
     subscriptionEndDate := Some (jan31 - JsDate.msPerDay);
     subscriptionStatus := ACTIVE; planType := ADVANCED;
     messagesUsed := 40; documentsUsed := 2;
     messageLeft := 460; documentLeft := 48 |}.

(** A user on the first revision's PRO plan: both counters unlimited. *)
Definition dave : User :=
  {| id := "u4"; email := "dave@example.com"; oauthId := "x4";
     username := Some "dave";
     subscriptioStartDate := Some jan31;
     subscriptionEndDate := Some (jan31 + 30 * JsDate.msPerDay);
     subscriptionStatus := ACTIVE; planType := PRO;
     messagesUsed := 7; documentsUsed := 3;
     messageLeft := -1; documentLeft := -1 |}.

Definition table : Store := [alice; bob; carol; dave].

(** The body [{ planType }]. *)
Definition planBody (p : PlanType) : UpdateBody :=
  set_planType (planTypeName p) emptyBody.

End Sample.

Module SampleWebhook.

Import svix clerkUserWebhook.

(** A stand-in for the signature scheme: the verifier holds the secret
    and accepts the signature that spells it out; the event it returns
    is read off the body. *)
Definition erin : UserJSON :=
  {| data_id := "x5";
     email_addresses :=
       [mkEmailAddress "em1" "old@example.com";
        mkEmailAddress "em2" "erin@example.com"];
     primary_email_address_id := Some "em2";
     data_username := None |}.

Definition lib : Library :=
  {| Webhook := string;
     newWebhook := fun secret => Some secret;
     verify := fun webhook body headers =>
       if bool_decide (svix_signature headers = Some ("v1," +:+ webhook))
       then Some (mkEvent body erin) else None |}.

Definition env : Env :=
  {| USER_WEBHOOK_SECRET := None; WEBHOOK_SECRET := Some "whsec" |}.

(** The row of that user before the identity provider knew the new
    address, and the table that holds it. *)
Definition erinRow : User :=
  {| id := "u5"; email := "old@example.com"; oauthId := "x5";
     username := Some "old";
     subscriptioStartDate := Some 1706702400000;
     subscriptionEndDate := Some 1709380800000;
     subscriptionStatus := ACTIVE; planType := CORE;
     messagesUsed := 4; documentsUsed := 1;
     messageLeft := 96; documentLeft := 9 |}.

Definition tableWithErin : Store :=
  [Sample.alice; Sample.bob; erinRow; Sample.carol; Sample.dave].

Definition signed (body : string) : Request :=
  mkRequest (mkHeaders None (Some "msg1") (Some "1706702400")
               (Some "v1,whsec")) body.

Definition forged (body : string) : Request :=
  mkRequest (mkHeaders None (Some "msg1") (Some "1706702400")
               (Some "v1,guess")) body.

Definition bare (body : string) : Request :=
  mkRequest (mkHeaders None None None None) body.

End SampleWebhook.

(** * Properties *)

(** ** Dates *)

(** [d.setMonth(d.getMonth() + 1)]: the same day of the next month; a
    day the next month does not have rolls over into the month after
    (2024-01-31 becomes 2024-03-02), December moves into January. *)
Example setMonth_next_month :
  let nextMonth zone t := JsDate.setMonth zone t (JsDate.getMonth zone t + 1) in
  nextMonth JsDate.utc 1705276800000 = 1707955200000  (* 01-15 -> 02-15 *)
  /\ nextMonth JsDate.utc Sample.jan31 = 1709380800000 (* 01-31 -> 03-02 *)
  /\ nextMonth JsDate.utc 1702598400000 = 1705276800000 (* 12-15 -> 01-15 *)
  (* 2024-02-15T12:00Z, 07:00 in New York, to 03-15 07:00 there, which
     is 11:00Z: 29 days less one hour *)
  /\ nextMonth Sample.newYork 1707998400000 = 1710500400000.
Proof. repeat split. Qed.

(** ** The persistence layer *)

Lemma find_replaceFirst (p : User -> bool) (u u' : User) (st : Store) :
  List.find p st = Some u -> p u' = true ->
  List.find p (replaceFirst p u' st) = Some u'.
Proof.
  intros Hfind Hp. induction st as [|r rs IH]; simpl in *; [discriminate|].
  destruct (p r) eqn:Hr; simpl.
  - now rewrite Hp.
  - rewrite Hr. now apply IH.
Qed.

Lemma violatesUnique_plain (d : UserUpdate) (u u' : User) (st : Store) :
  u_email d = None -> u_oauthId d = None -> violatesUnique d u u' st = false.
Proof.
  intros He Ho. unfold violatesUnique. rewrite He, Ho.
  induction st as [|r rs IH]; [reflexivity|].
  cbn [existsb]. rewrite IH.
  change (bool_decide (is_Some (@None string))) with false.
  now destruct (bool_decide (id r = id u)).
Qed.

(** An update that writes neither [email] nor [oauthId] of a row that
    exists, with values that the columns can hold, goes through. *)
Lemma update_plain (w : UserWhereUnique) (d : UserUpdate) (u : User)
    (st : Store) :
  findUnique w st = Some u -> u_email d = None -> u_oauthId d = None ->
  validData d = true ->
  update w d st
  = Ok (applyUpdate d u, replaceFirst (matches w) (applyUpdate d u) st).
Proof.
  intros Hfind He Ho Hv. unfold update. rewrite Hv, Hfind.
  now rewrite violatesUnique_plain.
Qed.

(** An update with a value that a column cannot hold is refused. *)
Lemma update_refused (w : UserWhereUnique) (d : UserUpdate) (st : Store) :
  validData d = false -> update w d st = Throw ValueOutOfRange.
Proof. intros Hv. unfold update. now rewrite Hv. Qed.

Lemma update_valid (w : UserWhereUnique) (d : UserUpdate) (st : Store) :
  validData d = true ->
  update w d st
  = match findUnique w st with
    | None => Throw P2025
    | Some u =>
        if violatesUnique d u (applyUpdate d u) st then Throw P2002
        else Ok (applyUpdate d u,
                 replaceFirst (matches w) (applyUpdate d u) st)
    end.
Proof. intros Hv. unfold update. now rewrite Hv. Qed.

Lemma update_ok_inv (w : UserWhereUnique) (d : UserUpdate) (st st' : Store)
    (u' : User) :
  update w d st = Ok (u', st') ->
  validData d = true
  /\ exists u,
       findUnique w st = Some u /\ u' = applyUpdate d u
       /\ violatesUnique d u u' st = false
       /\ st' = replaceFirst (matches w) u' st.
Proof.
  unfold update. destruct (validData d); [|discriminate]. cbn [negb].
  destruct (findUnique w st) as [u|]; [|discriminate].
  destruct (violatesUnique d u (applyUpdate d u) st) eqn:Hv; [discriminate|].
  intros H. inversion H; subst. split; [reflexivity|]. now exists u.
Qed.

(** Entering [update] in a goal that is conditional on an answer of
    200: the refused case goes away. *)
Ltac enter_update :=
  unfold update;
  match goal with
  | |- context [validData ?d] => destruct (validData d) eqn:?Hvalid
  end;
  cbn [negb]; [|cbn; intros; discriminate].

Lemma fitsInt_iff (n : Z) :
  fitsInt n = true <-> -2147483648 <= n <= 2147483647.
Proof. unfold fitsInt. rewrite andb_true_iff, !Z.leb_le. tauto. Qed.

Lemma fitsDateTime_iff (t : Z) :
  fitsDateTime t = true <-> -62167219200000 <= t <= 253402300799999.
Proof. unfold fitsDateTime. rewrite andb_true_iff, !Z.leb_le. tauto. Qed.

Lemma fitsColumns_inv (u : User) :
  fitsColumns u = true ->
  fitsOptDateTime (subscriptioStartDate u) = true
  /\ fitsOptDateTime (subscriptionEndDate u) = true
  /\ fitsInt (messagesUsed u) = true /\ fitsInt (documentsUsed u) = true
  /\ fitsInt (messageLeft u) = true /\ fitsInt (documentLeft u) = true.
Proof. unfold fitsColumns. rewrite !andb_true_iff. tauto. Qed.

Lemma findUnique_matches (w : UserWhereUnique) (u : User) (st : Store) :
  findUnique w st = Some u -> matches w u = true.
Proof. intros H. apply find_some in H. tauto. Qed.

Lemma findUnique_In (w : UserWhereUnique) (u : User) (st : Store) :
  findUnique w st = Some u -> In u st.
Proof. intros H. apply find_some in H. tauto. Qed.

Lemma findUnique_id (i : string) (u : User) (st : Store) :
  findUnique (WhereId i) st = Some u -> id u = i.
Proof.
  intros H. apply findUnique_matches in H. simpl in H.
  now apply bool_decide_eq_true in H.
Qed.

Lemma find_after_replace (p q : User -> bool) (u u' : User) (st : Store) :
  List.find p st = Some u -> q u' = true ->
  (forall r, In r st -> p r = false -> q r = false) ->
  List.find q (replaceFirst p u' st) = Some u'.
Proof.
  induction st as [|r rs IH]; simpl; [discriminate|].
  destruct (p r) eqn:Hp; intros Hfind Hq Hst.
  - simpl. now rewrite Hq.
  - simpl. rewrite (Hst r (or_introl eq_refl) Hp).
    apply IH; trivial. intros x Hx. apply Hst. now right.
Qed.

Lemma NoDup_key_inj {A} (f : User -> A) (st : Store) (x y : User) :
  List.NoDup (map f st) -> In x st -> In y st -> f x = f y -> x = y.
Proof.
  induction st as [|r rs IH]; simpl; [tauto|]. intros Hnd Hx Hy E.
  inversion Hnd as [|? ? Hnin Hnd']; subst.
  destruct Hx as [->|Hx], Hy as [->|Hy]; trivial.
  - exfalso. apply Hnin. rewrite E. now apply in_map.
  - exfalso. apply Hnin. rewrite <- E. now apply in_map.
  - now apply IH.
Qed.

(** On a table with distinct primary keys, the row that an update
    rewrote is the row that the primary key finds afterwards. *)
Lemma lookup_after_replace (w : UserWhereUnique) (u u' : User) (st : Store) :
  List.NoDup (map id st) -> findUnique w st = Some u -> id u' = id u ->
  findUnique (WhereId (id u)) (replaceFirst (matches w) u' st) = Some u'.
Proof.
  intros Hnd Hfind Hid.
  apply find_after_replace with (u := u); [exact Hfind| |].
  - now apply bool_decide_eq_true_2.
  - intros r Hr Hp. apply bool_decide_eq_false_2. intros E.
    assert (r = u).
    { apply (NoDup_key_inj id st r u Hnd Hr); [|exact E].
      eapply findUnique_In; eauto. }
    subst r. rewrite (findUnique_matches _ _ _ Hfind) in Hp. discriminate.
Qed.

Lemma truthy_string_true (s : string) : s <> "" -> truthy_string s = true.
Proof.
  intros H. unfold truthy_string. now rewrite bool_decide_eq_false_2.
Qed.

(** ** Usage consumption (C1) *)

(** What the usage endpoint does for a stored user and an amount of at
    least 1, by the counter of the requested type. *)
Lemma patchUsage_run (st : Store) (i : string) (u : User) (type : string)
    (amount : option Z) :
  let a := default 1 amount in
  let isMessage := bool_decide (Some type = Some "message") in
  let left := if isMessage then messageLeft u else documentLeft u in
  let data :=
    if isMessage then
      RoutesById.usageData (Some (messagesUsed u + a)) None
        (if negb (messageLeft u =? -1) then Some (messageLeft u - a) else None)
        None
    else
      RoutesById.usageData None (Some (documentsUsed u + a)) None
        (if negb (documentLeft u =? -1) then Some (documentLeft u - a)
         else None) in
  i <> "" -> findUnique (WhereId i) st = Some u -> 1 <= a ->
  type = "message" \/ type = "document" ->
  RoutesById.patchUsage i (RoutesById.mkUsageBody (Some type) amount) st
  = if negb (left =? -1) && (left <? a) then
      (mkResponse 403 "error"
         ("Insufficient " +:+ type +:+ " quota remaining") None, st)
    else if validData data then
      (mkResponse 200 "success" (type +:+ " usage updated successfully")
         (Some (DataUser (applyUpdate data u))),
       replaceFirst (matches (WhereId i)) (applyUpdate data u) st)
    else (mkResponse 500 "error" "Internal server error" None, st).
Proof.
  intros a isMessage left data Hi Hfind Ha Htype.
  unfold RoutesById.patchUsage.
  cbn [RoutesById.ub_type RoutesById.ub_amount]. fold a.
  rewrite (truthy_string_true i Hi).
  assert (Hguard : negb (truthy_opt_string (Some type))
                   || negb (RoutesById.isUsageType (Some type)) = false)
    by (destruct Htype as [-> | ->]; reflexivity).
  rewrite Hguard. cbn [negb].
  rewrite (proj2 (Z.ltb_ge a 1) Ha), Hfind.
  fold isMessage. fold left.
  destruct (negb (left =? -1) && (left <? a)); [reflexivity|].
  fold data. destruct (validData data) eqn:Hv.
  - rewrite (update_plain (WhereId i) data u st Hfind); trivial.
    + destruct Htype as [-> | ->]; reflexivity.
    + subst data. now destruct isMessage.
    + subst data. now destruct isMessage.
  - rewrite (update_refused _ _ _ Hv). reflexivity.
Qed.

(** C1.  PATCH /api/v1/users/:id/usage on a stored user whose left-counter
    is not the sentinel -1, for a requested amount a >= 1 (the default 1
    when the body gives none).  When a exceeds the left-counter L the
    answer is 403 and the table is unchanged.  When a <= L and the
    used-counter plus a still fits the 32-bit column, the answer is 200,
    the used-counter grows by a, the left-counter becomes L - a, and
    nothing else changes in the row.  When a <= L and the used-counter
    plus a exceeds 2147483647, the write is refused, the answer is 500
    and the table is unchanged.  So the request succeeds exactly when
    a <= L and used + a <= 2147483647.  The statement is the same for
    type message over messageLeft / messagesUsed and for type document
    over documentLeft / documentsUsed; the stored row holds values of
    its columns' types. *)
Theorem usage_consume_finite (st : Store) (i : string) (u : User)
    (amount : option Z) :
  let a := default 1 amount in
  i <> "" -> findUnique (WhereId i) st = Some u -> fitsColumns u = true ->
  1 <= a ->
  (messageLeft u <> -1 ->
   let r := RoutesById.patchUsage i
              (RoutesById.mkUsageBody (Some "message") amount) st in
   let u' := mkUser (id u) (email u) (oauthId u) (username u)
               (subscriptioStartDate u) (subscriptionEndDate u)
               (subscriptionStatus u) (planType u)
               (messagesUsed u + a) (documentsUsed u)
               (messageLeft u - a) (documentLeft u) in
   (statusCode (fst r) = 200
    <-> a <= messageLeft u /\ messagesUsed u + a <= 2147483647)
   /\ (a <= messageLeft u -> messagesUsed u + a <= 2147483647 ->
       fst r = mkResponse 200 "success" "message usage updated successfully"
                 (Some (DataUser u'))
       /\ snd r = replaceFirst (matches (WhereId i)) u' st
       /\ findUnique (WhereId i) (snd r) = Some u')
   /\ (a <= messageLeft u -> 2147483647 < messagesUsed u + a ->
       fst r = mkResponse 500 "error" "Internal server error" None
       /\ snd r = st)
   /\ (messageLeft u < a ->
       fst r = mkResponse 403 "error" "Insufficient message quota remaining"
                 None
       /\ snd r = st))
  /\
  (documentLeft u <> -1 ->
   let r := RoutesById.patchUsage i
              (RoutesById.mkUsageBody (Some "document") amount) st in
   let u' := mkUser (id u) (email u) (oauthId u) (username u)
               (subscriptioStartDate u) (subscriptionEndDate u)
               (subscriptionStatus u) (planType u)
               (messagesUsed u) (documentsUsed u + a)
               (messageLeft u) (documentLeft u - a) in
   (statusCode (fst r) = 200
    <-> a <= documentLeft u /\ documentsUsed u + a <= 2147483647)
   /\ (a <= documentLeft u -> documentsUsed u + a <= 2147483647 ->
       fst r = mkResponse 200 "success" "document usage updated successfully"
                 (Some (DataUser u'))
       /\ snd r = replaceFirst (matches (WhereId i)) u' st
       /\ findUnique (WhereId i) (snd r) = Some u')
   /\ (a <= documentLeft u -> 2147483647 < documentsUsed u + a ->
       fst r = mkResponse 500 "error" "Internal server error" None
       /\ snd r = st)
   /\ (documentLeft u < a ->
       fst r = mkResponse 403 "error" "Insufficient document quota remaining"
                 None
       /\ snd r = st)).
Proof.
  intros a Hi Hfind Hfits Ha.
  assert (Hid : matches (WhereId i) u = true)
    by (eapply findUnique_matches; eauto).
  destruct (fitsColumns_inv u Hfits) as (_ & _ & Hmu & Hdu & Hml & Hdl).
  apply fitsInt_iff in Hmu, Hdu, Hml, Hdl.
  split; intros Hfin r u'; subst r.
  - rewrite (patchUsage_run st i u "message" amount Hi Hfind Ha
               (or_introl eq_refl)).
    fold a. change (bool_decide (Some "message" = Some "message")) with true.
    cbn iota. rewrite (proj2 (Z.eqb_neq _ _) Hfin). cbn [negb andb].
    destruct (messageLeft u <? a) eqn:Hlt.
    + apply Z.ltb_lt in Hlt. cbn [fst snd statusCode].
      repeat split; intros; try lia; try discriminate; reflexivity.
    + apply Z.ltb_ge in Hlt.
      assert (Hv : validData
                     (RoutesById.usageData (Some (messagesUsed u + a)) None
                        (Some (messageLeft u - a)) None)
                   = fitsInt (messagesUsed u + a)).
      { unfold validData, RoutesById.usageData. cbn.
        rewrite (proj2 (fitsInt_iff (messageLeft u - a))) by lia.
        now rewrite !andb_true_r. }
      rewrite Hv.
      destruct (fitsInt (messagesUsed u + a)) eqn:Hsum.
      * apply fitsInt_iff in Hsum. cbn [fst snd statusCode].
        assert (Hu' : applyUpdate
                  (RoutesById.usageData (Some (messagesUsed u + a)) None
                     (Some (messageLeft u - a)) None) u = u') by reflexivity.
        rewrite Hu'.
        split; [split; [intros _; lia|reflexivity]|].
        split; [|split; intros; lia].
        intros _ _. split; [reflexivity|]. split; [reflexivity|].
        apply find_replaceFirst with (u := u); [exact Hfind|exact Hid].
      * assert (Hover : 2147483647 < messagesUsed u + a).
        { destruct (Z.le_gt_cases (messagesUsed u + a) 2147483647) as [H|H];
            [|lia].
          rewrite (proj2 (fitsInt_iff _)) in Hsum by lia. discriminate. }
        cbn [fst snd statusCode].
        split; [split; [discriminate|lia]|].
        split; [intros; lia|]. split; [now split|]. intros; lia.
  - rewrite (patchUsage_run st i u "document" amount Hi Hfind Ha
               (or_intror eq_refl)).
    fold a. change (bool_decide (Some "document" = Some "message")) with false.
    cbn iota. rewrite (proj2 (Z.eqb_neq _ _) Hfin). cbn [negb andb].
    destruct (documentLeft u <? a) eqn:Hlt.
    + apply Z.ltb_lt in Hlt. cbn [fst snd statusCode].
      repeat split; intros; try lia; try discriminate; reflexivity.
    + apply Z.ltb_ge in Hlt.
      assert (Hv : validData
                     (RoutesById.usageData None (Some (documentsUsed u + a))
                        None (Some (documentLeft u - a)))
                   = fitsInt (documentsUsed u + a)).
      { unfold validData, RoutesById.usageData. cbn.
        rewrite (proj2 (fitsInt_iff (documentLeft u - a))) by lia.
        now rewrite !andb_true_r. }
      rewrite Hv.
      destruct (fitsInt (documentsUsed u + a)) eqn:Hsum.
      * apply fitsInt_iff in Hsum. cbn [fst snd statusCode].
        assert (Hu' : applyUpdate
                  (RoutesById.usageData None (Some (documentsUsed u + a))
                     None (Some (documentLeft u - a))) u = u') by reflexivity.
        rewrite Hu'.
        split; [split; [intros _; lia|reflexivity]|].
        split; [|split; intros; lia].
        intros _ _. split; [reflexivity|]. split; [reflexivity|].
        apply find_replaceFirst with (u := u); [exact Hfind|exact Hid].
      * assert (Hover : 2147483647 < documentsUsed u + a).
        { destruct (Z.le_gt_cases (documentsUsed u + a) 2147483647) as [H|H];
            [|lia].
          rewrite (proj2 (fitsInt_iff _)) in Hsum by lia. discriminate. }
        cbn [fst snd statusCode].
        split; [split; [discriminate|lia]|].
        split; [intros; lia|]. split; [now split|]. intros; lia.
Qed.

Lemma usage_consume_finite_witness :
  (fst (RoutesById.patchUsage "u1"
          (RoutesById.mkUsageBody (Some "message") (Some 3)) Sample.table)
   = mkResponse 200 "success" "message usage updated successfully"
       (Some (DataUser
                (mkUser "u1" "a@b.com" "x1" (Some "a") None None UNPAID BASIC
                   3 0 17 0)))
   /\ snd (RoutesById.patchUsage "u1"
             (RoutesById.mkUsageBody (Some "message") (Some 3)) Sample.table)
      = [mkUser "u1" "a@b.com" "x1" (Some "a") None None UNPAID BASIC 3 0 17 0;
         Sample.bob; Sample.carol; Sample.dave])
  /\ fst (RoutesById.patchUsage "u1"
            (RoutesById.mkUsageBody (Some "document") None) Sample.table)
     = mkResponse 403 "error" "Insufficient document quota remaining" None
  /\ (fst (RoutesById.patchUsage "u6"
             (RoutesById.mkUsageBody (Some "message") (Some 1))
             [Sample.heavy])
      = mkResponse 500 "error" "Internal server error" None
      /\ snd (RoutesById.patchUsage "u6"
                (RoutesById.mkUsageBody (Some "message") (Some 1))
                [Sample.heavy])
         = [Sample.heavy]).
Proof.
  pose proof (usage_consume_finite [Sample.heavy] "u6" Sample.heavy (Some 1)
                ltac:(discriminate) ltac:(reflexivity) ltac:(reflexivity)
                ltac:(simpl; lia))
    as [Hh _].
  pose proof (usage_consume_finite Sample.table "u1" Sample.alice (Some 3)
                ltac:(discriminate) ltac:(reflexivity) ltac:(reflexivity)
                ltac:(simpl; lia))
    as [Hm _].
  pose proof (usage_consume_finite Sample.table "u1" Sample.alice None
                ltac:(discriminate) ltac:(reflexivity) ltac:(reflexivity)
                ltac:(simpl; lia))
    as [_ Hd].
  split.
  - destruct (Hm ltac:(simpl; lia)) as (_ & Hok & _).
    destruct (Hok ltac:(simpl; lia) ltac:(simpl; lia)) as (Hr & Hst & _).
    split; [exact Hr|exact Hst].
  - split.
    + destruct (Hd ltac:(simpl; lia)) as (_ & _ & _ & Hno).
      exact (proj1 (Hno ltac:(simpl; lia))).
    + destruct (Hh ltac:(simpl; lia)) as (_ & _ & Hover & _).
      exact (Hover ltac:(simpl; lia) ltac:(simpl; lia)).
Defined.

(** Without the bound on messagesUsed + a the equivalence does not hold:
    a quota that covers the amount is not enough at the upper end of the
    column.  A user with messagesUsed = 2147483647 and messageLeft = 5
    asks for one message, 1 <= 5, and the answer is 500; nothing is
    written. *)
Lemma usage_consume_fails_at_int_limit :
  let r := RoutesById.patchUsage "u6"
             (RoutesById.mkUsageBody (Some "message") (Some 1))
             [Sample.heavy] in
  findUnique (WhereId "u6") [Sample.heavy] = Some Sample.heavy
  /\ messageLeft Sample.heavy = 5 /\ 1 <= messageLeft Sample.heavy
  /\ statusCode (fst r) = 500 /\ statusCode (fst r) <> 200
  /\ snd r = [Sample.heavy].
Proof. cbv zeta. repeat split; discriminate || (vm_compute; discriminate). Qed.

(** ** Plan change (C2, C8) *)

Lemma parsePlanType_name (p : PlanType) :
  parsePlanType (planTypeName p) = Some p.
Proof. now destruct p. Qed.

Lemma planTypeName_inj (p q : PlanType) :
  planTypeName p = planTypeName q -> p = q.
Proof. now destruct p, q. Qed.

Lemma planTypeName_truthy (p : PlanType) :
  truthy_string (planTypeName p) = true.
Proof. now destruct p. Qed.

Lemma isValidPlanType_name (p : PlanType) :
  isValidPlanType (planTypeName p) = true.
Proof. now destruct p. Qed.

Lemma planTypeName_differs (p q : PlanType) :
  p <> q -> bool_decide (planTypeName p = planTypeName q) = false.
Proof.
  intros Hne. apply bool_decide_eq_false_2. intros E.
  now apply planTypeName_inj in E.
Qed.

(** A guard that answers with an error cannot be the branch taken by a
    request that was answered with 200. *)
Ltac skip_error_guards st :=
  repeat match goal with
  | |- context [if ?c then (sendError ?s ?m, st) else _] =>
      destruct c; [cbn; intros; discriminate|]
  end.

(** The update object that the plan-change block of the oauthId-keyed
    endpoint hands to the persistence layer. *)
Lemma planChange_data (LocalTZA : JsDate.TimeZone) (now : Z) (P : PlanType)
    (body : UpdateBody) :
  exists ud,
    RoutesByOauthId.planChange LocalTZA now (planTypeName P)
      (RoutesByOauthId.rest body)
    = Some ud
    /\ noKeys ud = false
    /\ asUserUpdate ud
       = Some {| u_email := b_email body; u_oauthId := b_oauthId body;
                 u_username := b_username body;
                 u_subscriptioStartDate :=
                   Some (if bool_decide (P = BASIC) then None else Some now);
                 u_subscriptionEndDate :=
                   Some (if bool_decide (P = BASIC) then None
                         else Some (JsDate.setMonth LocalTZA now
                                      (JsDate.getMonth LocalTZA now + 1)));
                 u_subscriptionStatus :=
                   Some (if bool_decide (P = BASIC) then CANCELED else ACTIVE);
                 u_planType := Some P;
                 u_messagesUsed := Some 0; u_documentsUsed := Some 0;
                 u_messageLeft :=
                   Some (messages (RoutesByOauthId.PLAN_LIMITS P));
                 u_documentLeft :=
                   Some (documents (RoutesByOauthId.PLAN_LIMITS P)) |}.
Proof.
  destruct body as [e o un sd ed ss pt mu du ml dl im idc].
  destruct P; eexists; (split; [reflexivity|]); (split; [|reflexivity]);
    destruct e, o, un; reflexivity.
Qed.

Lemma patchUser_oauthId_plan_change (LocalTZA : JsDate.TimeZone) (now : Z)
    (st : Store) (o : string) (u : User) (body : UpdateBody) (P : PlanType) :
  b_planType body = Some (planTypeName P) -> P <> planType u ->
  findUnique (WhereOauthId o) st = Some u ->
  statusCode (fst (RoutesByOauthId.patchUser LocalTZA now o body st)) = 200 ->
  exists u',
    RoutesByOauthId.patchUser LocalTZA now o body st
    = (sendSuccess (DataUser u') (Some "User updated successfully"),
       replaceFirst (matches (WhereOauthId o)) u' st)
    /\ planType u' = P /\ messagesUsed u' = 0 /\ documentsUsed u' = 0
    /\ messageLeft u' = messages (RoutesByOauthId.PLAN_LIMITS P)
    /\ documentLeft u' = documents (RoutesByOauthId.PLAN_LIMITS P)
    /\ (P <> BASIC ->
        subscriptionStatus u' = ACTIVE
        /\ subscriptioStartDate u' = Some now
        /\ subscriptionEndDate u'
           = Some (JsDate.setMonth LocalTZA now
                     (JsDate.getMonth LocalTZA now + 1)))
    /\ (P = BASIC ->
        subscriptionStatus u' = CANCELED
        /\ subscriptioStartDate u' = None
        /\ subscriptionEndDate u' = None).
Proof.
  intros Hplan Hne Hfind.
  unfold RoutesByOauthId.patchUser. rewrite Hplan.
  cbn [truthy_opt_string].
  change (default "" (Some (planTypeName P))) with (planTypeName P).
  rewrite planTypeName_truthy, isValidPlanType_name.
  cbn [negb andb orb].
  skip_error_guards st.
  rewrite Hfind, (planTypeName_differs _ _ Hne). cbn [negb andb orb].
  destruct (planChange_data LocalTZA now P body) as (ud & -> & -> & ->).
  enter_update. rewrite Hfind.
  match goal with |- context [violatesUnique ?d ?a ?b ?c] =>
    destruct (violatesUnique d a b c) end; [cbn; intros; discriminate|].
  intros Hs. clear Hs. eexists. split; [reflexivity|].
  cbn [applyUpdate planType messagesUsed documentsUsed messageLeft documentLeft
       subscriptionStatus subscriptioStartDate subscriptionEndDate
       u_planType u_messagesUsed u_documentsUsed u_messageLeft u_documentLeft
       u_subscriptionStatus u_subscriptioStartDate u_subscriptionEndDate].
  change (default ?x (Some ?y)) with y.
  do 5 (split; [reflexivity|]).
  split; intros HP.
  - rewrite (bool_decide_eq_false_2 _ HP). now repeat split.
  - rewrite (bool_decide_eq_true_2 _ HP). now repeat split.
Qed.















(** ** The authentication middleware is fail-open (C3) *)

(** C3.  Whatever the outcome of the token verification, clerkAuthenticate
    calls next(): with no Authorization header, with a token the identity
    provider rejects and with one it accepts.  A route guarded by it hands
    every request to its handler, so the response and the table after the
    request are the same for any two verifiers. *)
Theorem clerkAuthenticate_fail_open :
  (forall (verifyToken : clerk.Client) (headers : Headers),
     clerkAuthenticate verifyToken headers = CallNext)
  /\ (forall (verifyToken verifyToken' : clerk.Client) (handler : Handler)
             (headers : Headers) (st : Store),
        route (clerkAuthenticate verifyToken) handler headers st
        = route (clerkAuthenticate verifyToken') handler headers st)
  /\ (forall (verifyToken : clerk.Client) (handler : Handler)
             (headers : Headers) (st : Store),
        route (clerkAuthenticate verifyToken) handler headers st = handler st).
Proof.
  assert (Hnext : forall verifyToken headers,
             clerkAuthenticate verifyToken headers = CallNext).
  { intros verifyToken headers. unfold clerkAuthenticate.
    now destruct (verifyToken _). }
  split; [exact Hnext|]. split.
  - intros v v' handler headers st. unfold route. now rewrite !Hnext.
  - intros v handler headers st. unfold route. now rewrite Hnext.
Qed.

(** The three cases by name: no header, a rejected token, an accepted
    token.  The verifier below accepts the token [good] only. *)
Example clerkAuthenticate_cases :
  let verifyToken : clerk.Client :=
    fun token => if bool_decide (token = "good")
                 then clerk.Resolved "sub: x1"
                 else clerk.Rejected "invalid token" in
  clerkAuthenticate verifyToken (mkHeaders None None None None) = CallNext
  /\ clerkAuthenticate verifyToken
       (mkHeaders (Some "Bearer forged") None None None) = CallNext
  /\ clerkAuthenticate verifyToken
       (mkHeaders (Some "Bearer good") None None None) = CallNext.
Proof. repeat split. Qed.

(** ** The scheduled jobs (C4, C5) *)

Section ForEach.

(** The jobs update rows by primary key and never write a unique
    column; what they write are values that the columns hold. *)
Variable dataOf : User -> UserUpdate.
Hypothesis dataOf_plain :
  forall u, u_email (dataOf u) = None /\ u_oauthId (dataOf u) = None.
Hypothesis dataOf_valid : forall u, validData (dataOf u) = true.

Let step := fun user : User => update (WhereId (id user)) (dataOf user).

Let hit (u r : User) : User :=
  if bool_decide (id r = id u) then applyUpdate (dataOf u) r else r.

Lemma hit_id (u r : User) : id (hit u r) = id r.
Proof. unfold hit. now destruct (bool_decide (id r = id u)). Qed.

Lemma map_hit_ids (u : User) (st : Store) :
  map id (map (hit u) st) = map id st.
Proof.
  rewrite List.map_map. apply List.map_ext. intros r. apply hit_id.
Qed.

Lemma map_hit_miss (u : User) (st : Store) :
  ~ In (id u) (map id st) -> map (hit u) st = st.
Proof.
  induction st as [|r rs IH]; simpl; [reflexivity|]. intros Hnin.
  rewrite IH by tauto. unfold hit at 1.
  rewrite bool_decide_eq_false_2; [reflexivity|]. intros E. tauto.
Qed.

Lemma find_by_id_exists (i : string) (st : Store) :
  In i (map id st) ->
  exists r0, findUnique (WhereId i) st = Some r0 /\ id r0 = i.
Proof.
  induction st as [|r rs IH]; simpl; [tauto|]. intros Hin.
  destruct (bool_decide (id r = i)) eqn:E.
  - exists r. split; [reflexivity|]. now apply bool_decide_eq_true in E.
  - apply bool_decide_eq_false in E. apply IH. tauto.
Qed.

(** On a table with distinct primary keys, replacing the first row
    with a given key rewrites every row with that key. *)
Lemma replaceFirst_hit (u r0 : User) (st : Store) :
  List.NoDup (map id st) ->
  findUnique (WhereId (id u)) st = Some r0 ->
  replaceFirst (matches (WhereId (id u))) (applyUpdate (dataOf u) r0) st
  = map (hit u) st.
Proof.
  induction st as [|r rs IH]; simpl; [discriminate|].
  intros Hnd Hfind. inversion Hnd as [|? ? Hnin Hnd']; subst.
  unfold hit at 1. destruct (bool_decide (id r = id u)) eqn:E.
  - inversion Hfind; subst r0. f_equal.
    apply bool_decide_eq_true in E.
    symmetry. apply map_hit_miss. now rewrite <- E.
  - f_equal. now apply IH.
Qed.

Lemma forEach_update_by_id (users : list User) (st : Store) :
  List.NoDup (map id st) ->
  (forall u, In u users -> In (id u) (map id st)) ->
  RoutesById.forEach users step st
  = (map (fun r => fold_left (fun r u => hit u r) users r) st, None).
Proof.
  revert st. induction users as [|u rest IH]; intros st Hnd Hin.
  - simpl. now rewrite List.map_id.
  - cbn [RoutesById.forEach fold_left]. unfold step at 1.
    destruct (find_by_id_exists (id u) st) as (r0 & Hfind & Hid).
    { apply Hin. now left. }
    destruct (dataOf_plain u) as [He Ho].
    rewrite (update_plain _ _ _ _ Hfind He Ho (dataOf_valid u)).
    rewrite (replaceFirst_hit u r0 st Hnd Hfind).
    rewrite IH.
    + now rewrite List.map_map.
    + now rewrite map_hit_ids.
    + intros u' Hu'. rewrite map_hit_ids. apply Hin. now right.
Qed.

Lemma fold_hit_miss (users : list User) (r : User) :
  ~ In (id r) (map id users) ->
  fold_left (fun r u => hit u r) users r = r.
Proof.
  revert r. induction users as [|u rest IH]; intros r Hnin; [reflexivity|].
  simpl in *. unfold hit at 2.
  rewrite bool_decide_eq_false_2 by (intros E; symmetry in E; tauto).
  apply IH. tauto.
Qed.

Lemma fold_hit_self (users : list User) (r : User) :
  List.NoDup (map id users) -> In r users ->
  fold_left (fun r u => hit u r) users r = applyUpdate (dataOf r) r.
Proof.
  induction users as [|u rest IH]; intros Hnd Hin; [destruct Hin|].
  simpl in Hnd. inversion Hnd as [|? ? Hnin Hnd']; subst.
  cbn [fold_left]. destruct Hin as [->|Hin].
  - unfold hit at 2. rewrite bool_decide_eq_true_2 by reflexivity.
    now apply fold_hit_miss.
  - unfold hit at 2. rewrite bool_decide_eq_false_2; [now apply IH|].
    intros E. apply Hnin. rewrite <- E. now apply in_map.
Qed.

Lemma NoDup_map_filter (p : User -> bool) (st : Store) :
  List.NoDup (map id st) -> List.NoDup (map id (List.filter p st)).
Proof.
  induction st as [|r rs IH]; simpl; [trivial|]. intros Hnd.
  inversion Hnd as [|? ? Hnin Hnd']; subst.
  destruct (p r); simpl; [|now apply IH].
  constructor; [|now apply IH].
  intros Hin. apply Hnin. apply in_map_iff in Hin as (x & Hx & Hxin).
  apply filter_In in Hxin as [Hxin _]. rewrite <- Hx. now apply in_map.
Qed.

Lemma NoDup_map_id_inj (st : Store) (x y : User) :
  List.NoDup (map id st) -> In x st -> In y st -> id x = id y -> x = y.
Proof.
  induction st as [|r rs IH]; simpl; [tauto|]. intros Hnd Hx Hy E.
  inversion Hnd as [|? ? Hnin Hnd']; subst.
  destruct Hx as [->|Hx], Hy as [->|Hy]; trivial.
  - exfalso. apply Hnin. rewrite E. now apply in_map.
  - exfalso. apply Hnin. rewrite <- E. now apply in_map.
  - now apply IH.
Qed.

(** The loop of a job over the rows a query selected rewrites exactly
    the selected rows, each with its own data. *)
Lemma forEach_selected (p : User -> bool) (st : Store) :
  List.NoDup (map id st) ->
  RoutesById.forEach (findMany p st) step st
  = (map (fun r => if p r then applyUpdate (dataOf r) r else r) st, None).
Proof.
  intros Hnd. unfold findMany. rewrite forEach_update_by_id; trivial.
  - f_equal. apply List.map_ext_in. intros r Hr.
    destruct (p r) eqn:Hp.
    + apply fold_hit_self; [now apply NoDup_map_filter|].
      apply filter_In. now split.
    + apply fold_hit_miss. intros Hin.
      apply in_map_iff in Hin as (x & Hx & Hxin).
      apply filter_In in Hxin as [Hxin Hpx].
      assert (x = r) by (eapply NoDup_map_id_inj; eauto).
      subst x. congruence.
  - intros u Hu. apply filter_In in Hu as [Hu _]. now apply in_map.
Qed.

End ForEach.

Lemma findUnique_map_id (F : User -> User) (st : Store) (u : User) :
  (forall r, id (F r) = id r) -> List.NoDup (map id st) -> In u st ->
  findUnique (WhereId (id u)) (map F st) = Some (F u).
Proof.
  intros HF. induction st as [|r rs IH]; simpl; [tauto|]. intros Hnd Hin.
  inversion Hnd as [|? ? Hnin Hnd']; subst. rewrite HF.
  destruct Hin as [->|Hin].
  - now rewrite bool_decide_eq_true_2.
  - rewrite bool_decide_eq_false_2; [now apply IH|].
    intros E. apply Hnin. rewrite E. now apply in_map.
Qed.

Lemma isSoonToExpire_spec (now : Z) (u : User) :
  RoutesById.isSoonToExpire now u = true
  <-> subscriptionStatus u = ACTIVE
      /\ exists t, subscriptionEndDate u = Some t
                   /\ now <= t <= now + 3 * 24 * 60 * 60 * 1000.
Proof.
  unfold RoutesById.isSoonToExpire, RoutesById.betweenDates, JsDate.getTime.
  rewrite andb_true_iff, bool_decide_eq_true.
  destruct (subscriptionEndDate u) as [t|].
  - rewrite andb_true_iff, Z.leb_le, Z.leb_le. split.
    + intros [Hw Hs]. split; [exact Hs|]. exists t. split; [reflexivity|lia].
    + intros [Hs (t' & Ht' & Hw)]. inversion Ht'; subst t'. split; [lia|exact Hs].
  - split.
    + intros [Hw _]. discriminate.
    + intros [_ (t' & Ht' & _)]. discriminate.
Qed.

Lemma isExpired_spec (now : Z) (u : User) :
  RoutesById.isExpired now u = true
  <-> subscriptionStatus u <> CANCELED
      /\ exists t, subscriptionEndDate u = Some t /\ t < now.
Proof.
  unfold RoutesById.isExpired, RoutesById.ltDate.
  rewrite andb_true_iff, negb_true_iff, bool_decide_eq_false.
  destruct (subscriptionEndDate u) as [t|].
  - rewrite Z.ltb_lt. split.
    + intros [Hw Hs]. split; [exact Hs|]. now exists t.
    + intros [Hs (t' & Ht' & Hw)]. inversion Ht'; subst t'. now split.
  - split.
    + intros [Hw _]. discriminate.
    + intros [_ (t' & Ht' & _)]. discriminate.
Qed.

Lemma applyUpdate_id (d : UserUpdate) (u : User) : id (applyUpdate d u) = id u.
Proof. reflexivity. Qed.

(** The daily sweep, row by row. *)
Lemma dailyJob_rows (now : Z) (st : Store) :
  List.NoDup (map id st) ->
  RoutesById.dailyJob now st
  = (map (fun r => if RoutesById.isSoonToExpire now r
                   then applyUpdate RoutesById.pastDueData r else r) st,
     None).
Proof.
  intros Hnd. unfold RoutesById.dailyJob.
  apply (forEach_selected (fun _ => RoutesById.pastDueData));
    [intros u; now split|reflexivity|exact Hnd].
Qed.

(** The monthly job, row by row: the expired rows are downgraded, the
    rows that are ACTIVE after that get the ceilings of their plan. *)
Lemma monthlyJob_rows (now : Z) (st : Store) :
  List.NoDup (map id st) ->
  RoutesById.monthlyJob now st
  = (map (fun r =>
            if RoutesById.isExpired now r
            then applyUpdate RoutesById.downgradeData r
            else if RoutesById.isActive r
                 then applyUpdate
                        (RoutesById.limitsData
                           (RoutesById.PLAN_LIMITS (planType r))) r
                 else r) st,
     None).
Proof.
  intros Hnd. unfold RoutesById.monthlyJob.
  rewrite (forEach_selected (fun _ => RoutesById.downgradeData))
    by (trivial || reflexivity || (intros u; now split)).
  unfold RoutesById.resetUserLimits.
  rewrite (forEach_selected
             (fun user => RoutesById.limitsData
                            (RoutesById.PLAN_LIMITS (planType user)))).
  - rewrite List.map_map. f_equal. apply List.map_ext. intros r.
    destruct (RoutesById.isExpired now r); [reflexivity|].
    reflexivity.
  - intros u. now split.
  - intros u. now destruct (planType u).
  - rewrite List.map_map.
    erewrite List.map_ext; [exact Hnd|].
    intros r. now destruct (RoutesById.isExpired now r).
Qed.

(** C5.  One run of the daily sweep on a table with distinct primary keys
    completes without an error and
    - gives every user that is ACTIVE with an end date in
      [now, now + 3 days], both ends included, the status PAST_DUE and
      leaves every other field of that user as it was;
    - leaves every other user as it was. *)
Theorem daily_sweep_flags_past_due (now : Z) (st : Store) :
  List.NoDup (map id st) ->
  exists st',
    RoutesById.dailyJob now st = (st', None)
    /\ map id st' = map id st
    /\ forall u, In u st ->
         ((subscriptionStatus u = ACTIVE
           /\ exists t, subscriptionEndDate u = Some t
                        /\ now <= t <= now + 3 * 24 * 60 * 60 * 1000) ->
          findUnique (WhereId (id u)) st'
          = Some (mkUser (id u) (email u) (oauthId u) (username u)
                    (subscriptioStartDate u) (subscriptionEndDate u)
                    PAST_DUE (planType u)
                    (messagesUsed u) (documentsUsed u)
                    (messageLeft u) (documentLeft u)))
         /\
         (~ (subscriptionStatus u = ACTIVE
             /\ exists t, subscriptionEndDate u = Some t
                          /\ now <= t <= now + 3 * 24 * 60 * 60 * 1000) ->
          findUnique (WhereId (id u)) st' = Some u).
Proof.
  intros Hnd. eexists. split; [now apply dailyJob_rows|]. split.
  { rewrite List.map_map. apply List.map_ext. intros r.
    now destruct (RoutesById.isSoonToExpire now r). }
  intros u Hin.
  rewrite findUnique_map_id; trivial;
    [|intros r; now destruct (RoutesById.isSoonToExpire now r)].
  split; intros Hw.
  - apply isSoonToExpire_spec in Hw. now rewrite Hw.
  - rewrite <- isSoonToExpire_spec in Hw.
    apply not_true_is_false in Hw. now rewrite Hw.
Qed.

Lemma daily_sweep_flags_past_due_witness :
  fst (RoutesById.dailyJob Sample.jan31 Sample.table)
  = [Sample.alice;
     mkUser "u2" "bob@example.com" "x2" None
       (Some (Sample.jan31 - 28 * JsDate.msPerDay))
       (Some (Sample.jan31 + 2 * JsDate.msPerDay))
       PAST_DUE CORE 5 1 95 9;
     Sample.carol; Sample.dave]
  /\ findUnique (WhereId "u2")
       (fst (RoutesById.dailyJob Sample.jan31 Sample.table))
     = Some (mkUser "u2" "bob@example.com" "x2" None
               (Some (Sample.jan31 - 28 * JsDate.msPerDay))
               (Some (Sample.jan31 + 2 * JsDate.msPerDay))
               PAST_DUE CORE 5 1 95 9)
  /\ findUnique (WhereId "u3")
       (fst (RoutesById.dailyJob Sample.jan31 Sample.table))
     = Some Sample.carol.
Proof.
  assert (Hnd : List.NoDup (map id Sample.table)).
  { repeat constructor; simpl; intuition discriminate. }
  destruct (daily_sweep_flags_past_due Sample.jan31 Sample.table Hnd)
    as (st' & Hrun & _ & Hrows).
  rewrite Hrun. cbn [fst]. split; [|split].
  - vm_compute in Hrun. now inversion Hrun.
  - apply (Hrows Sample.bob); [simpl; tauto|].
    split; [reflexivity|]. eexists. split; [reflexivity|].
    vm_compute. split; discriminate.
  - apply (Hrows Sample.carol); [simpl; tauto|].
    intros (_ & t & Ht & Hlo & _). inversion Ht; subst t.
    vm_compute in Hlo. now apply Hlo.
Defined.

(** The usage endpoint rewrites at most the counters of one row. *)
Lemma patchUsage_rows (i : string) (body : RoutesById.UsageBody) (st : Store) :
  List.NoDup (map id st) ->
  exists F : User -> User,
    snd (RoutesById.patchUsage i body st) = map F st
    /\ forall r,
         id (F r) = id r /\ planType (F r) = planType r
         /\ subscriptionStatus (F r) = subscriptionStatus r
         /\ subscriptioStartDate (F r) = subscriptioStartDate r
         /\ subscriptionEndDate (F r) = subscriptionEndDate r.
Proof.
  intros Hnd.
  assert (Hsame : exists F : User -> User,
             st = map F st
             /\ forall r,
                  id (F r) = id r /\ planType (F r) = planType r
                  /\ subscriptionStatus (F r) = subscriptionStatus r
                  /\ subscriptioStartDate (F r) = subscriptioStartDate r
                  /\ subscriptionEndDate (F r) = subscriptionEndDate r).
  { exists (fun r => r). split; [now rewrite List.map_id|now intros r]. }
  unfold RoutesById.patchUsage.
  repeat match goal with
  | |- context [if ?c then (sendError ?s ?m, st) else _] =>
      destruct c; [exact Hsame|]
  end.
  destruct (findUnique (WhereId i) st) as [user|] eqn:Hfind; [|exact Hsame].
  repeat match goal with
  | |- context [if ?c then (sendError ?s ?m, st) else _] =>
      destruct c; [exact Hsame|]
  end.
  pose proof (findUnique_id _ _ _ Hfind) as Hi. subst i.
  match goal with |- context [update _ ?d st] => set (data := d) end.
  assert (Hplain : u_email data = None /\ u_oauthId data = None).
  { subst data.
    now destruct (bool_decide (RoutesById.ub_type body = Some "message")). }
  destruct Hplain as [He Ho].
  destruct (validData data) eqn:Hv;
    [|rewrite (update_refused _ _ _ Hv); exact Hsame].
  rewrite (update_plain _ _ _ _ Hfind He Ho Hv). cbn [snd].
  rewrite (replaceFirst_hit (fun _ => data) user user st Hnd Hfind).
  eexists. split; [reflexivity|].
  intros r. cbv beta.
  assert (Hkeep : u_planType data = None /\ u_subscriptionStatus data = None
                  /\ u_subscriptioStartDate data = None
                  /\ u_subscriptionEndDate data = None).
  { subst data.
    now destruct (bool_decide (RoutesById.ub_type body = Some "message")). }
  destruct Hkeep as (Hp & Hs & Hsd & Hed).
  destruct (bool_decide (id r = id user)); [|now repeat split].
  unfold applyUpdate. cbn [id planType subscriptionStatus
                           subscriptioStartDate subscriptionEndDate].
  rewrite Hp, Hs, Hsd, Hed. now repeat split.
Qed.

(** C4.  One run of the monthly job on a table with distinct primary keys
    completes without an error, and afterwards
    - every user whose end date was strictly before now and whose status
      was not CANCELED is stored with planType BASIC, status UNPAID, both
      dates null, the BASIC ceilings 20 and 0 and both used-counters 0;
    - every other user has the plan, the status and the dates it had
      (the job downgrades nobody else).
    Until the job runs, the downgrade does not happen: neither the daily
    sweep nor the usage endpoint changes the plan or the subscription
    dates of any user, and the usage endpoint leaves the status alone. *)
Theorem monthly_job_downgrades_expired (now : Z) (st : Store) :
  List.NoDup (map id st) ->
  (exists st',
     RoutesById.monthlyJob now st = (st', None)
     /\ (forall u t,
           In u st -> subscriptionEndDate u = Some t -> t < now ->
           subscriptionStatus u <> CANCELED ->
           findUnique (WhereId (id u)) st'
           = Some (mkUser (id u) (email u) (oauthId u) (username u)
                     None None UNPAID BASIC 0 0 20 0))
     /\ (forall u,
           In u st ->
           ~ (subscriptionStatus u <> CANCELED
              /\ exists t, subscriptionEndDate u = Some t /\ t < now) ->
           exists u',
             findUnique (WhereId (id u)) st' = Some u'
             /\ planType u' = planType u
             /\ subscriptionStatus u' = subscriptionStatus u
             /\ subscriptioStartDate u' = subscriptioStartDate u
             /\ subscriptionEndDate u' = subscriptionEndDate u))
  /\ (forall now' u,
        In u st ->
        exists u',
          findUnique (WhereId (id u)) (fst (RoutesById.dailyJob now' st))
          = Some u'
          /\ planType u' = planType u
          /\ subscriptioStartDate u' = subscriptioStartDate u
          /\ subscriptionEndDate u' = subscriptionEndDate u
          /\ messageLeft u' = messageLeft u
          /\ documentLeft u' = documentLeft u)
  /\ (forall i body u,
        In u st ->
        exists u',
          findUnique (WhereId (id u)) (snd (RoutesById.patchUsage i body st))
          = Some u'
          /\ planType u' = planType u
          /\ subscriptionStatus u' = subscriptionStatus u
          /\ subscriptioStartDate u' = subscriptioStartDate u
          /\ subscriptionEndDate u' = subscriptionEndDate u).
Proof.
  intros Hnd. split; [|split].
  - eexists. split; [now apply monthlyJob_rows|].
    assert (Hid : forall r,
               id (if RoutesById.isExpired now r
                   then applyUpdate RoutesById.downgradeData r
                   else if RoutesById.isActive r
                        then applyUpdate
                               (RoutesById.limitsData
                                  (RoutesById.PLAN_LIMITS (planType r))) r
                        else r) = id r).
    { intros r. destruct (RoutesById.isExpired now r); [reflexivity|].
      now destruct (RoutesById.isActive r). }
    split.
    + intros u t Hin Hend Hlt Hst.
      rewrite (findUnique_map_id _ st u Hid Hnd Hin).
      assert (Hexp : RoutesById.isExpired now u = true).
      { apply isExpired_spec. split; [exact Hst|]. now exists t. }
      now rewrite Hexp.
    + intros u Hin Hnot.
      rewrite (findUnique_map_id _ st u Hid Hnd Hin).
      rewrite <- isExpired_spec in Hnot. apply not_true_is_false in Hnot.
      rewrite Hnot. eexists. split; [reflexivity|].
      now destruct (RoutesById.isActive u).
  - intros now' u Hin. rewrite (dailyJob_rows now' st Hnd). cbn [fst].
    rewrite findUnique_map_id; trivial;
      [|intros r; now destruct (RoutesById.isSoonToExpire now' r)].
    eexists. split; [reflexivity|].
    now destruct (RoutesById.isSoonToExpire now' u).
  - intros i body u Hin.
    destruct (patchUsage_rows i body st Hnd) as (F & -> & HF).
    rewrite findUnique_map_id; trivial; [|intros r; apply HF].
    exists (F u). split; [reflexivity|]. apply HF.
Qed.

Lemma monthly_job_downgrades_expired_witness :
  RoutesById.monthlyJob Sample.jan31 Sample.table
  = ([Sample.alice;
      mkUser "u2" "bob@example.com" "x2" None
        (Some (Sample.jan31 - 28 * JsDate.msPerDay))
        (Some (Sample.jan31 + 2 * JsDate.msPerDay))
        ACTIVE CORE 0 0 100 10;
      mkUser "u3" "carol@example.com" "x3" (Some "carol")
        None None UNPAID BASIC 0 0 20 0;
      mkUser "u4" "dave@example.com" "x4" (Some "dave")
        (Some Sample.jan31) (Some (Sample.jan31 + 30 * JsDate.msPerDay))
        ACTIVE PRO 0 0 (-1) (-1)],
     None)
  /\ findUnique (WhereId "u3")
       (fst (RoutesById.monthlyJob Sample.jan31 Sample.table))
     = Some (mkUser "u3" "carol@example.com" "x3" (Some "carol")
               None None UNPAID BASIC 0 0 20 0).
Proof.
  assert (Hnd : List.NoDup (map id Sample.table)).
  { repeat constructor; simpl; intuition discriminate. }
  destruct (monthly_job_downgrades_expired Sample.jan31 Sample.table Hnd)
    as ((st' & Hrun & Hexpired & _) & _ & _).
  rewrite Hrun. cbn [fst]. split.
  - vm_compute in Hrun. inversion Hrun. reflexivity.
  - apply (Hexpired Sample.carol (Sample.jan31 - JsDate.msPerDay)).
    + simpl. tauto.
    + reflexivity.
    + vm_compute. reflexivity.
    + discriminate.
Defined.

(** ** The webhook (C6, C7) *)

Import svix clerkUserWebhook.

Lemma truthy_opt_string_Some (s : string) :
  s <> "" -> truthy_opt_string (Some s) = true.
Proof. intros H. now apply truthy_string_true. Qed.

Lemma truthy_opt_string_inv (o : option string) :
  truthy_opt_string o = true -> exists s, o = Some s /\ s <> "".
Proof.
  destruct o as [s|]; [|discriminate]. intros H. exists s. split; [reflexivity|].
  unfold truthy_opt_string, truthy_string in H.
  apply negb_true_iff, bool_decide_eq_false in H. exact H.
Qed.

(** C6.  With the webhook secret configured: a request that lacks one of
    the headers svix-id, svix-timestamp, svix-signature, or whose
    signature the verifier built from the secret rejects, is answered
    with status 400 and leaves the table unchanged.  And in every
    configuration the payload is acted on only after verification has
    succeeded: whenever the table changes, or the handler answers 200 or
    hands the request on, the verifier has returned an event for this
    body and these headers. *)
Theorem webhook_unverified_is_rejected (lib : Library) (env : Env)
    (uuid : string) (req : Request) (st : Store) :
  (forall s,
     webhookSecret env = Some s -> s <> "" ->
     svix_id (headers req) = None
     \/ svix_timestamp (headers req) = None
     \/ svix_signature (headers req) = None
     \/ (exists w, newWebhook lib s = Some w
                   /\ verify lib w (body req) (headers req) = None) ->
     exists message,
       handleUserWebhook lib env uuid req st
       = (Send (mkResponse 400 "error" message None), st))
  /\
  (snd (handleUserWebhook lib env uuid req st) <> st
   \/ fst (handleUserWebhook lib env uuid req st) = CallNext
   \/ (exists message,
         fst (handleUserWebhook lib env uuid req st)
         = Send (mkResponse 200 "success" message None)) ->
   exists s w event,
     webhookSecret env = Some s
     /\ newWebhook lib s = Some w
     /\ verify lib w (body req) (headers req) = Some event).
Proof.
  split.
  - intros s Hsecret Hs Hbad. unfold handleUserWebhook.
    rewrite Hsecret, (truthy_opt_string_Some s Hs). cbn [negb].
    destruct (negb (truthy_opt_string (svix_id (headers req)))
              || negb (truthy_opt_string (svix_timestamp (headers req)))
              || negb (truthy_opt_string (svix_signature (headers req))))
      eqn:Hmissing; [now eexists|].
    apply orb_false_iff in Hmissing as [Hmissing Hsig].
    apply orb_false_iff in Hmissing as [Hid Hts].
    destruct Hbad as [H|[H|[H|(w & Hw & Hv)]]].
    + rewrite H in Hid. discriminate.
    + rewrite H in Hts. discriminate.
    + rewrite H in Hsig. discriminate.
    + change (default "" (Some s)) with s. rewrite Hw, Hv. now eexists.
  - unfold handleUserWebhook.
    destruct (truthy_opt_string (webhookSecret env)) eqn:Hsecret; cbn [negb].
    2:{ cbn. intros [H|[H|(m & H)]]; [now destruct H|discriminate..]. }
    apply truthy_opt_string_inv in Hsecret as (s & Hsecret & Hs).
    rewrite Hsecret. change (default "" (Some s)) with s.
    destruct (negb (truthy_opt_string (svix_id (headers req)))
              || negb (truthy_opt_string (svix_timestamp (headers req)))
              || negb (truthy_opt_string (svix_signature (headers req)))).
    { cbn. intros [H|[H|(m & H)]]; [now destruct H|discriminate..]. }
    destruct (newWebhook lib s) as [w|] eqn:Hw.
    2:{ cbn. intros [H|[H|(m & H)]]; [now destruct H|discriminate..]. }
    destruct (verify lib w (body req) (headers req)) as [event|] eqn:Hv.
    2:{ cbn. intros [H|[H|(m & H)]]; [now destruct H|discriminate..]. }
    intros Hacted. clear Hacted. now exists s, w, event.
Qed.

Lemma webhook_unverified_is_rejected_witness :
  handleUserWebhook SampleWebhook.lib SampleWebhook.env "u5"
    (SampleWebhook.bare "user.created") Sample.table
  = (Send (mkResponse 400 "error" "Missing verification headers" None),
     Sample.table)
  /\ handleUserWebhook SampleWebhook.lib SampleWebhook.env "u5"
       (SampleWebhook.forged "user.created") Sample.table
     = (Send (mkResponse 400 "error" "Invalid webhook signature" None),
        Sample.table).
Proof.
  split.
  - destruct (webhook_unverified_is_rejected SampleWebhook.lib
                SampleWebhook.env "u5" (SampleWebhook.bare "user.created")
                Sample.table) as [Hreject _].
    destruct (Hreject "whsec" ltac:(reflexivity) ltac:(discriminate)
                ltac:(left; reflexivity)) as (message & Hrun).
    rewrite Hrun. vm_compute in Hrun. now inversion Hrun.
  - destruct (webhook_unverified_is_rejected SampleWebhook.lib
                SampleWebhook.env "u5" (SampleWebhook.forged "user.created")
                Sample.table) as [Hreject _].
    destruct (Hreject "whsec" ltac:(reflexivity) ltac:(discriminate)
                ltac:(right; right; right; exists "whsec"; split; reflexivity))
      as (message & Hrun).
    rewrite Hrun. vm_compute in Hrun. now inversion Hrun.
Defined.

Lemma NoDup_snoc {A} (l : list A) (x : A) :
  List.NoDup l -> ~ In x l -> List.NoDup (l ++ [x]).
Proof.
  induction l as [|a l IH]; simpl; intros Hnd Hnin.
  - constructor; [tauto|constructor].
  - inversion Hnd as [|? ? Ha Hl]; subst. constructor.
    + rewrite in_app_iff. simpl. intros [H|[H|[]]]; [tauto|].
      apply Hnin. now left.
    + apply IH; tauto.
Qed.

Lemma create_inv (uuid : string) (d : UserCreate) (st st' : Store) (u : User) :
  create uuid d st = Ok (u, st') ->
  u = newRow uuid d /\ st' = st ++ [u]
  /\ (forall r, In r st ->
        id r <> uuid /\ email r <> c_email d /\ oauthId r <> c_oauthId d).
Proof.
  unfold create.
  destruct (fitsOptInt (c_messageLeft d) && fitsOptInt (c_documentLeft d));
    [|discriminate].
  cbn [negb].
  destruct (existsb _ st) eqn:Hex; [discriminate|].
  intros H. inversion H; subst. repeat split; trivial.
  all: intros E.
  all: assert (Htrue : existsb
                 (fun r => bool_decide (id r = uuid)
                           || bool_decide (email r = c_email d)
                           || bool_decide (oauthId r = c_oauthId d)) st = true)
         by (apply existsb_exists; exists r; split; [assumption|];
             rewrite !orb_true_iff, !bool_decide_eq_true; tauto).
  all: congruence.
Qed.

Lemma create_ok_valid (uuid : string) (d : UserCreate) (st st' : Store)
    (u : User) :
  create uuid d st = Ok (u, st') ->
  fitsOptInt (c_messageLeft d) && fitsOptInt (c_documentLeft d) = true.
Proof.
  unfold create.
  now destruct (fitsOptInt (c_messageLeft d) && fitsOptInt (c_documentLeft d)).
Qed.

Lemma create_replay (uuid1 uuid2 : string) (d : UserCreate) (st st1 : Store)
    (u : User) :
  create uuid1 d st = Ok (u, st1) -> create uuid2 d st1 = Throw P2002.
Proof.
  intros H. pose proof (create_ok_valid _ _ _ _ _ H) as Hfit.
  apply create_inv in H as (-> & -> & _). unfold create.
  rewrite Hfit. cbn [negb].
  rewrite existsb_app. cbn [existsb newRow oauthId].
  rewrite (bool_decide_eq_true_2 (c_oauthId d = c_oauthId d)) by reflexivity.
  now rewrite !orb_true_r.
Qed.

Lemma filter_none (p : User -> bool) (st : Store) :
  (forall r, In r st -> p r = false) -> List.filter p st = [].
Proof.
  induction st as [|r rs IH]; simpl; intros H; [reflexivity|].
  rewrite (H r) by now left. apply IH. intros x Hx. apply H. now right.
Qed.

(** What a successful row creation by the webhook leaves behind. *)
Lemma handleUserCreated_created (uuid : string) (userData : UserJSON)
    (st st1 : Store) :
  handleUserCreated uuid userData st = Ok st1 -> st1 <> st ->
  exists user,
    st1 = st ++ [user] /\ oauthId user = data_id userData
    /\ (forall r, In r st -> oauthId r <> data_id userData)
    /\ forall uuid', handleUserCreated uuid' userData st1 = Throw P2002.
Proof.
  unfold handleUserCreated.
  destruct (primaryEmailOf userData) as [primaryEmail|];
    [|intros H; inversion H; congruence].
  match goal with |- context [create uuid ?d st] => set (data := d) end.
  destruct (create uuid data st) as [[user st']|e] eqn:Hcreate;
    [|discriminate].
  intros H Hne. inversion H; subst st'. clear H.
  pose proof (create_inv _ _ _ _ _ Hcreate) as (Hu & Hst & Hfresh).
  exists user. split; [exact Hst|]. split; [now rewrite Hu|].
  split; [intros r Hr; now apply Hfresh|].
  intros uuid'. now rewrite (create_replay _ uuid' _ _ _ _ Hcreate).
Qed.

Lemma handleUserCreated_unique (uuid : string) (userData : UserJSON)
    (st st1 : Store) :
  List.NoDup (map oauthId st) ->
  handleUserCreated uuid userData st = Ok st1 ->
  List.NoDup (map oauthId st1).
Proof.
  intros Hnd H. destruct (decide (st1 = st)) as [->|Hne]; [exact Hnd|].
  destruct (handleUserCreated_created _ _ _ _ H Hne)
    as (user & -> & Ho & Hfresh & _).
  rewrite List.map_app. apply NoDup_snoc; [exact Hnd|].
  intros Hin. apply in_map_iff in Hin as (r & Hr & Hrin).
  apply (Hfresh r Hrin). congruence.
Qed.

Lemma replaceFirst_keeps_oauthId (p : User -> bool) (u u' : User) (st : Store) :
  List.find p st = Some u -> oauthId u' = oauthId u ->
  map oauthId (replaceFirst p u' st) = map oauthId st.
Proof.
  induction st as [|r rs IH]; simpl; [discriminate|].
  destruct (p r); intros H E.
  - inversion H; subst. simpl. now rewrite E.
  - simpl. now rewrite IH.
Qed.

Lemma removeFirst_NoDup (p : User -> bool) (st : Store) :
  List.NoDup (map oauthId st) -> List.NoDup (map oauthId (removeFirst p st)).
Proof.
  induction st as [|r rs IH]; simpl; intros Hnd; [constructor|].
  inversion Hnd as [|? ? Hnin Hnd']; subst.
  destruct (p r); [exact Hnd'|]. simpl. constructor; [|now apply IH].
  intros Hin. apply Hnin. clear -Hin.
  induction rs as [|x xs IHx]; simpl in *; [tauto|].
  destruct (p x); simpl in *; tauto.
Qed.

(** The webhook keeps the external identifier unique, whatever the
    event. *)
Lemma handleUserWebhook_unique (lib : Library) (env : Env) (uuid : string)
    (req : Request) (st : Store) :
  List.NoDup (map oauthId st) ->
  List.NoDup (map oauthId (snd (handleUserWebhook lib env uuid req st))).
Proof.
  intros Hnd. unfold handleUserWebhook.
  repeat match goal with
  | |- context [if ?c then (json ?s ?k ?m, st) else _] =>
      destruct c; [exact Hnd|]
  end.
  destruct (newWebhook lib _) as [w|]; [|exact Hnd].
  destruct (verify lib w _ _) as [event|]; [|exact Hnd].
  destruct (JsString.startsWith "user." (type event)); [|exact Hnd].
  destruct (dispatch uuid event st) as [st'|e] eqn:Hd; [|exact Hnd].
  cbn [snd]. unfold dispatch in Hd.
  destruct (bool_decide (type event = "user.created")).
  { now apply (handleUserCreated_unique uuid (data event) st). }
  destruct (bool_decide (type event = "user.updated")).
  { unfold handleUserUpdated in Hd.
    destruct (primaryEmailOf (data event)); [|now inversion Hd; subst].
    unfold update in Hd.
    destruct (findUnique _ st) as [u|] eqn:Hfind; [|discriminate].
    destruct (violatesUnique _ _ _ _); [discriminate|].
    inversion Hd; subst st'.
    now rewrite (replaceFirst_keeps_oauthId _ u _ st Hfind). }
  destruct (bool_decide (type event = "user.deleted")).
  { unfold handleUserDeleted, delete in Hd.
    destruct (findUnique _ st); [|discriminate].
    inversion Hd; subst st'. now apply removeFirst_NoDup. }
  now inversion Hd; subst.
Qed.

(** A signed [user.created] request either stops at a guard, or runs
    [handleUserCreated] on the event's data. *)
Lemma handleUserWebhook_created (lib : Library) (env : Env) (req : Request)
    (s : string) (w : Webhook lib) (event : WebhookEvent) :
  webhookSecret env = Some s -> newWebhook lib s = Some w ->
  verify lib w (body req) (headers req) = Some event ->
  type event = "user.created" ->
  (exists res, forall uuid st,
      handleUserWebhook lib env uuid req st = (Send res, st))
  \/ (forall uuid st,
        handleUserWebhook lib env uuid req st
        = match handleUserCreated uuid (data event) st with
          | Ok st' =>
              (json 200 "success" "User webhook processed successfully", st')
          | Throw _ => (json 500 "error" "Error processing webhook", st)
          end).
Proof.
  intros Hsecret Hw Hv Htype. unfold handleUserWebhook. rewrite Hsecret.
  change (default "" (Some s)) with s.
  destruct (negb (truthy_opt_string (Some s))); [left; now eexists|].
  destruct (negb (truthy_opt_string (svix_id (headers req)))
            || negb (truthy_opt_string (svix_timestamp (headers req)))
            || negb (truthy_opt_string (svix_signature (headers req))));
    [left; now eexists|].
  right. intros uuid st. rewrite Hw, Hv. unfold dispatch. rewrite Htype.
  reflexivity.
Qed.

(** C7.  Two deliveries of the same webhook request, the second on the
    table the first one left.  If the external identifiers were distinct
    before, they are distinct after the first and after the second
    delivery.  If the request is a verified user.created event and the
    first delivery created the row, then the replay is refused (the
    unique index answers P2002, the handler answers 500), the table stays
    as the first delivery left it, and the users stored with that
    external identifier are exactly the one created row. *)
Theorem user_created_replay_keeps_oauthId_unique (lib : Library) (env : Env)
    (uuid1 uuid2 : string) (req : Request) (st : Store) :
  let st1 := snd (handleUserWebhook lib env uuid1 req st) in
  let r2 := handleUserWebhook lib env uuid2 req st1 in
  (List.NoDup (map oauthId st) ->
   List.NoDup (map oauthId st1) /\ List.NoDup (map oauthId (snd r2)))
  /\
  (forall s w event,
     webhookSecret env = Some s -> newWebhook lib s = Some w ->
     verify lib w (body req) (headers req) = Some event ->
     type event = "user.created" -> st1 <> st ->
     r2 = (Send (mkResponse 500 "error" "Error processing webhook" None), st1)
     /\ exists user,
          st1 = st ++ [user]
          /\ oauthId user = data_id (data event)
          /\ List.filter
               (fun r => bool_decide (oauthId r = data_id (data event))) st1
             = [user]).
Proof.
  intros st1 r2. split.
  - intros Hnd.
    assert (Hnd1 : List.NoDup (map oauthId st1))
      by now apply handleUserWebhook_unique.
    split; [exact Hnd1|]. now apply handleUserWebhook_unique.
  - intros s w event Hsecret Hw Hv Htype Hne. subst st1 r2.
    destruct (handleUserWebhook_created lib env req s w event
                Hsecret Hw Hv Htype) as [(res & Hstop)|Hrun].
    { rewrite Hstop in Hne. now destruct Hne. }
    rewrite (Hrun uuid1 st) in *.
    destruct (handleUserCreated uuid1 (data event) st) as [st1|e] eqn:H1;
      [|now destruct Hne].
    cbn [snd] in *.
    destruct (handleUserCreated_created _ _ _ _ H1 Hne)
      as (user & Hst1 & Ho & Hfresh & Hreplay).
    rewrite (Hrun uuid2 st1), (Hreplay uuid2). split; [reflexivity|].
    exists user. split; [exact Hst1|]. split; [exact Ho|].
    rewrite Hst1, List.filter_app, filter_none.
    + cbn [List.filter app]. now rewrite bool_decide_eq_true_2.
    + intros r Hr. apply bool_decide_eq_false_2. now apply Hfresh.
Qed.

Lemma user_created_replay_keeps_oauthId_unique_witness :
  let erin := mkUser "u5" "erin@example.com" "x5" (Some "erin") None None
                UNPAID BASIC 0 0 20 0 in
  handleUserWebhook SampleWebhook.lib SampleWebhook.env "u5"
    (SampleWebhook.signed "user.created") Sample.table
  = (Send (mkResponse 200 "success" "User webhook processed successfully"
             None),
     Sample.table ++ [erin])
  /\ handleUserWebhook SampleWebhook.lib SampleWebhook.env "u6"
       (SampleWebhook.signed "user.created") (Sample.table ++ [erin])
     = (Send (mkResponse 500 "error" "Error processing webhook" None),
        Sample.table ++ [erin])
  /\ List.filter (fun r => bool_decide (oauthId r = "x5"))
       (Sample.table ++ [erin]) = [erin]
  /\ List.NoDup (map oauthId (Sample.table ++ [erin])).
Proof.
  intros erin.
  assert (Hfirst :
            handleUserWebhook SampleWebhook.lib SampleWebhook.env "u5"
              (SampleWebhook.signed "user.created") Sample.table
            = (Send (mkResponse 200 "success"
                       "User webhook processed successfully" None),
               Sample.table ++ [erin])) by (vm_compute; reflexivity).
  split; [exact Hfirst|].
  destruct (user_created_replay_keeps_oauthId_unique SampleWebhook.lib
              SampleWebhook.env "u5" "u6"
              (SampleWebhook.signed "user.created") Sample.table)
    as [Hunique Hreplay].
  rewrite Hfirst in Hreplay, Hunique. cbn [snd] in Hreplay, Hunique.
  destruct (Hreplay "whsec" "whsec"
              (mkEvent "user.created" SampleWebhook.erin)
              ltac:(reflexivity) ltac:(reflexivity) ltac:(reflexivity)
              ltac:(reflexivity) ltac:(discriminate))
    as (Hrun & user & Hst & _ & Hfilter).
  split; [exact Hrun|]. split.
  - apply app_inj_tail in Hst as [_ <-]. exact Hfilter.
  - apply Hunique. repeat constructor; simpl; intuition discriminate.
Defined.

(** ** Usage updates through the oauthId-keyed endpoint (C9) *)

Lemma usageUpdate_messageLeft (u : User) (body ud : UpdateBody) :
  b_messageLeft (RoutesByOauthId.usageUpdate u body ud)
  = if negb (messageLeft u =? -1) then
      if RoutesByOauthId.isTrue (b_incrementMessage body)
      then Some (Z.max 0 (messageLeft u - 1))
      else match b_messagesUsed body with
           | Some m =>
               Some (Z.max 0 (messageLeft u - (Z.max 0 m - messagesUsed u)))
           | None => b_messageLeft ud
           end
    else b_messageLeft ud.
Proof.
  unfold RoutesByOauthId.usageUpdate.
  destruct (RoutesByOauthId.isTrue (b_incrementMessage body)),
    (RoutesByOauthId.isTrue (b_incrementDocument body)),
    (messageLeft u =? -1), (documentLeft u =? -1),
    (b_messagesUsed body), (b_documentsUsed body); reflexivity.
Qed.

Lemma usageUpdate_documentLeft (u : User) (body ud : UpdateBody) :
  b_documentLeft (RoutesByOauthId.usageUpdate u body ud)
  = if negb (documentLeft u =? -1) then
      if RoutesByOauthId.isTrue (b_incrementDocument body)
      then Some (Z.max 0 (documentLeft u - 1))
      else match b_documentsUsed body with
           | Some m =>
               Some (Z.max 0 (documentLeft u - (Z.max 0 m - documentsUsed u)))
           | None => b_documentLeft ud
           end
    else b_documentLeft ud.
Proof.
  unfold RoutesByOauthId.usageUpdate.
  destruct (RoutesByOauthId.isTrue (b_incrementMessage body)),
    (RoutesByOauthId.isTrue (b_incrementDocument body)),
    (messageLeft u =? -1), (documentLeft u =? -1),
    (b_messagesUsed body), (b_documentsUsed body); reflexivity.
Qed.

(** Without a flag and without an absolute value the block changes
    nothing, so the guard in front of it can be dropped. *)
Lemma usageUpdate_guard (u : User) (body ud : UpdateBody) :
  (if RoutesByOauthId.isTrue (b_incrementMessage body)
      || RoutesByOauthId.isTrue (b_incrementDocument body)
      || bool_decide (is_Some (b_messagesUsed body))
      || bool_decide (is_Some (b_documentsUsed body))
   then RoutesByOauthId.usageUpdate u body ud else ud)
  = RoutesByOauthId.usageUpdate u body ud.
Proof.
  unfold RoutesByOauthId.usageUpdate.
  destruct (RoutesByOauthId.isTrue (b_incrementMessage body)),
    (RoutesByOauthId.isTrue (b_incrementDocument body)),
    (b_messagesUsed body), (b_documentsUsed body); reflexivity.
Qed.

Lemma asUserUpdate_left (b : UpdateBody) (d : UserUpdate) :
  asUserUpdate b = Some d ->
  u_messageLeft d = b_messageLeft b /\ u_documentLeft d = b_documentLeft b.
Proof.
  unfold asUserUpdate.
  destruct (enumField parseSubscriptionStatus (b_subscriptionStatus b));
    [|discriminate].
  destruct (enumField parsePlanType (b_planType b)); [|discriminate].
  destruct (b_incrementMessage b); [discriminate|].
  destruct (b_incrementDocument b); [discriminate|].
  intros H. inversion H. now split.
Qed.

(** C9.  A successful usage update through PATCH /api/v1/users/:oauthId
    (a body without planType), on a table with distinct primary keys:
    the answer carries the row that the primary key then finds.  For
    messages: when messageLeft is not -1, the flag incrementMessage
    stores max(0, messageLeft - 1) and an absolute messagesUsed = m
    stores max(0, messageLeft - (max(0, m) - messagesUsed)), so the
    stored messageLeft is >= 0, whatever else the body holds; when
    messageLeft is -1 the usage block does not write it, and the stored
    value is -1 unless the body itself carries messageLeft, which is
    then stored as sent.  The same for documents with incrementDocument,
    documentsUsed and documentLeft. *)
Theorem usage_update_floors_at_zero (LocalTZA : JsDate.TimeZone) (now : Z)
    (st : Store) (o : string) (u : User) (body : UpdateBody) :
  let r := RoutesByOauthId.patchUser LocalTZA now o body st in
  List.NoDup (map id st) ->
  findUnique (WhereOauthId o) st = Some u ->
  truthy_opt_string (b_planType body) = false ->
  statusCode (fst r) = 200 ->
  exists u',
    json_data (fst r) = Some (DataUser u')
    /\ snd r = replaceFirst (matches (WhereOauthId o)) u' st
    /\ findUnique (WhereId (id u)) (snd r) = Some u'
    /\ (messageLeft u <> -1 ->
        (b_incrementMessage body = Some true ->
         messageLeft u' = Z.max 0 (messageLeft u - 1))
        /\ (forall m,
              b_incrementMessage body <> Some true ->
              b_messagesUsed body = Some m ->
              messageLeft u'
              = Z.max 0 (messageLeft u - (Z.max 0 m - messagesUsed u)))
        /\ (b_incrementMessage body = Some true
            \/ is_Some (b_messagesUsed body) ->
            0 <= messageLeft u'))
    /\ (messageLeft u = -1 ->
        messageLeft u' = default (-1) (b_messageLeft body))
    /\ (documentLeft u <> -1 ->
        (b_incrementDocument body = Some true ->
         documentLeft u' = Z.max 0 (documentLeft u - 1))
        /\ (forall m,
              b_incrementDocument body <> Some true ->
              b_documentsUsed body = Some m ->
              documentLeft u'
              = Z.max 0 (documentLeft u - (Z.max 0 m - documentsUsed u)))
        /\ (b_incrementDocument body = Some true
            \/ is_Some (b_documentsUsed body) ->
            0 <= documentLeft u'))
    /\ (documentLeft u = -1 ->
        documentLeft u' = default (-1) (b_documentLeft body)).
Proof.
  intros r Hnd Hfind Hplan. subst r. unfold RoutesByOauthId.patchUser.
  rewrite Hplan. cbn [negb andb].
  skip_error_guards st.
  rewrite Hfind, usageUpdate_guard.
  skip_error_guards st.
  destruct (asUserUpdate _) as [data|] eqn:Hdata; [|cbn; intros; discriminate].
  apply asUserUpdate_left in Hdata as [Hml Hdl].
  rewrite usageUpdate_messageLeft in Hml.
  rewrite usageUpdate_documentLeft in Hdl.
  enter_update. rewrite Hfind.
  destruct (violatesUnique _ _ _ _); [cbn; intros; discriminate|].
  intros Hs. clear Hs. eexists.
  split; [reflexivity|]. split; [reflexivity|].
  split; [cbn [snd]; now apply lookup_after_replace|].
  cbn [applyUpdate messageLeft documentLeft]. rewrite Hml, Hdl.
  cbn [RoutesByOauthId.rest b_messageLeft b_documentLeft].
  assert (HisTrue : forall f, RoutesByOauthId.isTrue f = true <-> f = Some true).
  { intros [[|]|]; simpl; split; congruence. }
  split; [|split; [|split]].
  - intros Hfin. apply Z.eqb_neq in Hfin. rewrite Hfin. cbn [negb].
    destruct (RoutesByOauthId.isTrue (b_incrementMessage body)) eqn:Hinc.
    + apply HisTrue in Hinc. cbn [default from_option Datatypes.id].
      repeat split; try (intros; congruence); intros; lia.
    + assert (Hnot : b_incrementMessage body <> Some true).
      { intros E. apply HisTrue in E. congruence. }
      split; [congruence|]. split.
      * intros m _ Hm. now rewrite Hm.
      * intros [E|[m Hm]]; [congruence|]. rewrite Hm.
        cbn [default from_option Datatypes.id]. lia.
  - intros Hinf. rewrite (proj2 (Z.eqb_eq _ _) Hinf). cbn [negb].
    now rewrite Hinf.
  - intros Hfin. apply Z.eqb_neq in Hfin. rewrite Hfin. cbn [negb].
    destruct (RoutesByOauthId.isTrue (b_incrementDocument body)) eqn:Hinc.
    + apply HisTrue in Hinc. cbn [default from_option Datatypes.id].
      repeat split; try (intros; congruence); intros; lia.
    + assert (Hnot : b_incrementDocument body <> Some true).
      { intros E. apply HisTrue in E. congruence. }
      split; [congruence|]. split.
      * intros m _ Hm. now rewrite Hm.
      * intros [E|[m Hm]]; [congruence|]. rewrite Hm.
        cbn [default from_option Datatypes.id]. lia.
  - intros Hinf. rewrite (proj2 (Z.eqb_eq _ _) Hinf). cbn [negb].
    now rewrite Hinf.
Qed.

Lemma usage_update_floors_at_zero_witness :
  (exists u',
     json_data
       (fst (RoutesByOauthId.patchUser JsDate.utc Sample.jan31 "x1"
               (mkBody None None None None None None None None (Some 3)
                  None None None None)
               Sample.table))
     = Some (DataUser u')
     /\ documentsUsed u' = 3 /\ documentLeft u' = 0)
  /\ (exists u',
        findUnique (WhereId "u4")
          (snd (RoutesByOauthId.patchUser JsDate.utc Sample.jan31 "x4"
                  (mkBody None None None None None None None None None
                     None None (Some true) None)
                  Sample.table))
        = Some u'
        /\ messagesUsed u' = 8 /\ messageLeft u' = -1).
Proof.
  assert (Hnd : List.NoDup (map id Sample.table))
    by (repeat constructor; simpl; intuition discriminate).
  split.
  - destruct (usage_update_floors_at_zero JsDate.utc Sample.jan31
                Sample.table "x1" Sample.alice
                (mkBody None None None None None None None None (Some 3)
                   None None None None)
                Hnd ltac:(reflexivity) ltac:(reflexivity)
                ltac:(vm_compute; reflexivity))
      as (u' & Hdata & _ & _ & _ & _ & Hdoc & _).
    exists u'. split; [exact Hdata|].
    vm_compute in Hdata. inversion Hdata. split; [reflexivity|].
    destruct (Hdoc ltac:(simpl; discriminate)) as (_ & Habs & _).
    subst u'. reflexivity.
  - destruct (usage_update_floors_at_zero JsDate.utc Sample.jan31
                Sample.table "x4" Sample.dave
                (mkBody None None None None None None None None None
                   None None (Some true) None)
                Hnd ltac:(reflexivity) ltac:(reflexivity)
                ltac:(vm_compute; reflexivity))
      as (u' & Hdata & _ & Hlook & _ & Hinf & _).
    exists u'. split; [exact Hlook|].
    vm_compute in Hdata. inversion Hdata. split; reflexivity.
Defined.

(** A left-counter of -1 is not left unchanged by every usage mutation:
    the body can carry the counter itself.  dave has messageLeft = -1,
    the body
    { incrementMessage: true, messageLeft: 50 } is answered with 200,
    and the stored messageLeft is 50. *)
Lemma usage_update_overwrites_sentinel :
  let body := mkBody None None None None None None None None None
                (Some 50) None (Some true) None in
  let r := RoutesByOauthId.patchUser JsDate.utc Sample.jan31 "x4" body
             Sample.table in
  findUnique (WhereOauthId "x4") Sample.table = Some Sample.dave
  /\ messageLeft Sample.dave = -1
  /\ statusCode (fst r) = 200
  /\ exists u',
       findUnique (WhereOauthId "x4") (snd r) = Some u'
       /\ messagesUsed u' = messagesUsed Sample.dave + 1
       /\ messageLeft u' = 50 /\ messageLeft u' <> -1.
Proof.
  cbv zeta. split; [reflexivity|]. split; [reflexivity|].
  split; [reflexivity|]. eexists. split; [vm_compute; reflexivity|].
  repeat split; discriminate.
Qed.

(** ** The stats endpoint (C10) *)

Lemma ceilDiv_is_ceiling (x d : Z) :
  0 < d -> d * (JsDate.ceilDiv x d - 1) < x <= d * JsDate.ceilDiv x d.
Proof.
  intros Hd. unfold JsDate.ceilDiv.
  pose proof (Z.div_mod (- x) d ltac:(lia)) as Hdm.
  pose proof (Z.mod_pos_bound (- x) d Hd) as Hb.
  nia.
Qed.

(** C10.  GET /api/v1/users/:id/stats for a stored user: for messages
    and for documents, remaining and total are the string unlimited
    exactly when the left-counter is -1, and otherwise remaining is the
    left-counter and total is used + left; daysRemaining is null when
    subscriptionEndDate is null and otherwise the ceiling of
    (subscriptionEndDate - now) / 86400000 ms, that is the least integer
    k with subscriptionEndDate - now <= k days.  These are the figures of
    the data member of the answer, which has status 200; the table is
    not touched. *)
Theorem stats_reports_quota_and_days (now : Z) (st : Store) (i : string)
    (u : User) :
  i <> "" -> findUnique (WhereId i) st = Some u ->
  exists s,
    statusCode (fst (RoutesById.getStats now i st)) = 200
    /\ json_status (fst (RoutesById.getStats now i st)) = "success"
    /\ json_data (fst (RoutesById.getStats now i st)) = Some (DataStats s)
    /\ snd (RoutesById.getStats now i st) = st
    /\ stats_userId s = id u /\ stats_planType s = planType u
    /\ stats_subscriptionStatus s = subscriptionStatus u
    /\ subscription_startDate s = subscriptioStartDate u
    /\ subscription_endDate s = subscriptionEndDate u
    /\ used (usage_messages s) = messagesUsed u
    /\ used (usage_documents s) = documentsUsed u
    /\ (remaining (usage_messages s) = unlimited <-> messageLeft u = -1)
    /\ (total (usage_messages s) = unlimited <-> messageLeft u = -1)
    /\ (messageLeft u <> -1 ->
        remaining (usage_messages s) = finite (messageLeft u)
        /\ total (usage_messages s)
           = finite (messagesUsed u + messageLeft u))
    /\ (remaining (usage_documents s) = unlimited <-> documentLeft u = -1)
    /\ (total (usage_documents s) = unlimited <-> documentLeft u = -1)
    /\ (documentLeft u <> -1 ->
        remaining (usage_documents s) = finite (documentLeft u)
        /\ total (usage_documents s)
           = finite (documentsUsed u + documentLeft u))
    /\ (subscriptionEndDate u = None -> subscription_daysRemaining s = None)
    /\ (forall e,
          subscriptionEndDate u = Some e ->
          exists k,
            subscription_daysRemaining s = Some k
            /\ k = JsDate.ceilDiv (e - now) 86400000
            /\ 86400000 * (k - 1) < e - now <= 86400000 * k).
Proof.
  intros Hi Hfind. unfold RoutesById.getStats.
  rewrite (truthy_string_true i Hi), Hfind. cbn [negb].
  eexists. do 9 (split; [reflexivity|]).
  cbn [used remaining total usage_messages usage_documents
       subscription_daysRemaining].
  split; [reflexivity|]. split; [reflexivity|].
  assert (Hquota : forall used left : Z,
             ((if left =? -1 then unlimited else finite left) = unlimited
              <-> left = -1)
             /\ ((if left =? -1 then unlimited else finite (used + left))
                 = unlimited <-> left = -1)
             /\ (left <> -1 ->
                 (if left =? -1 then unlimited else finite left) = finite left
                 /\ (if left =? -1 then unlimited else finite (used + left))
                    = finite (used + left))).
  { intros used left. destruct (Z.eqb_spec left (-1)) as [E|E].
    - repeat split; intros; trivial; contradiction.
    - repeat split; intros; trivial; discriminate || contradiction. }
  destruct (Hquota (messagesUsed u) (messageLeft u)) as (Hm1 & Hm2 & Hm3).
  destruct (Hquota (documentsUsed u) (documentLeft u)) as (Hd1 & Hd2 & Hd3).
  do 6 (split; [assumption|]).
  split.
  - intros Hnone. now rewrite Hnone.
  - intros e He. rewrite He. eexists. split; [reflexivity|].
    split; [reflexivity|]. apply ceilDiv_is_ceiling. lia.
Qed.

Lemma stats_reports_quota_and_days_witness :
  exists s,
    json_data (fst (RoutesById.getStats Sample.jan31 "u4" Sample.table))
    = Some (DataStats s)
    /\ remaining (usage_messages s) = unlimited
    /\ total (usage_documents s) = unlimited
    /\ subscription_daysRemaining s = Some 30.
Proof.
  destruct (stats_reports_quota_and_days Sample.jan31 Sample.table "u4"
              Sample.dave ltac:(discriminate) ltac:(reflexivity))
    as (s & _ & _ & Hdata & _ & _ & _ & _ & _ & _ & _ & _ & Hrem & _ & _ & _
        & Htot & _ & _ & Hdays).
  exists s. split; [exact Hdata|].
  split; [now apply Hrem|]. split; [now apply Htot|].
  destruct (Hdays _ ltac:(reflexivity)) as (k & Hk & -> & _).
  exact Hk.
Defined.

(** Without a configured secret the webhook answers 500 to every
    request, before it looks at the headers, and touches nothing. *)
Lemma webhook_without_secret (lib : Library) (env : Env) (uuid : string)
    (req : Request) (st : Store) :
  truthy_opt_string (webhookSecret env) = false ->
  handleUserWebhook lib env uuid req st
  = (Send (mkResponse 500 "error" "Server configuration error" None), st).
Proof. intros H. unfold handleUserWebhook. now rewrite H. Qed.

(** * Further properties of the code *)

(** ** The uniqueness constraints are kept by every write *)

Lemma replaceFirst_keeps {A} (f : User -> A) (p : User -> bool) (u u' : User)
    (st : Store) :
  List.find p st = Some u -> f u' = f u ->
  map f (replaceFirst p u' st) = map f st.
Proof.
  induction st as [|r rs IH]; simpl; [discriminate|].
  destruct (p r); intros H E.
  - inversion H; subst. simpl. now rewrite E.
  - simpl. now rewrite IH.
Qed.

Lemma replaceFirst_In (p : User -> bool) (u' x : User) (st : Store) :
  In x (replaceFirst p u' st) -> In x st \/ x = u'.
Proof.
  induction st as [|r rs IH]; simpl; [tauto|].
  destruct (p r); simpl; intros [H|H]; auto.
  destruct (IH H); auto.
Qed.

Lemma replaceFirst_NoDup {A} (f : User -> A) (p : User -> bool) (u u' : User)
    (st : Store) :
  List.NoDup (map f st) -> List.find p st = Some u ->
  (forall r, In r st -> r <> u -> f r <> f u') ->
  List.NoDup (map f (replaceFirst p u' st)).
Proof.
  induction st as [|r rs IH]; simpl; [discriminate|].
  intros Hnd Hfind Hother. inversion Hnd as [|? ? Hnin Hnd']; subst.
  destruct (p r) eqn:Hp.
  - inversion Hfind; subst r. simpl. constructor; [|exact Hnd'].
    intros Hin. apply in_map_iff in Hin as (x & Hx & Hxin).
    apply (Hother x); [now right| |exact Hx].
    intros ->. apply Hnin. now apply in_map.
  - simpl. constructor.
    + intros Hin. apply in_map_iff in Hin as (x & Hx & Hxin).
      apply replaceFirst_In in Hxin as [Hxin| ->].
      * apply Hnin. rewrite <- Hx. now apply in_map.
      * apply (Hother r); [now left| |now symmetry].
        intros ->. apply find_some in Hfind as [_ Hpu]. congruence.
    + apply IH; trivial. intros x Hx. apply Hother. now right.
Qed.

Lemma removeFirst_NoDup_map {A} (f : User -> A) (p : User -> bool)
    (st : Store) :
  List.NoDup (map f st) -> List.NoDup (map f (removeFirst p st)).
Proof.
  induction st as [|r rs IH]; simpl; intros Hnd; [constructor|].
  inversion Hnd as [|? ? Hnin Hnd']; subst.
  destruct (p r); [exact Hnd'|]. simpl. constructor; [|now apply IH].
  intros Hin. apply Hnin. clear -Hin.
  induction rs as [|x xs IHx]; simpl in *; [tauto|].
  destruct (p x); simpl in *; tauto.
Qed.

Lemma violatesUnique_false (d : UserUpdate) (u u' : User) (st : Store) :
  violatesUnique d u u' st = false ->
  forall r, In r st -> id r <> id u ->
    (is_Some (u_email d) -> email r <> email u')
    /\ (is_Some (u_oauthId d) -> oauthId r <> oauthId u').
Proof.
  unfold violatesUnique. intros Hv r Hr Hid.
  destruct (existsb _ st) eqn:Hex; [discriminate|].
  split; intros Hsome E.
  all: assert (Htrue : existsb
                 (fun r => negb (bool_decide (id r = id u))
                           && ((bool_decide (is_Some (u_email d))
                                && bool_decide (email r = email u'))
                               || (bool_decide (is_Some (u_oauthId d))
                                   && bool_decide (oauthId r = oauthId u'))))
                 st = true)
         by (apply existsb_exists; exists r; split; [assumption|];
             rewrite andb_true_iff, negb_true_iff, orb_true_iff,
               !andb_true_iff, bool_decide_eq_false, !bool_decide_eq_true;
             tauto).
  all: congruence.
Qed.

Lemma update_wellKeyed (w : UserWhereUnique) (d : UserUpdate) (st st' : Store)
    (u' : User) :
  wellKeyed st -> update w d st = Ok (u', st') -> wellKeyed st'.
Proof.
  intros (Hid & Hemail & Hoauth) Hup.
  apply update_ok_inv in Hup as (_ & u & Hfind & -> & Hv & ->).
  pose proof (violatesUnique_false _ _ _ _ Hv) as Hfree.
  assert (Hne : forall r, In r st -> r <> u -> id r <> id u).
  { intros r Hr Hru E. apply Hru.
    eapply NoDup_map_id_inj; eauto. eapply findUnique_In; eauto. }
  split; [|split].
  - now rewrite (replaceFirst_keeps id _ u _ st Hfind).
  - destruct (u_email d) as [e|] eqn:He.
    + apply replaceFirst_NoDup with (u := u); trivial.
      intros r Hr Hru. apply (Hfree r Hr (Hne r Hr Hru)). now exists e.
    + rewrite (replaceFirst_keeps email _ u _ st Hfind); trivial.
      unfold applyUpdate. cbn [email]. now rewrite He.
  - destruct (u_oauthId d) as [o|] eqn:Ho.
    + apply replaceFirst_NoDup with (u := u); trivial.
      intros r Hr Hru. apply (Hfree r Hr (Hne r Hr Hru)). now exists o.
    + rewrite (replaceFirst_keeps oauthId _ u _ st Hfind); trivial.
      unfold applyUpdate. cbn [oauthId]. now rewrite Ho.
Qed.

Lemma create_wellKeyed (uuid : string) (d : UserCreate) (st st' : Store)
    (u : User) :
  wellKeyed st -> create uuid d st = Ok (u, st') -> wellKeyed st'.
Proof.
  intros (Hid & Hemail & Hoauth) Hc.
  apply create_inv in Hc as (-> & -> & Hfresh).
  unfold wellKeyed. rewrite !List.map_app.
  split; [|split]; apply NoDup_snoc; trivial.
  all: intros Hin; apply in_map_iff in Hin as (r & Hr & Hrin).
  all: destruct (Hfresh r Hrin) as (H1 & H2 & H3); cbn in Hr; congruence.
Qed.

Lemma delete_wellKeyed (w : UserWhereUnique) (st st' : Store) (u : User) :
  wellKeyed st -> delete w st = Ok (u, st') -> wellKeyed st'.
Proof.
  intros (Hid & Hemail & Hoauth). unfold delete.
  destruct (findUnique w st); [|discriminate].
  intros H. inversion H; subst.
  repeat split; now apply removeFirst_NoDup_map.
Qed.

(** One step of the case analysis of a handler. *)
Ltac handler_step :=
  match goal with
  | |- context [match ?x with _ => _ end] => destruct x eqn:?
  end.

(** X1.  Every write endpoint keeps the constraints of the schema: if
    primary keys, e-mail addresses and external identifiers are each
    distinct before the request, they are distinct after it, whatever the
    request and whatever the answer. *)
Theorem endpoints_keep_keys_unique (LocalTZA : JsDate.TimeZone) (st : Store) :
  wellKeyed st ->
  (forall uuid body, wellKeyed (snd (RoutesById.postUser uuid body st)))
  /\ (forall uuid body, wellKeyed (snd (RoutesByOauthId.postUser uuid body st)))
  /\ (forall i body, wellKeyed (snd (RoutesById.patchUser i body st)))
  /\ (forall now o body,
        wellKeyed (snd (RoutesByOauthId.patchUser LocalTZA now o body st)))
  /\ (forall now i body,
        wellKeyed (snd (RoutesById.patchSubscription now i body st)))
  /\ (forall i body, wellKeyed (snd (RoutesById.patchUsage i body st)))
  /\ (forall i, wellKeyed (snd (RoutesById.deleteUser i st)))
  /\ (forall o, wellKeyed (snd (RoutesByOauthId.deleteUser o st)))
  /\ (forall i, wellKeyed (snd (RoutesByOauthId.deleteUserById i st))).
Proof.
  intros Hst.
  assert (Hpost : forall limits uuid body,
             wellKeyed (snd (postUserWith limits uuid body st))).
  { intros limits uuid body. unfold postUserWith.
    repeat handler_step; cbn [snd]; trivial.
    eapply create_wellKeyed; eauto. }
  split; [intros; apply Hpost|]. split; [intros; apply Hpost|].
  do 6 (split;
        [intros;
         unfold RoutesById.patchUser, RoutesByOauthId.patchUser,
           RoutesById.patchSubscription, RoutesById.patchUsage,
           RoutesById.deleteUser, RoutesByOauthId.deleteUser;
         repeat handler_step; cbn [snd]; trivial;
         solve [eapply update_wellKeyed; eauto
               |eapply delete_wellKeyed; eauto]|]).
  intros. unfold RoutesByOauthId.deleteUserById.
  repeat handler_step; cbn [snd]; trivial.
  eapply delete_wellKeyed; eauto.
Qed.

Lemma endpoints_keep_keys_unique_witness :
  wellKeyed
    (snd (RoutesByOauthId.patchUser JsDate.utc Sample.jan31 "x1"
            (mkBody (Some "alice@example.com") None None None None None None
               None None None None None None)
            Sample.table))
  /\ wellKeyed (snd (RoutesById.deleteUser "u2" Sample.table)).
Proof.
  assert (Hkeys : wellKeyed Sample.table).
  { repeat split; repeat constructor; simpl; intuition discriminate. }
  destruct (endpoints_keep_keys_unique JsDate.utc Sample.table Hkeys)
    as (_ & _ & _ & Hpatch & _ & _ & Hdelete & _).
  split; [apply Hpatch | apply Hdelete].
Defined.

(** ** A request that is not answered with 200 writes nothing *)

(** X2.  Whenever one of the write endpoints answers with a status other
    than 200 (a validation error, 403, 404, 409 or 500), the table is
    exactly what it was before the request. *)
Theorem failed_requests_change_nothing (LocalTZA : JsDate.TimeZone)
    (st : Store) :
  (forall uuid body,
     statusCode (fst (RoutesById.postUser uuid body st)) <> 200 ->
     snd (RoutesById.postUser uuid body st) = st)
  /\ (forall uuid body,
        statusCode (fst (RoutesByOauthId.postUser uuid body st)) <> 200 ->
        snd (RoutesByOauthId.postUser uuid body st) = st)
  /\ (forall i body,
        statusCode (fst (RoutesById.patchUser i body st)) <> 200 ->
        snd (RoutesById.patchUser i body st) = st)
  /\ (forall now o body,
        statusCode (fst (RoutesByOauthId.patchUser LocalTZA now o body st))
        <> 200 ->
        snd (RoutesByOauthId.patchUser LocalTZA now o body st) = st)
  /\ (forall now i body,
        statusCode (fst (RoutesById.patchSubscription now i body st)) <> 200 ->
        snd (RoutesById.patchSubscription now i body st) = st)
  /\ (forall i body,
        statusCode (fst (RoutesById.patchUsage i body st)) <> 200 ->
        snd (RoutesById.patchUsage i body st) = st)
  /\ (forall i,
        del_statusCode (fst (RoutesById.deleteUser i st)) <> 200 ->
        snd (RoutesById.deleteUser i st) = st)
  /\ (forall o,
        del_statusCode (fst (RoutesByOauthId.deleteUser o st)) <> 200 ->
        snd (RoutesByOauthId.deleteUser o st) = st)
  /\ (forall i,
        del_statusCode (fst (RoutesByOauthId.deleteUserById i st)) <> 200 ->
        snd (RoutesByOauthId.deleteUserById i st) = st).
Proof.
  do 8 (split;
        [intros *;
         unfold RoutesById.postUser, RoutesByOauthId.postUser, postUserWith,
           RoutesById.patchUser, RoutesByOauthId.patchUser,
           RoutesById.patchSubscription, RoutesById.patchUsage,
           RoutesById.deleteUser, RoutesByOauthId.deleteUser;
         repeat handler_step; cbn; intros Hstatus;
         solve [reflexivity | now destruct Hstatus]|]).
  intros *. unfold RoutesByOauthId.deleteUserById.
  repeat handler_step; cbn; intros Hstatus;
    solve [reflexivity | now destruct Hstatus].
Qed.

Lemma failed_requests_change_nothing_witness :
  snd (RoutesById.patchUsage "u1"
         (RoutesById.mkUsageBody (Some "document") (Some 1)) Sample.table)
  = Sample.table
  /\ snd (RoutesByOauthId.patchUser JsDate.utc Sample.jan31 "x1"
            (mkBody (Some "bob@example.com") None None None None None None
               None None None None None None)
            Sample.table)
     = Sample.table.
Proof.
  destruct (failed_requests_change_nothing JsDate.utc Sample.table)
    as (_ & _ & _ & Hpatch & _ & Husage & _).
  split.
  - apply Husage. vm_compute. discriminate.
  - apply Hpatch. vm_compute. discriminate.
Defined.

(** ** Creating, looking up and deleting users *)

Lemma isValidEmail_nonempty (e : string) : isValidEmail e = true -> e <> "".
Proof. intros H ->. discriminate. Qed.

Lemma find_none_iff (p : User -> bool) (st : Store) :
  List.find p st = None <-> forall r, In r st -> p r = false.
Proof.
  split.
  - intros H r Hr. now apply (find_none _ _ H).
  - induction st as [|r rs IH]; simpl; intros H; [reflexivity|].
    rewrite (H r) by now left. apply IH. intros x Hx. apply H. now right.
Qed.

Lemma find_app_fresh (p : User -> bool) (u : User) (st : Store) :
  (forall r, In r st -> p r = false) -> p u = true ->
  List.find p (st ++ [u]) = Some u.
Proof.
  induction st as [|r rs IH]; simpl; intros Hst Hu.
  - now rewrite Hu.
  - rewrite (Hst r) by now left. apply IH; trivial.
    intros x Hx. apply Hst. now right.
Qed.

Lemma removeFirst_app_fresh (p : User -> bool) (u : User) (st : Store) :
  (forall r, In r st -> p r = false) -> p u = true ->
  removeFirst p (st ++ [u]) = st.
Proof.
  induction st as [|r rs IH]; simpl; intros Hst Hu.
  - now rewrite Hu.
  - rewrite (Hst r) by now left. f_equal. apply IH; trivial.
    intros x Hx. apply Hst. now right.
Qed.




(** X4.  POST /api/v1/users answers 409 and writes nothing as soon as
    one stored user has the e-mail address of the body or its oauthId
    (the two may be found on different users); the body is otherwise
    well-formed. *)
Theorem postUser_conflict (st : Store) (uuid e o : string)
    (un : option string) (plan : option PlanType) (r : User) :
  isValidEmail e = true -> o <> "" ->
  In r st -> email r = e \/ oauthId r = o ->
  let body := mkCreateBody (Some e) (Some o) un (planTypeName <$> plan) in
  RoutesById.postUser uuid body st
  = (sendError 409 "User with this email or oauthId already exists", st)
  /\ RoutesByOauthId.postUser uuid body st
     = (sendError 409 "User with this email or oauthId already exists", st).
Proof.
  intros He Ho Hr Hhit body.
  assert (H : forall limits,
             postUserWith limits uuid body st
             = (sendError 409 "User with this email or oauthId already exists",
                st)).
  { intros limits. unfold postUserWith. subst body.
    cbn [cb_email cb_oauthId cb_username cb_planType].
    assert (HP : default "BASIC" (planTypeName <$> plan)
                 = planTypeName (default BASIC plan)) by now destruct plan.
    rewrite HP.
    rewrite (truthy_opt_string_Some e (isValidEmail_nonempty e He)).
    rewrite (truthy_opt_string_Some o Ho).
    change (default "" (Some e)) with e. change (default "" (Some o)) with o.
    rewrite He, planTypeName_truthy, isValidPlanType_name.
    cbn [negb orb andb]. unfold findFirst.
    destruct (List.find _ st) eqn:Hfind; [reflexivity|].
    apply (find_none _ _ Hfind) in Hr. cbn in Hr.
    apply orb_false_iff in Hr as [H1 H2].
    apply bool_decide_eq_false in H1, H2. tauto. }
  split; apply H.
Qed.

Lemma postUser_conflict_witness :
  RoutesById.postUser "u9"
    (mkCreateBody (Some "new@example.com") (Some "x2") None None) Sample.table
  = (sendError 409 "User with this email or oauthId already exists",
     Sample.table).
Proof.
  apply (postUser_conflict Sample.table "u9" "new@example.com" "x2" None None
           Sample.bob ltac:(reflexivity) ltac:(discriminate)
           ltac:(simpl; tauto) ltac:(right; reflexivity)).
Defined.

(** What a 200 of the create endpoint means for the table. *)
Lemma postUserWith_ok (limits : PlanType -> Limits) (uuid : string)
    (body : CreateBody) (st : Store) :
  statusCode (fst (postUserWith limits uuid body st)) = 200 ->
  exists u,
    postUserWith limits uuid body st
    = (sendSuccess (DataUser u) (Some "User created successfully"), st ++ [u])
    /\ id u = uuid /\ cb_oauthId body = Some (oauthId u)
    /\ oauthId u <> ""
    /\ forall r, In r st ->
         id r <> uuid /\ email r <> email u /\ oauthId r <> oauthId u.
Proof.
  unfold postUserWith.
  destruct (negb (truthy_opt_string (cb_email body))
            || negb (truthy_opt_string (cb_oauthId body))) eqn:Hreq;
    [cbn; discriminate|].
  apply orb_false_iff in Hreq as [_ Ho]. apply negb_false_iff in Ho.
  apply truthy_opt_string_inv in Ho as (o & Ho & Hne).
  destruct (negb (isValidEmail _)); [cbn; discriminate|].
  destruct (truthy_string _ && _); [cbn; discriminate|].
  destruct (findFirst _ st); [cbn; discriminate|].
  destruct (parsePlanType _) as [plan|]; [|cbn; discriminate].
  destruct (create uuid _ st) as [[user st']|err] eqn:Hcreate;
    [|cbn; discriminate].
  intros Hok. clear Hok.
  apply create_inv in Hcreate as (-> & -> & Hfresh).
  eexists. split; [reflexivity|].
  cbn [id oauthId email newRow c_oauthId c_email] in *.
  rewrite Ho in *. change (default "" (Some o)) with o in *.
  split; [reflexivity|]. split; [reflexivity|]. split; [exact Hne|].
  exact Hfresh.
Qed.

(** X5.  Creating a user and then deleting it gives the table back: after
    a POST /api/v1/users that was answered with 200, DELETE for the new
    user (by its id in the first revision, by its oauthId in the second)
    is answered with 200 and leaves the table as it was before the
    POST. *)
Theorem post_then_delete_restores (st : Store) (uuid : string)
    (body : CreateBody) :
  uuid <> "" ->
  (statusCode (fst (RoutesById.postUser uuid body st)) = 200 ->
   RoutesById.deleteUser uuid (snd (RoutesById.postUser uuid body st))
   = (sendDeleted DeletedNull "User deleted successfully", st))
  /\
  (forall o,
     cb_oauthId body = Some o ->
     statusCode (fst (RoutesByOauthId.postUser uuid body st)) = 200 ->
     RoutesByOauthId.deleteUser o
       (snd (RoutesByOauthId.postUser uuid body st))
     = (sendDeleted (DeletedKeys uuid o) "User deleted successfully", st)).
Proof.
  intros Huuid. split.
  - intros Hok. apply postUserWith_ok in Hok as (u & Hrun & Hid & _ & _ & Hfree).
    unfold RoutesById.postUser. rewrite Hrun. cbn [snd].
    unfold RoutesById.deleteUser, delete, findUnique.
    rewrite (truthy_string_true uuid Huuid). cbn [negb].
    rewrite find_app_fresh.
    + rewrite removeFirst_app_fresh; trivial.
      * intros r Hr. cbn. apply bool_decide_eq_false_2. now apply Hfree.
      * cbn. now apply bool_decide_eq_true_2.
    + intros r Hr. cbn. apply bool_decide_eq_false_2. now apply Hfree.
    + cbn. now apply bool_decide_eq_true_2.
  - intros o Hbody Hok.
    apply postUserWith_ok in Hok as (u & Hrun & Hid & Ho & Hne & Hfree).
    unfold RoutesByOauthId.postUser. rewrite Hrun. cbn [snd].
    rewrite Hbody in Ho. inversion Ho; subst o.
    unfold RoutesByOauthId.deleteUser, delete, findUnique.
    rewrite (truthy_string_true _ Hne). cbn [negb].
    rewrite find_app_fresh.
    + rewrite removeFirst_app_fresh; [now rewrite Hid| |].
      * intros r Hr. cbn. apply bool_decide_eq_false_2. now apply Hfree.
      * cbn. now apply bool_decide_eq_true_2.
    + intros r Hr. cbn. apply bool_decide_eq_false_2. now apply Hfree.
    + cbn. now apply bool_decide_eq_true_2.
Qed.

Lemma post_then_delete_restores_witness :
  RoutesByOauthId.deleteUser "x5"
    (snd (RoutesByOauthId.postUser "u5"
            (mkCreateBody (Some "erin@example.com") (Some "x5") None None)
            Sample.table))
  = (sendDeleted (DeletedKeys "u5" "x5") "User deleted successfully",
     Sample.table).
Proof.
  destruct (post_then_delete_restores Sample.table "u5"
              (mkCreateBody (Some "erin@example.com") (Some "x5") None None)
              ltac:(discriminate)) as [_ H].
  apply H; [reflexivity | vm_compute; reflexivity].
Defined.

Lemma removeFirst_key {A} `{EqDecision A} (f : User -> A) (k : A)
    (st : Store) :
  List.NoDup (map f st) ->
  forall r,
    In r (removeFirst (fun r => bool_decide (f r = k)) st)
    <-> In r st /\ f r <> k.
Proof.
  induction st as [|r0 rs IH]; simpl; intros Hnd r; [tauto|].
  inversion Hnd as [|? ? Hnin Hnd']; subst.
  destruct (bool_decide (f r0 = k)) eqn:E.
  - apply bool_decide_eq_true in E. split.
    + intros Hr. split; [now right|]. intros Ek. apply Hnin.
      rewrite E, <- Ek. now apply in_map.
    + intros [[->|Hr] Hk]; [contradiction|exact Hr].
  - apply bool_decide_eq_false in E. simpl. rewrite (IH Hnd' r). split.
    + intros [->|[Hr Hk]]; tauto.
    + intros [[->|Hr] Hk]; tauto.
Qed.

Lemma find_key_none {A} `{EqDecision A} (f : User -> A) (k : A) (st : Store) :
  (forall r, In r st -> f r <> k) ->
  List.find (fun r => bool_decide (f r = k)) st = None.
Proof.
  intros H. apply find_none_iff. intros r Hr.
  apply bool_decide_eq_false_2. now apply H.
Qed.

(** X6.  DELETE removes the user and only the user.  On a table with
    distinct keys, deleting a stored user (by id in the first revision,
    by oauthId in the second) is answered with 200; afterwards the rows
    of the table are the old rows without that user, the lookup by the
    same key answers 404, and a second DELETE answers 404 and changes
    nothing. *)
Theorem delete_removes_exactly_the_user (st : Store) (u : User) :
  (forall i,
     List.NoDup (map id st) -> i <> "" ->
     findUnique (WhereId i) st = Some u ->
     exists st',
       RoutesById.deleteUser i st
       = (sendDeleted DeletedNull "User deleted successfully", st')
       /\ (forall r, In r st' <-> In r st /\ r <> u)
       /\ RoutesById.getUser i st' = (sendError 404 "User not found", st')
       /\ RoutesById.deleteUser i st'
          = (sendDeleteError 404 "User not found", st'))
  /\
  (forall o,
     List.NoDup (map oauthId st) -> o <> "" ->
     findUnique (WhereOauthId o) st = Some u ->
     exists st',
       RoutesByOauthId.deleteUser o st
       = (sendDeleted (DeletedKeys (id u) o) "User deleted successfully", st')
       /\ (forall r, In r st' <-> In r st /\ r <> u)
       /\ RoutesByOauthId.getUser o st' = (sendError 404 "User not found", st')
       /\ RoutesByOauthId.deleteUser o st'
          = (sendDeleteError 404 "User not found", st')).
Proof.
  split.
  - intros i Hnd Hi Hfind.
    pose proof (removeFirst_key id i st Hnd) as Hrows.
    assert (Hgone : findUnique (WhereId i)
                      (removeFirst (matches (WhereId i)) st) = None).
    { apply (find_key_none id i). intros r Hr. now apply Hrows in Hr. }
    assert (Hiff : forall r,
               In r (removeFirst (matches (WhereId i)) st)
               <-> In r st /\ r <> u).
    { intros r. change (matches (WhereId i))
        with (fun r0 : User => bool_decide (id r0 = i)).
      rewrite (Hrows r). pose proof (findUnique_id _ _ _ Hfind) as Hu.
      split; intros [Hr Hne]; (split; [exact Hr|]).
      - intros ->. contradiction.
      - intros E. apply Hne.
        apply (NoDup_key_inj id st r u Hnd Hr); [|congruence].
        eapply findUnique_In; eauto. }
    exists (removeFirst (matches (WhereId i)) st).
    unfold RoutesById.deleteUser, RoutesById.getUser, delete.
    rewrite (truthy_string_true i Hi), Hfind, Hgone. cbn [negb].
    split; [reflexivity|]. split; [exact Hiff|]. split; reflexivity.
  - intros o Hnd Ho Hfind.
    pose proof (removeFirst_key oauthId o st Hnd) as Hrows.
    assert (Hou : oauthId u = o).
    { apply findUnique_matches in Hfind. now apply bool_decide_eq_true in Hfind. }
    assert (Hgone : findUnique (WhereOauthId o)
                      (removeFirst (matches (WhereOauthId o)) st) = None).
    { apply (find_key_none oauthId o). intros r Hr. now apply Hrows in Hr. }
    assert (Hinj : forall r, In r st -> oauthId r = oauthId u -> r = u).
    { intros r Hr E. apply (NoDup_key_inj oauthId st r u Hnd Hr); trivial.
      eapply findUnique_In; eauto. }
    assert (Hiff : forall r,
               In r (removeFirst (matches (WhereOauthId o)) st)
               <-> In r st /\ r <> u).
    { intros r. change (matches (WhereOauthId o))
        with (fun r0 : User => bool_decide (oauthId r0 = o)).
      rewrite (Hrows r).
      split; intros [Hr Hne]; (split; [exact Hr|]).
      - intros ->. contradiction.
      - intros E. apply Hne. apply Hinj; [exact Hr|congruence]. }
    exists (removeFirst (matches (WhereOauthId o)) st).
    unfold RoutesByOauthId.deleteUser, RoutesByOauthId.getUser, delete.
    rewrite (truthy_string_true o Ho), Hfind, Hgone. cbn [negb].
    split; [reflexivity|]. split; [exact Hiff|]. split; reflexivity.
Qed.

Lemma delete_removes_exactly_the_user_witness :
  exists st',
    RoutesById.deleteUser "u2" Sample.table
    = (sendDeleted DeletedNull "User deleted successfully", st')
    /\ st' = [Sample.alice; Sample.carol; Sample.dave]
    /\ RoutesById.getUser "u2" st' = (sendError 404 "User not found", st').
Proof.
  destruct (delete_removes_exactly_the_user Sample.table Sample.bob)
    as [Hid _].
  destruct (Hid "u2") as (st' & Hrun & _ & Hget & _).
  - repeat constructor; simpl; intuition discriminate.
  - discriminate.
  - reflexivity.
  - exists st'. split; [exact Hrun|]. split; [|exact Hget].
    vm_compute in Hrun. now inversion Hrun.
Defined.

(** ** The subscription endpoint *)

(** X7.  PATCH /api/v1/users/:id/subscription for a stored user, with a
    valid plan P and a valid status S.  The end date is
    now + durationMonths * 30 days; durationMonths is 1 when the body has
    none, and is not checked.  When the start date now and the end date
    are dates that the column holds, the answer is 200: the row has plan
    P, status S, these two dates, both used-counters 0 and both
    left-counters at the ceilings of P, its identity fields are kept,
    and the lookup finds it; zero or a negative durationMonths puts the
    end date at or before the start date.  When the end date lies after
    the year 9999 (durationMonths = 120000, say), the write is refused,
    the answer is 500 and the table is unchanged. *)
Theorem subscription_override (now : Z) (st : Store) (i : string) (u : User)
    (P : PlanType) (S : SubscriptionStatus) (duration : option Z) :
  i <> "" -> findUnique (WhereId i) st = Some u ->
  let months := default 1 duration in
  let endDate := now + months * 2592000000 in
  let u' := mkUser (id u) (email u) (oauthId u) (username u)
              (Some now) (Some endDate) S P 0 0
              (messages (RoutesById.PLAN_LIMITS P))
              (documents (RoutesById.PLAN_LIMITS P)) in
  let r := RoutesById.patchSubscription now i
             (RoutesById.mkSubscriptionBody (Some (planTypeName P))
                (Some (subscriptionStatusName S)) duration) st in
  (fitsDateTime now = true -> fitsDateTime endDate = true ->
   fst r = mkResponse 200 "success" "Subscription updated successfully"
             (Some (DataUser u'))
   /\ snd r = replaceFirst (matches (WhereId i)) u' st
   /\ findUnique (WhereId i) (snd r) = Some u'
   /\ (months <= 0 -> endDate <= now))
  /\ (253402300799999 < endDate ->
      fst r = mkResponse 500 "error" "Internal server error" None
      /\ snd r = st).
Proof.
  intros Hi Hfind months endDate u' r.
  set (data := {| u_email := None; u_oauthId := None; u_username := None;
                  u_subscriptioStartDate := Some (Some now);
                  u_subscriptionEndDate := Some (Some endDate);
                  u_subscriptionStatus := Some S; u_planType := Some P;
                  u_messagesUsed := Some 0; u_documentsUsed := Some 0;
                  u_messageLeft := Some (messages (RoutesById.PLAN_LIMITS P));
                  u_documentLeft :=
                    Some (documents (RoutesById.PLAN_LIMITS P)) |}).
  assert (Hrun : r = match update (WhereId i) data st with
                     | Ok (updatedUser, st') =>
                         (sendSuccess (DataUser updatedUser)
                            (Some "Subscription updated successfully"), st')
                     | Throw _ => (sendError 500 "Internal server error", st)
                     end).
  { subst r. unfold RoutesById.patchSubscription.
    cbn [RoutesById.sb_planType RoutesById.sb_subscriptionStatus
         RoutesById.sb_durationMonths].
    rewrite (truthy_string_true i Hi).
    change (default "" (Some ?x)) with x. cbn [truthy_opt_string].
    rewrite planTypeName_truthy, isValidPlanType_name, parsePlanType_name.
    assert (HS : truthy_string (subscriptionStatusName S) = true
                 /\ isValidSubscriptionStatus (subscriptionStatusName S) = true
                 /\ parseSubscriptionStatus (subscriptionStatusName S) = Some S)
      by now destruct S.
    destruct HS as (-> & -> & ->). cbn [negb orb]. rewrite Hfind.
    unfold JsDate.getTime. fold months.
    replace (months * 30 * 24 * 60 * 60 * 1000) with (months * 2592000000)
      by lia.
    reflexivity. }
  assert (Hv : validData data = fitsDateTime now && fitsDateTime endDate).
  { unfold validData, data.
    cbn [u_subscriptioStartDate u_subscriptionEndDate u_messagesUsed
         u_documentsUsed u_messageLeft u_documentLeft].
    change (default ?x (Some ?y)) with y. cbn [fitsOptDateTime fitsOptInt].
    destruct P; cbn; now rewrite !andb_true_r. }
  rewrite Hrun. split.
  - intros Hnow Hend.
    rewrite (update_plain (WhereId i) data u st Hfind); trivial;
      [|now rewrite Hv, Hnow, Hend].
    change (applyUpdate data u) with u'. cbn [fst snd].
    split; [reflexivity|]. split; [reflexivity|]. split; [|intros; nia].
    apply find_replaceFirst with (u := u); [exact Hfind|].
    apply (findUnique_matches _ _ _ Hfind).
  - intros Hfar. rewrite (update_refused (WhereId i) data st).
    + split; reflexivity.
    + rewrite Hv. apply andb_false_intro2.
      apply not_true_iff_false. intros H. apply fitsDateTime_iff in H. lia.
Qed.

Lemma subscription_override_witness :
  (fst (RoutesById.patchSubscription Sample.jan31 "u1"
          (RoutesById.mkSubscriptionBody (Some "PRO") (Some "TRIALING") None)
          Sample.table)
   = mkResponse 200 "success" "Subscription updated successfully"
       (Some (DataUser
                (mkUser "u1" "a@b.com" "x1" (Some "a") (Some Sample.jan31)
                   (Some (Sample.jan31 + 2592000000)) TRIALING PRO 0 0
                   (-1) (-1)))))
  /\ fst (RoutesById.patchSubscription Sample.jan31 "u1"
            (RoutesById.mkSubscriptionBody (Some "PRO") (Some "TRIALING")
               (Some 120000))
            Sample.table)
     = mkResponse 500 "error" "Internal server error" None.
Proof.
  split.
  - destruct (subscription_override Sample.jan31 Sample.table "u1"
                Sample.alice PRO TRIALING None ltac:(discriminate)
                ltac:(reflexivity))
      as [Hok _].
    exact (proj1 (Hok ltac:(reflexivity) ltac:(reflexivity))).
  - destruct (subscription_override Sample.jan31 Sample.table "u1"
                Sample.alice PRO TRIALING (Some 120000) ltac:(discriminate)
                ltac:(reflexivity))
      as [_ Hfar].
    exact (proj1 (Hfar ltac:(vm_compute; reflexivity))).
Defined.

(** ** More on usage *)

(** X8.  With the sentinel -1 in the left-counter the usage endpoint
    never refuses for want of quota: for every amount a >= 1 the answer
    is not 403.  When the used-counter plus a fits the 32-bit column the
    answer is 200, the used-counter grows by a, the left-counter stays
    -1 and the lookup finds that row; when it exceeds 2147483647 the
    write is refused, the answer is 500 and the table is unchanged. *)
Theorem usage_consume_unlimited (st : Store) (i : string) (u : User)
    (amount : option Z) :
  let a := default 1 amount in
  i <> "" -> findUnique (WhereId i) st = Some u -> 1 <= a ->
  (messageLeft u = -1 ->
   let r := RoutesById.patchUsage i
              (RoutesById.mkUsageBody (Some "message") amount) st in
   let u' := mkUser (id u) (email u) (oauthId u) (username u)
               (subscriptioStartDate u) (subscriptionEndDate u)
               (subscriptionStatus u) (planType u)
               (messagesUsed u + a) (documentsUsed u)
               (-1) (documentLeft u) in
   statusCode (fst r) <> 403
   /\ (-2147483648 <= messagesUsed u + a <= 2147483647 ->
       fst r = mkResponse 200 "success" "message usage updated successfully"
                 (Some (DataUser u'))
       /\ snd r = replaceFirst (matches (WhereId i)) u' st
       /\ findUnique (WhereId i) (snd r) = Some u')
   /\ (2147483647 < messagesUsed u + a ->
       fst r = mkResponse 500 "error" "Internal server error" None
       /\ snd r = st))
  /\
  (documentLeft u = -1 ->
   let r := RoutesById.patchUsage i
              (RoutesById.mkUsageBody (Some "document") amount) st in
   let u' := mkUser (id u) (email u) (oauthId u) (username u)
               (subscriptioStartDate u) (subscriptionEndDate u)
               (subscriptionStatus u) (planType u)
               (messagesUsed u) (documentsUsed u + a)
               (messageLeft u) (-1) in
   statusCode (fst r) <> 403
   /\ (-2147483648 <= documentsUsed u + a <= 2147483647 ->
       fst r = mkResponse 200 "success" "document usage updated successfully"
                 (Some (DataUser u'))
       /\ snd r = replaceFirst (matches (WhereId i)) u' st
       /\ findUnique (WhereId i) (snd r) = Some u')
   /\ (2147483647 < documentsUsed u + a ->
       fst r = mkResponse 500 "error" "Internal server error" None
       /\ snd r = st)).
Proof.
  intros a Hi Hfind Ha.
  assert (Hid : matches (WhereId i) u = true)
    by (eapply findUnique_matches; eauto).
  assert (Hv : forall n,
             validData (RoutesById.usageData (Some n) None None None)
             = fitsInt n
                         /\ validData
                              (RoutesById.usageData None (Some n) None None)
                            = fitsInt n).
  { intros n. unfold validData, RoutesById.usageData. cbn.
    now rewrite !andb_true_r. }
  split; intros Hinf r u'; subst r.
  - rewrite (patchUsage_run st i u "message" amount Hi Hfind Ha
               (or_introl eq_refl)).
    fold a. change (bool_decide (Some "message" = Some "message")) with true.
    cbn iota. rewrite (proj2 (Z.eqb_eq _ _) Hinf). cbn [negb andb].
    rewrite (proj1 (Hv _)).
    assert (Hu' : applyUpdate
              (RoutesById.usageData (Some (messagesUsed u + a)) None None None)
              u = u').
    { subst u'. unfold applyUpdate, RoutesById.usageData. cbn.
      now rewrite Hinf. }
    rewrite Hu'.
    destruct (fitsInt (messagesUsed u + a)) eqn:Hsum; cbn [fst snd statusCode].
    + split; [discriminate|]. split; [|apply fitsInt_iff in Hsum; lia].
      intros _. split; [reflexivity|]. split; [reflexivity|].
      apply find_replaceFirst with (u := u); [exact Hfind|exact Hid].
    + split; [discriminate|]. split; [|now split].
      intros H. apply fitsInt_iff in H. congruence.
  - rewrite (patchUsage_run st i u "document" amount Hi Hfind Ha
               (or_intror eq_refl)).
    fold a. change (bool_decide (Some "document" = Some "message")) with false.
    cbn iota. rewrite (proj2 (Z.eqb_eq _ _) Hinf). cbn [negb andb].
    rewrite (proj2 (Hv _)).
    assert (Hu' : applyUpdate
              (RoutesById.usageData None (Some (documentsUsed u + a)) None None)
              u = u').
    { subst u'. unfold applyUpdate, RoutesById.usageData. cbn.
      now rewrite Hinf. }
    rewrite Hu'.
    destruct (fitsInt (documentsUsed u + a)) eqn:Hsum;
      cbn [fst snd statusCode].
    + split; [discriminate|]. split; [|apply fitsInt_iff in Hsum; lia].
      intros _. split; [reflexivity|]. split; [reflexivity|].
      apply find_replaceFirst with (u := u); [exact Hfind|exact Hid].
    + split; [discriminate|]. split; [|now split].
      intros H. apply fitsInt_iff in H. congruence.
Qed.

Lemma usage_consume_unlimited_witness :
  fst (RoutesById.patchUsage "u4"
         (RoutesById.mkUsageBody (Some "message") (Some 1000000))
         Sample.table)
  = mkResponse 200 "success" "message usage updated successfully"
      (Some (DataUser (mkUser "u4" "dave@example.com" "x4" (Some "dave")
                         (Some Sample.jan31)
                         (Some (Sample.jan31 + 30 * JsDate.msPerDay))
                         ACTIVE PRO 1000007 3 (-1) (-1))))
  /\ fst (RoutesById.patchUsage "u4"
            (RoutesById.mkUsageBody (Some "message") (Some 2147483648))
            Sample.table)
     = mkResponse 500 "error" "Internal server error" None.
Proof.
  split.
  - destruct (usage_consume_unlimited Sample.table "u4" Sample.dave
                (Some 1000000) ltac:(discriminate) ltac:(reflexivity)
                ltac:(simpl; lia)) as [Hm _].
    destruct (Hm ltac:(reflexivity)) as (_ & Hok & _).
    exact (proj1 (Hok ltac:(simpl; lia))).
  - destruct (usage_consume_unlimited Sample.table "u4" Sample.dave
                (Some 2147483648) ltac:(discriminate) ltac:(reflexivity)
                ltac:(simpl; lia)) as [Hm _].
    destruct (Hm ltac:(reflexivity)) as (_ & _ & Hover).
    exact (proj1 (Hover ltac:(simpl; lia))).
Defined.

(** X9.  What the stats endpoint shows around a consumption.  After a
    usage request for a messages on a finite left-counter L >= a, with a
    used-counter that still fits its column, the request is answered
    with 200 and GET stats reports used grown by a, remaining L - a and
    the same total as before (used + left is kept); the document
    figures are untouched. *)
Theorem stats_after_consumption (now : Z) (st : Store) (i : string) (u : User)
    (amount : option Z) :
  let a := default 1 amount in
  let r := RoutesById.patchUsage i
             (RoutesById.mkUsageBody (Some "message") amount) st in
  i <> "" -> findUnique (WhereId i) st = Some u -> fitsColumns u = true ->
  1 <= a -> messageLeft u <> -1 -> a <= messageLeft u ->
  messagesUsed u + a <= 2147483647 ->
  exists s s',
    statusCode (fst r) = 200
    /\ json_data (fst (RoutesById.getStats now i st)) = Some (DataStats s)
    /\ json_data (fst (RoutesById.getStats now i (snd r)))
       = Some (DataStats s')
    /\ used (usage_messages s) = messagesUsed u
    /\ used (usage_messages s') = messagesUsed u + a
    /\ remaining (usage_messages s) = finite (messageLeft u)
    /\ remaining (usage_messages s') = finite (messageLeft u - a)
    /\ total (usage_messages s) = finite (messagesUsed u + messageLeft u)
    /\ total (usage_messages s') = total (usage_messages s)
    /\ usage_documents s' = usage_documents s.
Proof.
  intros a r Hi Hfind Hfits Ha Hfin Hle Hsum. subst r.
  destruct (fitsColumns_inv u Hfits) as (_ & _ & Hmu & _ & Hml & _).
  apply fitsInt_iff in Hmu, Hml.
  assert (Hlt : (messageLeft u <? a) = false) by (apply Z.ltb_ge; lia).
  assert (Hfin' : (messageLeft u =? -1) = false) by now apply Z.eqb_neq.
  rewrite (patchUsage_run st i u "message" amount Hi Hfind Ha
             (or_introl eq_refl)).
  fold a. change (bool_decide (Some "message" = Some "message")) with true.
  cbn iota. rewrite Hfin', Hlt. cbn [negb andb].
  assert (Hv : validData
                 (RoutesById.usageData (Some (messagesUsed u + a)) None
                    (Some (messageLeft u - a)) None) = true).
  { unfold validData, RoutesById.usageData. cbn.
    rewrite (proj2 (fitsInt_iff (messagesUsed u + a))) by lia.
    now rewrite (proj2 (fitsInt_iff (messageLeft u - a))) by lia. }
  rewrite Hv. cbn [fst snd statusCode].
  unfold RoutesById.getStats. rewrite (truthy_string_true i Hi). cbn [negb].
  rewrite Hfind.
  match goal with
  | |- context [findUnique (WhereId i) (replaceFirst ?p ?x st)] =>
      replace (findUnique (WhereId i) (replaceFirst p x st)) with (Some x)
        by (symmetry; apply (find_replaceFirst p u x st Hfind);
            exact (findUnique_matches _ _ _ Hfind))
  end.
  do 2 eexists. split; [reflexivity|].
  split; [reflexivity|]. split; [reflexivity|].
  assert (Hne : (messageLeft u - a =? -1) = false) by (apply Z.eqb_neq; lia).
  cbn. rewrite Hfin', Hne.
  do 5 (split; [reflexivity|]).
  split; [f_equal; lia|reflexivity].
Qed.

Lemma stats_after_consumption_witness :
  exists s',
    json_data
      (fst (RoutesById.getStats Sample.jan31 "u2"
              (snd (RoutesById.patchUsage "u2"
                      (RoutesById.mkUsageBody (Some "message") (Some 5))
                      Sample.table))))
    = Some (DataStats s')
    /\ used (usage_messages s') = 10
    /\ remaining (usage_messages s') = finite 90
    /\ total (usage_messages s') = finite 100.
Proof.
  destruct (stats_after_consumption Sample.jan31 Sample.table "u2" Sample.bob
              (Some 5) ltac:(discriminate) ltac:(reflexivity)
              ltac:(reflexivity)
              ltac:(simpl; lia) ltac:(simpl; lia) ltac:(simpl; lia)
              ltac:(simpl; lia))
    as (s & s' & _ & _ & Hs' & _ & Hused & _ & Hrem & Htot & Hsame & _).
  exists s'. split; [exact Hs'|].
  split; [exact Hused|]. split; [exact Hrem|].
  rewrite Hsame, Htot. reflexivity.
Defined.

Lemma fitsInt_floor (n : Z) :
  fitsInt n = true -> fitsInt (Z.max 0 (n - 1)) = true.
Proof. rewrite !fitsInt_iff. lia. Qed.

(** The body [{ incrementMessage: true }] on a stored user. *)
Lemma incrementMessage_run (LocalTZA : JsDate.TimeZone) (now : Z) (st : Store)
    (o : string) (u : User) :
  o <> "" -> findUnique (WhereOauthId o) st = Some u ->
  fitsInt (messageLeft u) = true ->
  let u' := mkUser (id u) (email u) (oauthId u) (username u)
              (subscriptioStartDate u) (subscriptionEndDate u)
              (subscriptionStatus u) (planType u)
              (messagesUsed u + 1) (documentsUsed u)
              (if messageLeft u =? -1 then -1
               else Z.max 0 (messageLeft u - 1))
              (documentLeft u) in
  RoutesByOauthId.patchUser LocalTZA now o
    (mkBody None None None None None None None None None None None
       (Some true) None) st
  = if fitsInt (messagesUsed u + 1) then
      (mkResponse 200 "success" "User updated successfully"
         (Some (DataUser u')),
       replaceFirst (matches (WhereOauthId o)) u' st)
    else (mkResponse 500 "error" "Internal server error" None, st).
Proof.
  intros Ho Hfind Hleft u'.
  unfold RoutesByOauthId.patchUser. rewrite (truthy_string_true o Ho), Hfind.
  cbn [negb andb orb truthy_opt_string b_planType b_email
       b_subscriptionStatus RoutesByOauthId.rest b_incrementMessage
       RoutesByOauthId.isTrue].
  unfold RoutesByOauthId.usageUpdate.
  cbn [b_incrementMessage b_incrementDocument b_messagesUsed
       b_documentsUsed RoutesByOauthId.isTrue].
  destruct (messageLeft u =? -1) eqn:E; cbn [negb].
  - unfold asUserUpdate, set_messagesUsed, RoutesByOauthId.rest. cbn.
    match goal with |- context [update _ ?d st] =>
      assert (Hv : validData d = fitsInt (messagesUsed u + 1))
        by (unfold validData; cbn; now rewrite !andb_true_r);
      destruct (fitsInt (messagesUsed u + 1));
        [rewrite (update_plain _ d u st Hfind eq_refl eq_refl Hv)
        |now rewrite (update_refused _ d st Hv)]
    end.
    subst u'. unfold applyUpdate. cbn.
    now rewrite (proj1 (Z.eqb_eq _ _) E).
  - unfold asUserUpdate, set_messagesUsed, set_messageLeft,
      RoutesByOauthId.rest. cbn.
    match goal with |- context [update _ ?d st] =>
      assert (Hv : validData d = fitsInt (messagesUsed u + 1))
        by (unfold validData; cbn [u_subscriptioStartDate
              u_subscriptionEndDate u_messagesUsed u_documentsUsed
              u_messageLeft u_documentLeft fitsOptInt fitsOptDateTime
              default from_option];
            rewrite (fitsInt_floor _ Hleft); cbn;
            now rewrite !andb_true_r);
      destruct (fitsInt (messagesUsed u + 1));
        [rewrite (update_plain _ d u st Hfind eq_refl eq_refl Hv)
        |now rewrite (update_refused _ d st Hv)]
    end.
    subst u'. unfold applyUpdate. cbn. reflexivity.
Qed.

(** The body [{ incrementDocument: true }] on a stored user. *)
Lemma incrementDocument_run (LocalTZA : JsDate.TimeZone) (now : Z)
    (st : Store) (o : string) (u : User) :
  o <> "" -> findUnique (WhereOauthId o) st = Some u ->
  fitsInt (documentLeft u) = true ->
  let u' := mkUser (id u) (email u) (oauthId u) (username u)
              (subscriptioStartDate u) (subscriptionEndDate u)
              (subscriptionStatus u) (planType u)
              (messagesUsed u) (documentsUsed u + 1)
              (messageLeft u)
              (if documentLeft u =? -1 then -1
               else Z.max 0 (documentLeft u - 1)) in
  RoutesByOauthId.patchUser LocalTZA now o
    (mkBody None None None None None None None None None None None
       None (Some true)) st
  = if fitsInt (documentsUsed u + 1) then
      (mkResponse 200 "success" "User updated successfully"
         (Some (DataUser u')),
       replaceFirst (matches (WhereOauthId o)) u' st)
    else (mkResponse 500 "error" "Internal server error" None, st).
Proof.
  intros Ho Hfind Hleft u'.
  unfold RoutesByOauthId.patchUser. rewrite (truthy_string_true o Ho), Hfind.
  cbn [negb andb orb truthy_opt_string b_planType b_email
       b_subscriptionStatus RoutesByOauthId.rest b_incrementMessage
       b_incrementDocument RoutesByOauthId.isTrue].
  unfold RoutesByOauthId.usageUpdate.
  cbn [b_incrementMessage b_incrementDocument b_messagesUsed
       b_documentsUsed RoutesByOauthId.isTrue].
  destruct (documentLeft u =? -1) eqn:E; cbn [negb].
  - unfold asUserUpdate, set_documentsUsed, RoutesByOauthId.rest. cbn.
    match goal with |- context [update _ ?d st] =>
      assert (Hv : validData d = fitsInt (documentsUsed u + 1))
        by (unfold validData; cbn; now rewrite !andb_true_r);
      destruct (fitsInt (documentsUsed u + 1));
        [rewrite (update_plain _ d u st Hfind eq_refl eq_refl Hv)
        |now rewrite (update_refused _ d st Hv)]
    end.
    subst u'. unfold applyUpdate. cbn.
    now rewrite (proj1 (Z.eqb_eq _ _) E).
  - unfold asUserUpdate, set_documentsUsed, set_documentLeft,
      RoutesByOauthId.rest. cbn.
    match goal with |- context [update _ ?d st] =>
      assert (Hv : validData d = fitsInt (documentsUsed u + 1))
        by (unfold validData; cbn [u_subscriptioStartDate
              u_subscriptionEndDate u_messagesUsed u_documentsUsed
              u_messageLeft u_documentLeft fitsOptInt fitsOptDateTime
              default from_option];
            rewrite (fitsInt_floor _ Hleft); cbn;
            now rewrite !andb_true_r);
      destruct (fitsInt (documentsUsed u + 1));
        [rewrite (update_plain _ d u st Hfind eq_refl eq_refl Hv)
        |now rewrite (update_refused _ d st Hv)]
    end.
    subst u'. unfold applyUpdate. cbn. reflexivity.
Qed.

(** X10.  The update endpoint keyed by oauthId does not enforce the
    quota.  The body { incrementMessage: true } for a stored user is
    never answered with 403.  As long as messagesUsed + 1 fits the
    32-bit column the answer is 200: messagesUsed grows by one,
    messageLeft becomes max(0, messageLeft - 1) or stays -1, and the
    lookup finds that row; in particular a user with messageLeft = 0 is
    still served, the counter stays 0 and messagesUsed keeps growing.
    Only at messagesUsed = 2147483647 is the write refused, with 500
    and the table unchanged.  The same holds for
    { incrementDocument: true }. *)
Theorem increment_ignores_quota (LocalTZA : JsDate.TimeZone) (now : Z)
    (st : Store) (o : string) (u : User) :
  o <> "" -> findUnique (WhereOauthId o) st = Some u ->
  fitsColumns u = true ->
  (let r := RoutesByOauthId.patchUser LocalTZA now o
              (mkBody None None None None None None None None None None None
                 (Some true) None) st in
   let u' := mkUser (id u) (email u) (oauthId u) (username u)
               (subscriptioStartDate u) (subscriptionEndDate u)
               (subscriptionStatus u) (planType u)
               (messagesUsed u + 1) (documentsUsed u)
               (if messageLeft u =? -1 then -1
                else Z.max 0 (messageLeft u - 1))
               (documentLeft u) in
   statusCode (fst r) <> 403
   /\ (messagesUsed u < 2147483647 ->
       fst r = mkResponse 200 "success" "User updated successfully"
                 (Some (DataUser u'))
       /\ snd r = replaceFirst (matches (WhereOauthId o)) u' st
       /\ findUnique (WhereOauthId o) (snd r) = Some u'
       /\ (messageLeft u = 0 -> messageLeft u' = 0))
   /\ (messagesUsed u = 2147483647 ->
       fst r = mkResponse 500 "error" "Internal server error" None
       /\ snd r = st))
  /\
  (let r := RoutesByOauthId.patchUser LocalTZA now o
              (mkBody None None None None None None None None None None None
                 None (Some true)) st in
   let u' := mkUser (id u) (email u) (oauthId u) (username u)
               (subscriptioStartDate u) (subscriptionEndDate u)
               (subscriptionStatus u) (planType u)
               (messagesUsed u) (documentsUsed u + 1)
               (messageLeft u)
               (if documentLeft u =? -1 then -1
                else Z.max 0 (documentLeft u - 1)) in
   statusCode (fst r) <> 403
   /\ (documentsUsed u < 2147483647 ->
       fst r = mkResponse 200 "success" "User updated successfully"
                 (Some (DataUser u'))
       /\ snd r = replaceFirst (matches (WhereOauthId o)) u' st
       /\ findUnique (WhereOauthId o) (snd r) = Some u'
       /\ (documentLeft u = 0 -> documentLeft u' = 0))
   /\ (documentsUsed u = 2147483647 ->
       fst r = mkResponse 500 "error" "Internal server error" None
       /\ snd r = st)).
Proof.
  intros Ho Hfind Hfits.
  destruct (fitsColumns_inv u Hfits) as (_ & _ & Hmu & Hdu & Hml & Hdl).
  assert (Hp : matches (WhereOauthId o) u = true)
    by (eapply findUnique_matches; eauto).
  split; intros r u'; subst r.
  - rewrite (incrementMessage_run LocalTZA now st o u Ho Hfind Hml).
    fold u'. apply fitsInt_iff in Hmu.
    destruct (fitsInt (messagesUsed u + 1)) eqn:Hsum;
      cbn [fst snd statusCode].
    + apply fitsInt_iff in Hsum.
      split; [discriminate|]. split; [|intros; lia].
      intros _. split; [reflexivity|]. split; [reflexivity|].
      split; [|cbn; now intros ->].
      apply find_replaceFirst with (u := u); [exact Hfind|exact Hp].
    + split; [discriminate|]. split; [|now split].
      intros Hlt. rewrite (proj2 (fitsInt_iff _)) in Hsum by lia.
      discriminate.
  - rewrite (incrementDocument_run LocalTZA now st o u Ho Hfind Hdl).
    fold u'. apply fitsInt_iff in Hdu.
    destruct (fitsInt (documentsUsed u + 1)) eqn:Hsum;
      cbn [fst snd statusCode].
    + apply fitsInt_iff in Hsum.
      split; [discriminate|]. split; [|intros; lia].
      intros _. split; [reflexivity|]. split; [reflexivity|].
      split; [|cbn; now intros ->].
      apply find_replaceFirst with (u := u); [exact Hfind|exact Hp].
    + split; [discriminate|]. split; [|now split].
      intros Hlt. rewrite (proj2 (fitsInt_iff _)) in Hsum by lia.
      discriminate.
Qed.

Lemma increment_ignores_quota_witness :
  fst (RoutesByOauthId.patchUser JsDate.utc Sample.jan31 "x1"
         (mkBody None None None None None None None None None None None
            None (Some true)) Sample.table)
  = mkResponse 200 "success" "User updated successfully"
      (Some (DataUser (mkUser "u1" "a@b.com" "x1" (Some "a") None None UNPAID
                         BASIC 0 1 20 0)))
  /\ fst (RoutesById.patchUsage "u1"
            (RoutesById.mkUsageBody (Some "document") None) Sample.table)
     = sendError 403 "Insufficient document quota remaining"
  /\ fst (RoutesByOauthId.patchUser JsDate.utc Sample.jan31 "x6"
            (mkBody None None None None None None None None None None None
               (Some true) None) [Sample.heavy])
     = mkResponse 500 "error" "Internal server error" None.
Proof.
  split; [|split; [reflexivity|]].
  - destruct (increment_ignores_quota JsDate.utc Sample.jan31 Sample.table
                "x1" Sample.alice ltac:(discriminate) ltac:(reflexivity)
                ltac:(reflexivity))
      as [_ (_ & Hdoc & _)].
    exact (proj1 (Hdoc ltac:(simpl; lia))).
  - destruct (increment_ignores_quota JsDate.utc Sample.jan31 [Sample.heavy]
                "x6" Sample.heavy ltac:(discriminate) ltac:(reflexivity)
                ltac:(reflexivity))
      as [(_ & _ & Hfull) _].
    exact (proj1 (Hfull ltac:(reflexivity))).
Defined.

(** X11.  In the update endpoint keyed by oauthId a plan in the body
    switches the usage fields off: when planType is a non-empty string,
    the answer and the table are the same as for the body without
    incrementMessage, incrementDocument, messagesUsed and documentsUsed
    (also when the plan is the stored one and nothing is changed). *)
Theorem plan_in_body_disables_usage_fields (LocalTZA : JsDate.TimeZone)
    (now : Z) (st : Store) (o : string) (body : UpdateBody) :
  truthy_opt_string (b_planType body) = true ->
  RoutesByOauthId.patchUser LocalTZA now o body st
  = RoutesByOauthId.patchUser LocalTZA now o
      (mkBody (b_email body) (b_oauthId body) (b_username body)
         (b_subscriptioStartDate body) (b_subscriptionEndDate body)
         (b_subscriptionStatus body) (b_planType body) None None
         (b_messageLeft body) (b_documentLeft body) None None) st.
Proof.
  intros Hplan. unfold RoutesByOauthId.patchUser.
  cbn [b_planType b_email b_subscriptionStatus RoutesByOauthId.rest
       b_oauthId b_username b_subscriptioStartDate b_subscriptionEndDate
       b_messageLeft b_documentLeft].
  rewrite Hplan. reflexivity.
Qed.

Lemma plan_in_body_disables_usage_fields_witness :
  RoutesByOauthId.patchUser JsDate.utc Sample.jan31 "x2"
    (mkBody None None None None None None (Some "CORE") (Some 50) None
       None None (Some true) None) Sample.table
  = (sendError 400 "No valid updates provided", Sample.table).
Proof.
  rewrite (plan_in_body_disables_usage_fields JsDate.utc Sample.jan31
             Sample.table "x2"
             (mkBody None None None None None None (Some "CORE") (Some 50)
                None None None (Some true) None) ltac:(reflexivity)).
  reflexivity.
Defined.

(** ** More on the scheduled jobs *)

Lemma applyUpdate_idem (d : UserUpdate) (u : User) :
  applyUpdate d (applyUpdate d u) = applyUpdate d u.
Proof.
  unfold applyUpdate. cbn.
  destruct d as [e o un sd ed ss pt mu du ml dl]. cbn.
  f_equal; match goal with |- default _ ?x = _ => now destruct x end.
Qed.

(** X12.  The second pass of the monthly job, and running the job twice.
    On a table with distinct primary keys, a user that is ACTIVE and not
    expired comes out with both used-counters 0 and both left-counters at
    the ceilings of the plan it has, everything else kept; a user that
    is neither expired nor ACTIVE (PAST_DUE, TRIALING, CANCELED, ...) is
    not touched, so it gets no monthly refresh.  A second run at the same
    time changes nothing more. *)
Theorem monthly_job_refreshes_active_only (now : Z) (st : Store) :
  List.NoDup (map id st) ->
  exists st',
    RoutesById.monthlyJob now st = (st', None)
    /\ (forall u,
          In u st -> subscriptionStatus u = ACTIVE ->
          (forall t, subscriptionEndDate u = Some t -> now <= t) ->
          findUnique (WhereId (id u)) st'
          = Some (mkUser (id u) (email u) (oauthId u) (username u)
                    (subscriptioStartDate u) (subscriptionEndDate u)
                    ACTIVE (planType u) 0 0
                    (messages (RoutesById.PLAN_LIMITS (planType u)))
                    (documents (RoutesById.PLAN_LIMITS (planType u)))))
    /\ (forall u,
          In u st -> subscriptionStatus u <> ACTIVE ->
          ~ (subscriptionStatus u <> CANCELED
             /\ exists t, subscriptionEndDate u = Some t /\ t < now) ->
          findUnique (WhereId (id u)) st' = Some u)
    /\ RoutesById.monthlyJob now st' = (st', None).
Proof.
  intros Hnd.
  set (F := fun r =>
              if RoutesById.isExpired now r
              then applyUpdate RoutesById.downgradeData r
              else if RoutesById.isActive r
                   then applyUpdate
                          (RoutesById.limitsData
                             (RoutesById.PLAN_LIMITS (planType r))) r
                   else r).
  assert (Hid : forall r, id (F r) = id r).
  { intros r. unfold F. destruct (RoutesById.isExpired now r); [reflexivity|].
    now destruct (RoutesById.isActive r). }
  exists (map F st). split; [now apply monthlyJob_rows|].
  split; [|split].
  - intros u Hin Hact Hend.
    rewrite (findUnique_map_id F st u Hid Hnd Hin). unfold F.
    assert (Hexp : RoutesById.isExpired now u = false).
    { apply not_true_is_false. rewrite isExpired_spec.
      intros (_ & t & Ht & Hlt). specialize (Hend t Ht). lia. }
    rewrite Hexp. unfold RoutesById.isActive.
    rewrite (bool_decide_eq_true_2 _ Hact).
    unfold applyUpdate. cbn. now rewrite Hact.
  - intros u Hin Hact Hnot.
    rewrite (findUnique_map_id F st u Hid Hnd Hin). unfold F.
    rewrite <- isExpired_spec in Hnot. apply not_true_is_false in Hnot.
    rewrite Hnot. unfold RoutesById.isActive.
    now rewrite (bool_decide_eq_false_2 _ Hact).
  - rewrite monthlyJob_rows.
    + fold F. rewrite List.map_map. f_equal. apply List.map_ext. intros r.
      destruct (RoutesById.isExpired now r) eqn:Hexp.
      * assert (E : F r = applyUpdate RoutesById.downgradeData r)
          by (unfold F; now rewrite Hexp).
        rewrite E. reflexivity.
      * destruct (RoutesById.isActive r) eqn:Hact.
        -- assert (E : F r = applyUpdate
                             (RoutesById.limitsData
                                (RoutesById.PLAN_LIMITS (planType r))) r)
             by (unfold F; now rewrite Hexp, Hact).
           rewrite E. unfold F.
           assert (Hexp' : RoutesById.isExpired now
                             (applyUpdate
                                (RoutesById.limitsData
                                   (RoutesById.PLAN_LIMITS (planType r))) r)
                           = false) by exact Hexp.
           assert (Hact' : RoutesById.isActive
                             (applyUpdate
                                (RoutesById.limitsData
                                   (RoutesById.PLAN_LIMITS (planType r))) r)
                           = true) by exact Hact.
           rewrite Hexp', Hact'.
           change (planType (applyUpdate _ r)) with (planType r).
           apply applyUpdate_idem.
        -- assert (E : F r = r) by (unfold F; now rewrite Hexp, Hact).
           now rewrite !E.
    + rewrite List.map_map. erewrite List.map_ext; [exact Hnd|exact Hid].
Qed.

Lemma monthly_job_refreshes_active_only_witness :
  findUnique (WhereId "u2")
    (fst (RoutesById.monthlyJob Sample.jan31 Sample.table))
  = Some (mkUser "u2" "bob@example.com" "x2" None
            (Some (Sample.jan31 - 28 * JsDate.msPerDay))
            (Some (Sample.jan31 + 2 * JsDate.msPerDay))
            ACTIVE CORE 0 0 100 10)
  /\ findUnique (WhereId "u1")
       (fst (RoutesById.monthlyJob Sample.jan31 Sample.table))
     = Some Sample.alice.
Proof.
  assert (Hnd : List.NoDup (map id Sample.table)).
  { repeat constructor; simpl; intuition discriminate. }
  destruct (monthly_job_refreshes_active_only Sample.jan31 Sample.table Hnd)
    as (st' & Hrun & Hactive & Hother & _).
  rewrite Hrun. cbn [fst]. split.
  - apply (Hactive Sample.bob); [simpl; tauto|reflexivity|].
    intros t Ht. inversion Ht. vm_compute. discriminate.
  - apply (Hother Sample.alice); [simpl; tauto|discriminate|].
    intros (_ & t & Ht & _). discriminate.
Defined.

(** X13.  Running the daily sweep twice at the same time is the same as
    running it once: the users it flagged are PAST_DUE and are not
    selected again. *)
Theorem daily_sweep_idempotent (now : Z) (st : Store) :
  List.NoDup (map id st) ->
  RoutesById.dailyJob now (fst (RoutesById.dailyJob now st))
  = RoutesById.dailyJob now st.
Proof.
  intros Hnd. rewrite (dailyJob_rows now st Hnd). cbn [fst].
  rewrite dailyJob_rows.
  - rewrite List.map_map. f_equal. apply List.map_ext. intros r.
    destruct (RoutesById.isSoonToExpire now r) eqn:Hsoon.
    + assert (Hno : RoutesById.isSoonToExpire now
                      (applyUpdate RoutesById.pastDueData r) = false).
      { unfold RoutesById.isSoonToExpire. cbn. apply andb_false_r. }
      now rewrite Hno.
    + now rewrite Hsoon.
  - rewrite List.map_map. erewrite List.map_ext; [exact Hnd|].
    intros r. now destruct (RoutesById.isSoonToExpire now r).
Qed.

Lemma daily_sweep_idempotent_witness :
  RoutesById.dailyJob Sample.jan31
    (fst (RoutesById.dailyJob Sample.jan31 Sample.table))
  = RoutesById.dailyJob Sample.jan31 Sample.table.
Proof.
  apply daily_sweep_idempotent.
  repeat constructor; simpl; intuition discriminate.
Defined.

Lemma forEach_keeps {A} (f : User -> A) (dataOf : User -> UserUpdate) :
  (forall x r, f (applyUpdate (dataOf x) r) = f r) ->
  forall users st,
    map f (fst (RoutesById.forEach users
                  (fun user => update (WhereId (id user)) (dataOf user)) st))
    = map f st.
Proof.
  intros Hf users. induction users as [|x rest IH]; intros st; [reflexivity|].
  cbn [RoutesById.forEach].
  destruct (update (WhereId (id x)) (dataOf x) st) as [[u' st']|e] eqn:Hup;
    [|reflexivity].
  rewrite IH.
  apply update_ok_inv in Hup as (_ & u & Hfind & -> & _ & ->).
  apply (replaceFirst_keeps f _ u _ st Hfind). apply Hf.
Qed.

(** X14.  The scheduled jobs neither add nor remove nor re-key a user:
    after a run of the monthly job or of the daily sweep, on any table
    and whether or not the run was cut short by an error, the table has
    the same ids, e-mail addresses, external identifiers and user names,
    row by row. *)
Theorem jobs_keep_identities (now : Z) (st : Store) :
  let monthly := fst (RoutesById.monthlyJob now st) in
  let daily := fst (RoutesById.dailyJob now st) in
  (map id monthly = map id st /\ map email monthly = map email st
   /\ map oauthId monthly = map oauthId st
   /\ map username monthly = map username st)
  /\ (map id daily = map id st /\ map email daily = map email st
      /\ map oauthId daily = map oauthId st
      /\ map username daily = map username st).
Proof.
  assert (Hmonthly : forall {A} (f : User -> A),
             (forall d r,
                u_email d = None -> u_oauthId d = None -> u_username d = None ->
                f (applyUpdate d r) = f r) ->
             map f (fst (RoutesById.monthlyJob now st)) = map f st).
  { intros A f Hf. unfold RoutesById.monthlyJob.
    pose proof (forEach_keeps f (fun _ => RoutesById.downgradeData)
                  (fun _ r => Hf RoutesById.downgradeData r
                                eq_refl eq_refl eq_refl)
                  (findMany (RoutesById.isExpired now) st) st) as H1.
    destruct (RoutesById.forEach (findMany (RoutesById.isExpired now) st) _ st)
      as [st1 [e|]]; cbn [fst] in *; [exact H1|].
    rewrite <- H1. unfold RoutesById.resetUserLimits.
    apply (forEach_keeps f
             (fun user => RoutesById.limitsData
                            (RoutesById.PLAN_LIMITS (planType user)))).
    intros x r. now apply Hf. }
  assert (Hdaily : forall {A} (f : User -> A),
             (forall d r,
                u_email d = None -> u_oauthId d = None -> u_username d = None ->
                f (applyUpdate d r) = f r) ->
             map f (fst (RoutesById.dailyJob now st)) = map f st).
  { intros A f Hf. unfold RoutesById.dailyJob.
    apply (forEach_keeps f (fun _ => RoutesById.pastDueData)).
    intros x r. now apply Hf. }
  assert (Hid : forall d r, u_email d = None -> u_oauthId d = None ->
                            u_username d = None -> id (applyUpdate d r) = id r)
    by reflexivity.
  assert (Hemail : forall d r, u_email d = None -> u_oauthId d = None ->
                               u_username d = None ->
                               email (applyUpdate d r) = email r)
    by (intros d r He _ _; cbn; now rewrite He).
  assert (Hoauth : forall d r, u_email d = None -> u_oauthId d = None ->
                               u_username d = None ->
                               oauthId (applyUpdate d r) = oauthId r)
    by (intros d r _ Ho _; cbn; now rewrite Ho).
  assert (Hname : forall d r, u_email d = None -> u_oauthId d = None ->
                              u_username d = None ->
                              username (applyUpdate d r) = username r)
    by (intros d r _ _ Hu; cbn; now rewrite Hu).
  cbv zeta. split; (split; [|split; [|split]]); auto.
Qed.

(** X15.  The warning flag of the daily sweep costs a paying user the
    monthly refresh.  Take a user that is ACTIVE with an end date t in
    [now1, now1 + 3 days].  If the monthly job runs at a time now2 <= t
    on the table as it is, the user's counters are refreshed.  If the
    daily sweep of now1 has run before, the user is PAST_DUE, and the
    monthly job of now2 leaves the row as the sweep left it: the used-
    and left-counters are not reset. *)
Theorem flagged_user_misses_refresh (now1 now2 : Z) (st : Store) (u : User)
    (t : Z) :
  List.NoDup (map id st) -> In u st ->
  subscriptionStatus u = ACTIVE -> subscriptionEndDate u = Some t ->
  now1 <= t <= now1 + 3 * 24 * 60 * 60 * 1000 -> now2 <= t ->
  findUnique (WhereId (id u)) (fst (RoutesById.monthlyJob now2 st))
  = Some (mkUser (id u) (email u) (oauthId u) (username u)
            (subscriptioStartDate u) (subscriptionEndDate u)
            ACTIVE (planType u) 0 0
            (messages (RoutesById.PLAN_LIMITS (planType u)))
            (documents (RoutesById.PLAN_LIMITS (planType u))))
  /\ findUnique (WhereId (id u))
       (fst (RoutesById.monthlyJob now2 (fst (RoutesById.dailyJob now1 st))))
     = Some (mkUser (id u) (email u) (oauthId u) (username u)
               (subscriptioStartDate u) (subscriptionEndDate u)
               PAST_DUE (planType u)
               (messagesUsed u) (documentsUsed u)
               (messageLeft u) (documentLeft u)).
Proof.
  intros Hnd Hin Hact Hend Hwin Hnow2.
  assert (Hexp : RoutesById.isExpired now2 u = false).
  { apply not_true_is_false. rewrite isExpired_spec.
    intros (_ & t' & Ht' & Hlt). rewrite Hend in Ht'. inversion Ht'. lia. }
  assert (Hsoon : RoutesById.isSoonToExpire now1 u = true).
  { apply isSoonToExpire_spec. split; [exact Hact|]. now exists t. }
  split.
  - rewrite (monthlyJob_rows now2 st Hnd). cbn [fst].
    rewrite findUnique_map_id; trivial.
    + rewrite Hexp. unfold RoutesById.isActive.
      rewrite (bool_decide_eq_true_2 _ Hact).
      unfold applyUpdate. cbn. now rewrite Hact.
    + intros r. destruct (RoutesById.isExpired now2 r); [reflexivity|].
      now destruct (RoutesById.isActive r).
  - rewrite (dailyJob_rows now1 st Hnd). cbn [fst].
    rewrite monthlyJob_rows.
    + cbn [fst]. rewrite List.map_map.
      rewrite (findUnique_map_id _ st u); trivial.
      * rewrite Hsoon.
        assert (Hexp' : RoutesById.isExpired now2
                          (applyUpdate RoutesById.pastDueData u) = false).
        { unfold RoutesById.isExpired in *. cbn.
          apply andb_false_iff in Hexp as [Hexp|Hexp]; [now rewrite Hexp|].
          rewrite Hact in Hexp. discriminate. }
        rewrite Hexp'. reflexivity.
      * intros r. destruct (RoutesById.isSoonToExpire now1 r).
        -- destruct (RoutesById.isExpired now2
                       (applyUpdate RoutesById.pastDueData r));
             [reflexivity|].
           now destruct (RoutesById.isActive
                           (applyUpdate RoutesById.pastDueData r)).
        -- destruct (RoutesById.isExpired now2 r); [reflexivity|].
           now destruct (RoutesById.isActive r).
    + rewrite List.map_map. erewrite List.map_ext; [exact Hnd|].
      intros r. now destruct (RoutesById.isSoonToExpire now1 r).
Qed.

Lemma flagged_user_misses_refresh_witness :
  findUnique (WhereId "u2")
    (fst (RoutesById.monthlyJob (Sample.jan31 + 1)
            (fst (RoutesById.dailyJob Sample.jan31 Sample.table))))
  = Some (mkUser "u2" "bob@example.com" "x2" None
            (Some (Sample.jan31 - 28 * JsDate.msPerDay))
            (Some (Sample.jan31 + 2 * JsDate.msPerDay))
            PAST_DUE CORE 5 1 95 9).
Proof.
  apply (flagged_user_misses_refresh Sample.jan31 (Sample.jan31 + 1)
           Sample.table Sample.bob (Sample.jan31 + 2 * JsDate.msPerDay)).
  - repeat constructor; simpl; intuition discriminate.
  - simpl. tauto.
  - reflexivity.
  - reflexivity.
  - vm_compute. split; discriminate.
  - vm_compute. discriminate.
Defined.

(** ** More on the webhook *)

(** What the handler does with a request that is verified as [event]. *)
Lemma handleUserWebhook_verified (lib : Library) (env : Env) (uuid : string)
    (req : Request) (event : WebhookEvent) (st : Store) :
  verifiedAs lib env req event ->
  handleUserWebhook lib env uuid req st
  = if JsString.startsWith "user." (type event) then
      match dispatch uuid event st with
      | Ok st' =>
          (json 200 "success" "User webhook processed successfully", st')
      | Throw _ => (json 500 "error" "Error processing webhook", st)
      end
    else (CallNext, st).
Proof.
  intros (s & w & Hsecret & Hs & Hid & Hts & Hsig & Hw & Hv).
  unfold handleUserWebhook. rewrite Hsecret, (truthy_opt_string_Some s Hs).
  rewrite Hid, Hts, Hsig. cbn [negb orb].
  change (default "" (Some s)) with s. now rewrite Hw, Hv.
Qed.

Lemma verifiedAs_signed (body : string) :
  verifiedAs SampleWebhook.lib SampleWebhook.env (SampleWebhook.signed body)
    (mkEvent body SampleWebhook.erin).
Proof.
  exists "whsec", "whsec". repeat split; discriminate || reflexivity.
Qed.

(** X16.  A verified user.updated event whose primary e-mail address
    resolves.  If a user with the event's external identifier is stored
    and no other user holds the new e-mail address, the handler answers
    200 and rewrites exactly the e-mail address and the user name of
    that user (the user name of the event, or the part of the address in
    front of the first @ when the event has none); plan, subscription
    and counters are kept.  If no such user is stored, or another user
    holds the address, the handler answers 500 and the table is
    unchanged. *)
Theorem webhook_user_updated (lib : Library) (env : Env) (uuid : string)
    (req : Request) (event : WebhookEvent) (primaryEmail : EmailAddress)
    (st : Store) :
  verifiedAs lib env req event -> type event = "user.updated" ->
  primaryEmailOf (data event) = Some primaryEmail ->
  (forall u,
     findUnique (WhereOauthId (data_id (data event))) st = Some u ->
     (forall r, In r st -> id r <> id u ->
                email r <> email_address primaryEmail) ->
     let u' := mkUser (id u) (email_address primaryEmail) (oauthId u)
                 (usernameOf (data event) primaryEmail)
                 (subscriptioStartDate u) (subscriptionEndDate u)
                 (subscriptionStatus u) (planType u)
                 (messagesUsed u) (documentsUsed u)
                 (messageLeft u) (documentLeft u) in
     handleUserWebhook lib env uuid req st
     = (json 200 "success" "User webhook processed successfully",
        replaceFirst (matches (WhereOauthId (data_id (data event)))) u' st))
  /\ (findUnique (WhereOauthId (data_id (data event))) st = None ->
      handleUserWebhook lib env uuid req st
      = (json 500 "error" "Error processing webhook", st))
  /\ (forall u r,
        findUnique (WhereOauthId (data_id (data event))) st = Some u ->
        In r st -> id r <> id u -> email r = email_address primaryEmail ->
        handleUserWebhook lib env uuid req st
        = (json 500 "error" "Error processing webhook", st)).
Proof.
  intros Hver Htype Hprimary.
  assert (Hrun : handleUserWebhook lib env uuid req st
                 = match handleUserUpdated (data event) st with
                   | Ok st' =>
                       (json 200 "success"
                          "User webhook processed successfully", st')
                   | Throw _ => (json 500 "error" "Error processing webhook", st)
                   end).
  { rewrite (handleUserWebhook_verified lib env uuid req event st Hver).
    unfold dispatch. now rewrite Htype. }
  rewrite Hrun. unfold handleUserUpdated, update. rewrite Hprimary.
  split; [|split].
  - intros u Hfind Hfree. rewrite Hfind.
    match goal with |- context [violatesUnique ?d ?a ?b ?c] =>
      destruct (violatesUnique d a b c) eqn:Hv end.
    + exfalso. unfold violatesUnique in Hv.
      apply existsb_exists in Hv as (r & Hr & Hbad). cbn in Hbad.
      apply andb_true_iff in Hbad as [Hid Hbad].
      apply negb_true_iff, bool_decide_eq_false in Hid.
      apply orb_true_iff in Hbad as [Hbad|Hbad]; [|discriminate].
      apply bool_decide_eq_true in Hbad. now apply (Hfree r Hr Hid).
    + reflexivity.
  - intros Hnone. now rewrite Hnone.
  - intros u r Hfind Hr Hid Hemail. rewrite Hfind.
    match goal with |- context [violatesUnique ?d ?a ?b ?c] =>
      destruct (violatesUnique d a b c) eqn:Hv end; [reflexivity|].
    exfalso. pose proof (violatesUnique_false _ _ _ _ Hv r Hr Hid) as [He _].
    apply He; [now eexists|]. cbn. exact Hemail.
Qed.

Lemma webhook_user_updated_witness :
  handleUserWebhook SampleWebhook.lib SampleWebhook.env "u9"
    (SampleWebhook.signed "user.updated") SampleWebhook.tableWithErin
  = (json 200 "success" "User webhook processed successfully",
     [Sample.alice; Sample.bob;
      mkUser "u5" "erin@example.com" "x5" (Some "erin")
        (Some 1706702400000) (Some 1709380800000) ACTIVE CORE 4 1 96 9;
      Sample.carol; Sample.dave])
  /\ handleUserWebhook SampleWebhook.lib SampleWebhook.env "u9"
       (SampleWebhook.signed "user.updated") Sample.table
     = (json 500 "error" "Error processing webhook", Sample.table).
Proof.
  split.
  - destruct (webhook_user_updated SampleWebhook.lib SampleWebhook.env "u9"
                (SampleWebhook.signed "user.updated")
                (mkEvent "user.updated" SampleWebhook.erin)
                (mkEmailAddress "em2" "erin@example.com")
                SampleWebhook.tableWithErin
                (verifiedAs_signed "user.updated") ltac:(reflexivity)
                ltac:(reflexivity)) as (Hupdated & _ & _).
    apply (Hupdated SampleWebhook.erinRow ltac:(reflexivity)).
    intros r Hr Hid. vm_compute in Hr.
    repeat (destruct Hr as [<-|Hr];
            [discriminate || (exfalso; now apply Hid)|]).
    destruct Hr.
  - destruct (webhook_user_updated SampleWebhook.lib SampleWebhook.env "u9"
                (SampleWebhook.signed "user.updated")
                (mkEvent "user.updated" SampleWebhook.erin)
                (mkEmailAddress "em2" "erin@example.com") Sample.table
                (verifiedAs_signed "user.updated") ltac:(reflexivity)
                ltac:(reflexivity)) as (_ & Hmissing & _).
    apply Hmissing. reflexivity.
Defined.

Lemma split_head (sep : ascii) (s : string) :
  exists h t,
    JsString.split sep s = h :: t
    /\ ~ In sep (JsString.chars h)
    /\ (t = [] -> s = h)
    /\ (t <> [] -> exists rest, s = h +:+ String sep rest).
Proof.
  induction s as [|c s IH]; simpl.
  - exists "", []. split; [reflexivity|]. split; [intros []|].
    split; [reflexivity|congruence].
  - destruct IH as (h & t & E & Hh & Hnil & Hcons).
    destruct (bool_decide (c = sep)) eqn:Hc.
    + apply bool_decide_eq_true in Hc. subst c.
      exists "", (JsString.split sep s). split; [reflexivity|].
      split; [intros []|]. split; [rewrite E; discriminate|].
      intros _. now exists s.
    + apply bool_decide_eq_false in Hc. rewrite E.
      exists (String c h), t. split; [reflexivity|].
      split; [simpl; intros [->|Hin]; [now apply Hc|now apply Hh]|].
      split.
      * intros Ht. now rewrite (Hnil Ht).
      * intros Ht. destruct (Hcons Ht) as (rest & ->). now exists rest.
Qed.

(** X17.  The user name that the webhook stores (user.created and
    user.updated).  A non-empty user name of the event is stored as it
    is.  Without one, the stored name is the part of the primary e-mail
    address in front of its first @ (the whole address when it has no
    @); in particular the webhook never stores a null user name, and it
    stores the empty string for an address that starts with @. *)
Theorem webhook_username_rule (userData : UserJSON)
    (primaryEmail : EmailAddress) :
  (forall n, data_username userData = Some n -> n <> "" ->
             usernameOf userData primaryEmail = Some n)
  /\ (data_username userData = None \/ data_username userData = Some "" ->
      exists name,
        usernameOf userData primaryEmail = Some name
        /\ ~ In "@"%char (JsString.chars name)
        /\ (email_address primaryEmail = name
            \/ exists rest,
                 email_address primaryEmail = name +:+ String "@" rest)).
Proof.
  unfold usernameOf. split.
  - intros n -> Hn. now rewrite (truthy_opt_string_Some n Hn).
  - intros Hu.
    assert (Hfalse : truthy_opt_string (data_username userData) = false)
      by (destruct Hu as [->| ->]; reflexivity).
    rewrite Hfalse.
    destruct (split_head "@" (email_address primaryEmail))
      as (h & t & E & Hh & Hnil & Hcons).
    exists h. rewrite E. split; [reflexivity|]. split; [exact Hh|].
    destruct t as [|x t]; [left; now apply Hnil|right; apply Hcons; discriminate].
Qed.

Lemma webhook_username_rule_witness :
  exists name,
    usernameOf SampleWebhook.erin (mkEmailAddress "em2" "erin@example.com")
    = Some name
    /\ ~ In "@"%char (JsString.chars name)
    /\ ("erin@example.com" = name
        \/ exists rest, "erin@example.com" = name +:+ String "@" rest).
Proof.
  apply (proj2 (webhook_username_rule SampleWebhook.erin
                  (mkEmailAddress "em2" "erin@example.com"))).
  left. reflexivity.
Defined.

(** X18.  A verified user.created event whose primary e-mail address
    resolves.  When no stored user has the e-mail address or the
    external identifier (and the drawn primary key is new), the handler
    answers 200 and the table gains one row: that address, that
    identifier, the user name of the rule above, and the defaults of the
    schema (BASIC, UNPAID, no dates, nothing used, 20 messages and 0
    documents left).  When a stored user has the address or the
    identifier, the handler answers 500 and the table is unchanged. *)
Theorem webhook_user_created (lib : Library) (env : Env) (uuid : string)
    (req : Request) (event : WebhookEvent) (primaryEmail : EmailAddress)
    (st : Store) :
  verifiedAs lib env req event -> type event = "user.created" ->
  primaryEmailOf (data event) = Some primaryEmail ->
  ((forall r, In r st ->
      id r <> uuid /\ email r <> email_address primaryEmail
      /\ oauthId r <> data_id (data event)) ->
   handleUserWebhook lib env uuid req st
   = (json 200 "success" "User webhook processed successfully",
      st ++ [mkUser uuid (email_address primaryEmail) (data_id (data event))
               (usernameOf (data event) primaryEmail)
               None None UNPAID BASIC 0 0 20 0]))
  /\ (forall r, In r st ->
        email r = email_address primaryEmail
        \/ oauthId r = data_id (data event) ->
        handleUserWebhook lib env uuid req st
        = (json 500 "error" "Error processing webhook", st)).
Proof.
  intros Hver Htype Hprimary.
  rewrite (handleUserWebhook_verified lib env uuid req event st Hver).
  unfold dispatch. rewrite Htype. cbn -[handleUserCreated].
  unfold handleUserCreated, create. rewrite Hprimary.
  cbn [c_email c_oauthId]. split.
  - intros Hfree. destruct (existsb _ st) eqn:Hex; [|reflexivity].
    apply existsb_exists in Hex as (r & Hr & Hbad).
    destruct (Hfree r Hr) as (H0 & H1 & H2).
    rewrite !bool_decide_eq_false_2 in Hbad by assumption. discriminate.
  - intros r Hr Hbad.
    match goal with |- context [existsb ?p st] =>
      assert (E : existsb p st = true)
    end.
    { apply existsb_exists. exists r. split; [exact Hr|].
      rewrite !orb_true_iff, !bool_decide_eq_true. tauto. }
    now rewrite E.
Qed.

Lemma webhook_user_created_witness :
  handleUserWebhook SampleWebhook.lib SampleWebhook.env "u9"
    (SampleWebhook.signed "user.created") Sample.table
  = (json 200 "success" "User webhook processed successfully",
     Sample.table ++ [mkUser "u9" "erin@example.com" "x5" (Some "erin")
                        None None UNPAID BASIC 0 0 20 0]).
Proof.
  apply (proj1 (webhook_user_created SampleWebhook.lib SampleWebhook.env "u9"
                  (SampleWebhook.signed "user.created")
                  (mkEvent "user.created" SampleWebhook.erin)
                  (mkEmailAddress "em2" "erin@example.com") Sample.table
                  (verifiedAs_signed "user.created") ltac:(reflexivity)
                  ltac:(reflexivity))).
  intros r Hr. vm_compute in Hr.
  repeat (destruct Hr as [<-|Hr]; [repeat split; discriminate|]).
  destruct Hr.
Defined.

Lemma usernameOf_truthy (userData : UserJSON) (primaryEmail : EmailAddress) :
  isValidEmail (email_address primaryEmail) = true ->
  truthy_opt_string (usernameOf userData primaryEmail) = true.
Proof.
  intros He. unfold usernameOf.
  destruct (truthy_opt_string (data_username userData)) eqn:Hu; [exact Hu|].
  unfold isValidEmail in He.
  destruct (JsString.split "@" (email_address primaryEmail))
    as [|loc [|dom [|x t]]]; try discriminate.
  destruct loc; [discriminate|reflexivity].
Qed.

Lemma created_as_postWith (limits : PlanType -> Limits) (uuid : string)
    (userData : UserJSON) (primaryEmail : EmailAddress) (st : Store) :
  limits BASIC = mkLimits 20 0 ->
  isValidEmail (email_address primaryEmail) = true ->
  data_id userData <> "" ->
  primaryEmailOf userData = Some primaryEmail ->
  match handleUserCreated uuid userData st with
  | Ok st' => st'
  | Throw _ => st
  end
  = snd (postUserWith limits uuid
           (mkCreateBody (Some (email_address primaryEmail))
              (Some (data_id userData))
              (usernameOf userData primaryEmail) None) st).
Proof.
  intros Hl He Ho Hprimary. unfold handleUserCreated, postUserWith.
  rewrite Hprimary. cbn [cb_email cb_oauthId cb_username cb_planType].
  rewrite (truthy_opt_string_Some _ (isValidEmail_nonempty _ He)).
  rewrite (truthy_opt_string_Some _ Ho).
  change (default "" (Some ?x)) with x. rewrite He.
  change (default "BASIC" None) with "BASIC".
  change (truthy_string "BASIC" && negb (isValidPlanType "BASIC")) with false.
  change (parsePlanType "BASIC") with (Some BASIC).
  cbn [negb orb]. rewrite (usernameOf_truthy userData primaryEmail He), Hl.
  unfold findFirst, create. cbn [c_email c_oauthId messages documents].
  destruct (List.find _ st) as [r|] eqn:Hfind.
  - apply find_some in Hfind as [Hr Hbad].
    match goal with |- context [existsb ?p st] =>
      assert (E : existsb p st = true)
    end.
    { apply existsb_exists. exists r. split; [exact Hr|].
      apply orb_true_iff in Hbad. rewrite !orb_true_iff. tauto. }
    now rewrite E.
  - destruct (existsb _ st); reflexivity.
Qed.

(** X19.  Provisioning through the webhook and through the create
    endpoint agree.  For a verified user.created event with a
    well-formed primary e-mail address and a non-empty identifier, the
    table after the webhook is the table after POST /api/v1/users (of
    either revision) with that address, that identifier, the user name
    of the webhook's rule and no plan: the defaults of the schema that
    the webhook relies on are the BASIC row of both plan tables, and
    both leave the table alone when the address or the identifier is
    taken. *)
Theorem webhook_created_as_post (lib : Library) (env : Env) (uuid : string)
    (req : Request) (event : WebhookEvent) (primaryEmail : EmailAddress)
    (st : Store) :
  verifiedAs lib env req event -> type event = "user.created" ->
  primaryEmailOf (data event) = Some primaryEmail ->
  isValidEmail (email_address primaryEmail) = true ->
  data_id (data event) <> "" ->
  let body :=
    mkCreateBody (Some (email_address primaryEmail))
      (Some (data_id (data event)))
      (usernameOf (data event) primaryEmail) None in
  snd (handleUserWebhook lib env uuid req st)
  = snd (RoutesById.postUser uuid body st)
  /\ snd (handleUserWebhook lib env uuid req st)
     = snd (RoutesByOauthId.postUser uuid body st).
Proof.
  intros Hver Htype Hprimary He Ho body.
  assert (Hrun : snd (handleUserWebhook lib env uuid req st)
                 = match handleUserCreated uuid (data event) st with
                   | Ok st' => st'
                   | Throw _ => st
                   end).
  { rewrite (handleUserWebhook_verified lib env uuid req event st Hver).
    unfold dispatch. rewrite Htype. cbn -[handleUserCreated].
    now destruct (handleUserCreated uuid (data event) st). }
  rewrite Hrun. split.
  - now apply created_as_postWith.
  - now apply created_as_postWith.
Qed.

Lemma webhook_created_as_post_witness :
  let body := mkCreateBody (Some "erin@example.com") (Some "x5")
                (Some "erin") None in
  snd (handleUserWebhook SampleWebhook.lib SampleWebhook.env "u9"
         (SampleWebhook.signed "user.created") Sample.table)
  = snd (RoutesById.postUser "u9" body Sample.table)
  /\ snd (handleUserWebhook SampleWebhook.lib SampleWebhook.env "u9"
            (SampleWebhook.signed "user.created") Sample.table)
     = snd (RoutesByOauthId.postUser "u9" body Sample.table).
Proof.
  apply (webhook_created_as_post SampleWebhook.lib SampleWebhook.env "u9"
           (SampleWebhook.signed "user.created")
           (mkEvent "user.created" SampleWebhook.erin)
           (mkEmailAddress "em2" "erin@example.com") Sample.table
           (verifiedAs_signed "user.created")).
  - reflexivity.
  - reflexivity.
  - vm_compute. reflexivity.
  - discriminate.
Defined.

(** X20.  Created, then deleted.  After a verified user.created delivery
    that was answered with 200 and added a row, a verified user.deleted
    delivery for the same identifier is answered with 200 and gives the
    table back as it was before the creation; delivered once more, it
    is answered with 500 and changes nothing. *)
Theorem webhook_created_then_deleted (lib : Library) (env : Env)
    (uuid : string) (req1 req2 : Request) (event1 event2 : WebhookEvent)
    (st st1 : Store) :
  verifiedAs lib env req1 event1 -> type event1 = "user.created" ->
  verifiedAs lib env req2 event2 -> type event2 = "user.deleted" ->
  data_id (data event2) = data_id (data event1) ->
  handleUserWebhook lib env uuid req1 st
  = (json 200 "success" "User webhook processed successfully", st1) ->
  st1 <> st ->
  forall uuid',
    handleUserWebhook lib env uuid' req2 st1
    = (json 200 "success" "User webhook processed successfully", st)
    /\ handleUserWebhook lib env uuid' req2 st
       = (json 500 "error" "Error processing webhook", st).
Proof.
  intros Hver1 Htype1 Hver2 Htype2 Hsame Hrun Hne uuid'.
  rewrite (handleUserWebhook_verified lib env uuid req1 event1 st Hver1) in Hrun.
  unfold dispatch in Hrun. rewrite Htype1 in Hrun.
  cbn -[handleUserCreated] in Hrun.
  destruct (handleUserCreated uuid (data event1) st) as [st1'|e] eqn:Hcreated;
    [|discriminate].
  assert (st1' = st1) by (inversion Hrun; reflexivity). subst st1'.
  destruct (handleUserCreated_created _ _ _ _ Hcreated Hne)
    as (user & -> & Ho & Hfresh & _).
  rewrite !(handleUserWebhook_verified lib env uuid' req2 event2 _ Hver2).
  unfold dispatch. rewrite Htype2. cbn -[handleUserDeleted].
  unfold handleUserDeleted, delete, findUnique. rewrite Hsame.
  assert (Hst : forall r, In r st ->
                  matches (WhereOauthId (data_id (data event1))) r = false).
  { intros r Hr. apply bool_decide_eq_false_2. now apply Hfresh. }
  assert (Hu : matches (WhereOauthId (data_id (data event1))) user = true)
    by now apply bool_decide_eq_true_2.
  rewrite (find_app_fresh _ user st Hst Hu).
  rewrite (removeFirst_app_fresh _ user st Hst Hu).
  rewrite (proj2 (find_none_iff _ st) Hst). split; reflexivity.
Qed.

Lemma webhook_created_then_deleted_witness :
  handleUserWebhook SampleWebhook.lib SampleWebhook.env "u10"
    (SampleWebhook.signed "user.deleted")
    (Sample.table ++ [mkUser "u9" "erin@example.com" "x5" (Some "erin")
                        None None UNPAID BASIC 0 0 20 0])
  = (json 200 "success" "User webhook processed successfully", Sample.table)
  /\ handleUserWebhook SampleWebhook.lib SampleWebhook.env "u10"
       (SampleWebhook.signed "user.deleted") Sample.table
     = (json 500 "error" "Error processing webhook", Sample.table).
Proof.
  apply (webhook_created_then_deleted SampleWebhook.lib SampleWebhook.env "u9"
           (SampleWebhook.signed "user.created")
           (SampleWebhook.signed "user.deleted")
           (mkEvent "user.created" SampleWebhook.erin)
           (mkEvent "user.deleted" SampleWebhook.erin)
           Sample.table _
           (verifiedAs_signed "user.created") ltac:(reflexivity)
           (verifiedAs_signed "user.deleted") ltac:(reflexivity)
           ltac:(reflexivity) ltac:(reflexivity)).
  intros H. apply (f_equal (@List.length User)) in H. vm_compute in H.
  discriminate.
Defined.

(** X21.  A verified user.deleted event on a table with distinct
    external identifiers.  If a user with the event's identifier is
    stored, the handler answers 200 and the rows of the table are the
    old rows without that user; the same delivery once more is answered
    with 500 and changes nothing.  If no such user is stored, the
    handler answers 500 and the table is unchanged. *)
Theorem webhook_user_deleted (lib : Library) (env : Env) (uuid : string)
    (req : Request) (event : WebhookEvent) (st : Store) :
  verifiedAs lib env req event -> type event = "user.deleted" ->
  List.NoDup (map oauthId st) ->
  (forall u,
     findUnique (WhereOauthId (data_id (data event))) st = Some u ->
     exists st',
       handleUserWebhook lib env uuid req st
       = (json 200 "success" "User webhook processed successfully", st')
       /\ (forall r, In r st' <-> In r st /\ r <> u)
       /\ handleUserWebhook lib env uuid req st'
          = (json 500 "error" "Error processing webhook", st'))
  /\ (findUnique (WhereOauthId (data_id (data event))) st = None ->
      handleUserWebhook lib env uuid req st
      = (json 500 "error" "Error processing webhook", st)).
Proof.
  intros Hver Htype Hnd.
  assert (Hrun : forall st0,
             handleUserWebhook lib env uuid req st0
             = match findUnique (WhereOauthId (data_id (data event))) st0 with
               | Some _ =>
                   (json 200 "success" "User webhook processed successfully",
                    removeFirst
                      (matches (WhereOauthId (data_id (data event)))) st0)
               | None => (json 500 "error" "Error processing webhook", st0)
               end).
  { intros st0.
    rewrite (handleUserWebhook_verified lib env uuid req event st0 Hver).
    unfold dispatch. rewrite Htype. cbn -[handleUserDeleted].
    unfold handleUserDeleted, delete.
    now destruct (findUnique _ st0). }
  set (o := data_id (data event)) in *. split.
  - intros u Hfind.
    pose proof (removeFirst_key oauthId o st Hnd) as Hrows.
    assert (Hou : oauthId u = o).
    { apply findUnique_matches in Hfind.
      now apply bool_decide_eq_true in Hfind. }
    assert (Hgone : findUnique (WhereOauthId o)
                      (removeFirst (matches (WhereOauthId o)) st) = None).
    { apply (find_key_none oauthId o). intros r Hr. now apply Hrows in Hr. }
    exists (removeFirst (matches (WhereOauthId o)) st).
    rewrite !Hrun, Hfind, Hgone. split; [reflexivity|]. split; [|reflexivity].
    intros r. change (matches (WhereOauthId o))
      with (fun r0 : User => bool_decide (oauthId r0 = o)).
    rewrite (Hrows r).
    split; intros [Hr Hne]; (split; [exact Hr|]).
    + intros ->. contradiction.
    + intros E. apply Hne.
      apply (NoDup_key_inj oauthId st r u Hnd Hr); [|congruence].
      eapply findUnique_In; eauto.
  - intros Hnone. now rewrite Hrun, Hnone.
Qed.

Lemma webhook_user_deleted_witness :
  (exists st',
     handleUserWebhook SampleWebhook.lib SampleWebhook.env "u9"
       (SampleWebhook.signed "user.deleted") SampleWebhook.tableWithErin
     = (json 200 "success" "User webhook processed successfully", st')
     /\ (forall r, In r st'
                   <-> In r SampleWebhook.tableWithErin
                       /\ r <> SampleWebhook.erinRow)
     /\ handleUserWebhook SampleWebhook.lib SampleWebhook.env "u9"
          (SampleWebhook.signed "user.deleted") st'
        = (json 500 "error" "Error processing webhook", st'))
  /\ handleUserWebhook SampleWebhook.lib SampleWebhook.env "u9"
       (SampleWebhook.signed "user.deleted") Sample.table
     = (json 500 "error" "Error processing webhook", Sample.table).
Proof.
  split.
  - apply (proj1 (webhook_user_deleted SampleWebhook.lib SampleWebhook.env
                    "u9" (SampleWebhook.signed "user.deleted")
                    (mkEvent "user.deleted" SampleWebhook.erin)
                    SampleWebhook.tableWithErin
                    (verifiedAs_signed "user.deleted") ltac:(reflexivity)
                    ltac:(vm_compute; repeat constructor; simpl;
                          intuition discriminate))).
    reflexivity.
  - apply (proj2 (webhook_user_deleted SampleWebhook.lib SampleWebhook.env
                    "u9" (SampleWebhook.signed "user.deleted")
                    (mkEvent "user.deleted" SampleWebhook.erin) Sample.table
                    (verifiedAs_signed "user.deleted") ltac:(reflexivity)
                    ltac:(vm_compute; repeat constructor; simpl;
                          intuition discriminate))).
    reflexivity.
Defined.

(** X22.  What the webhook does not act on.  A verified event whose type
    does not start with user. is passed to the next handler; a verified
    user event of a type other than user.created, user.updated and
    user.deleted is answered with 200; so is a user.created or
    user.updated event none of whose e-mail addresses carries the id of
    the primary address.  In all three cases the table is unchanged. *)
Theorem webhook_ignored_events (lib : Library) (env : Env) (uuid : string)
    (req : Request) (event : WebhookEvent) (st : Store) :
  verifiedAs lib env req event ->
  (JsString.startsWith "user." (type event) = false ->
   handleUserWebhook lib env uuid req st = (CallNext, st))
  /\ (JsString.startsWith "user." (type event) = true ->
      type event <> "user.created" -> type event <> "user.updated" ->
      type event <> "user.deleted" ->
      handleUserWebhook lib env uuid req st
      = (json 200 "success" "User webhook processed successfully", st))
  /\ (type event = "user.created" \/ type event = "user.updated" ->
      (forall e, In e (email_addresses (data event)) ->
                 Some (ea_id e) <> primary_email_address_id (data event)) ->
      handleUserWebhook lib env uuid req st
      = (json 200 "success" "User webhook processed successfully", st)).
Proof.
  intros Hver.
  rewrite (handleUserWebhook_verified lib env uuid req event st Hver).
  split; [|split].
  - intros Hnot. now rewrite Hnot.
  - intros Hstart H1 H2 H3. rewrite Hstart. unfold dispatch.
    now rewrite !bool_decide_eq_false_2.
  - intros Htype Hnone.
    assert (Hprimary : primaryEmailOf (data event) = None).
    { unfold primaryEmailOf.
      induction (email_addresses (data event)) as [|e es IH]; simpl;
        [reflexivity|].
      rewrite bool_decide_eq_false_2 by (apply Hnone; now left).
      apply IH. intros x Hx. apply Hnone. now right. }
    unfold dispatch, handleUserCreated, handleUserUpdated.
    destruct Htype as [-> | ->]; cbn; now rewrite Hprimary.
Qed.

Lemma webhook_ignored_events_witness :
  handleUserWebhook SampleWebhook.lib SampleWebhook.env "u9"
    (SampleWebhook.signed "session.created") Sample.table
  = (CallNext, Sample.table).
Proof.
  apply (proj1 (webhook_ignored_events SampleWebhook.lib SampleWebhook.env
                  "u9" (SampleWebhook.signed "session.created")
                  (mkEvent "session.created" SampleWebhook.erin) Sample.table
                  (verifiedAs_signed "session.created"))).
  reflexivity.
Defined.

(** ** The error-handling chain *)

Import errorHandlers.

(** X23.  What the chain [prismaErrorHandler; globalErrorHandler] of the
    application answers.  A [CustomError] keeps its status code and its
    message.  Any other error is answered with a fixed text: one whose
    [code] starts with P with the entry of the table for that code (409
    for P2002, 400 for P2003, 404 for P2025, 503 for P1001 and P1009)
    or else 500, Database error occurred; one without such a code with
    500, Internal Server Error.  The status line always equals the
    [statusCode] of the body, and the body carries a stack exactly when
    NODE_ENV is development. *)
Theorem error_chain_answers (NODE_ENV : option string) (here : string)
    (error : JsError) :
  let r := errorChain NODE_ENV here error in
  err_httpStatus r = err_statusCode r /\ err_status r = "error"
  /\ (is_Some (err_stack r) <-> NODE_ENV = Some "development")
  /\ (forall m sc stk, error = CustomError m sc stk ->
        err_statusCode r = sc /\ err_message r = m)
  /\ (forall m code target stk,
        error = OtherError m (Some code) target stk ->
        JsString.startsWith "P" code = true ->
        let answer := (err_statusCode r, err_message r) in
        (code = "P2002" ->
         answer = (409, "Duplicate entry: " +:+ default "undefined" target))
        /\ (code = "P2003" -> answer = (400, "Foreign key constraint failed"))
        /\ (code = "P2025" -> answer = (404, "Record not found"))
        /\ (code = "P1001" -> answer = (503, "Database connection failed"))
        /\ (code = "P1009" -> answer = (503, "Database connection timeout"))
        /\ (~ In code ["P2002"; "P2003"; "P2025"; "P1001"; "P1009"] ->
            answer = (500, "Database error occurred")))
  /\ (forall m code target stk,
        error = OtherError m code target stk ->
        (code = None
         \/ exists c, code = Some c /\ JsString.startsWith "P" c = false) ->
        (err_statusCode r, err_message r) = (500, "Internal Server Error")).
Proof.
  intros r. split; [|split; [|split; [|split; [|split]]]].
  - reflexivity.
  - reflexivity.
  - unfold r, errorChain, globalErrorHandler. cbn [err_stack].
    destruct (bool_decide (NODE_ENV = Some "development")) eqn:E.
    + apply bool_decide_eq_true in E. split; [intros _; exact E|now eexists].
    + apply bool_decide_eq_false in E.
      split; [intros [x Hx]; discriminate|contradiction].
  - intros m sc stk ->. split; reflexivity.
  - intros m code target stk -> Hp.
    assert (Ht : truthy_string code = true)
      by (destruct code; [discriminate|reflexivity]).
    unfold r, errorChain, prismaErrorHandler. rewrite Ht, Hp.
    cbn [andb globalErrorHandler err_statusCode err_message]. cbv zeta.
    do 5 (split; [intros ->; reflexivity|]).
    intros Hother. cbn [In] in Hother. unfold errorInfo.
    rewrite !bool_decide_eq_false_2 by (intros ->; tauto). reflexivity.
  - intros m code target stk -> Hcode. unfold r, errorChain, prismaErrorHandler.
    destruct Hcode as [->|(c & -> & Hc)]; [reflexivity|].
    rewrite Hc, andb_false_r. reflexivity.
Qed.

(** X24.  Outside development the chain reveals nothing of an error that
    is not a [CustomError]: the answer is the same for any two such
    errors with the same [code] and [meta.target], whatever their
    messages and stacks.  For an error with a code starting with P this
    holds in every environment: in development the stack that is sent
    is the stack of the error that [prismaErrorHandler] builds, not that
    of the database error. *)
Theorem error_chain_hides_internals (NODE_ENV : option string) (here : string)
    (code target : option string) (m1 m2 stk1 stk2 : string) :
  (NODE_ENV <> Some "development" ->
   errorChain NODE_ENV here (OtherError m1 code target stk1)
   = errorChain NODE_ENV here (OtherError m2 code target stk2))
  /\ (forall c, code = Some c -> JsString.startsWith "P" c = true ->
      errorChain NODE_ENV here (OtherError m1 code target stk1)
      = errorChain NODE_ENV here (OtherError m2 code target stk2)
      /\ (NODE_ENV = Some "development" ->
          err_stack (errorChain NODE_ENV here (OtherError m1 code target stk1))
          = Some here)).
Proof.
  split.
  - intros Hdev. unfold errorChain, prismaErrorHandler, globalErrorHandler.
    rewrite (bool_decide_eq_false_2 _ Hdev).
    destruct code as [c|]; [|reflexivity].
    destruct (truthy_string c && JsString.startsWith "P" c); reflexivity.
  - intros c -> Hp.
    assert (Ht : truthy_string c = true)
      by (destruct c; [discriminate|reflexivity]).
    unfold errorChain, prismaErrorHandler. rewrite Ht, Hp. cbn [andb].
    split; [reflexivity|].
    intros ->. reflexivity.
Qed.

Lemma error_chain_hides_internals_witness :
  errorChain (Some "production") "at handler"
    (OtherError "connect ECONNREFUSED 10.0.0.5:5432" None None "at pg")
  = errorChain (Some "production") "at handler"
      (OtherError "boom" None None "at elsewhere").
Proof.
  apply (proj1 (error_chain_hides_internals (Some "production") "at handler"
                  None None "connect ECONNREFUSED 10.0.0.5:5432" "boom"
                  "at pg" "at elsewhere")).
  discriminate.
Defined.

Lemma error_chain_answers_witness :
  let r := errorChain None "at handler"
             (OtherError "Unique constraint failed" (Some "P2002")
                (Some "email") "at db") in
  (err_statusCode r, err_message r) = (409, "Duplicate entry: email").
Proof.
  pose proof (error_chain_answers None "at handler"
                (OtherError "Unique constraint failed" (Some "P2002")
                   (Some "email") "at db")) as H.
  cbv zeta in H. destruct H as (_ & _ & _ & _ & H & _).
  destruct (H _ _ _ _ eq_refl eq_refl) as [E _]. exact (E eq_refl).
Defined.

(** ** The e-mail check *)

Lemma chars_app (a b : string) :
  JsString.chars (a +:+ b) = JsString.chars a ++ JsString.chars b.
Proof. induction a as [|c a IH]; simpl; [reflexivity|]. now rewrite <- IH. Qed.

Lemma split_cases (sep : ascii) (s : string) :
  (~ In sep (JsString.chars s) /\ JsString.split sep s = [s])
  \/ exists a b,
       s = a +:+ String sep b /\ ~ In sep (JsString.chars a)
       /\ JsString.split sep s = a :: JsString.split sep b.
Proof.
  induction s as [|c s IH].
  - left. split; [intros []|reflexivity].
  - simpl. destruct (bool_decide (c = sep)) eqn:Hc.
    + apply bool_decide_eq_true in Hc. subst c. right. exists "", s.
      split; [reflexivity|]. split; [intros []|reflexivity].
    + apply bool_decide_eq_false in Hc.
      destruct IH as [[Hnot E]|(a & b & -> & Hnot & E)].
      * left. rewrite E. split; [|reflexivity].
        simpl. intros [->|Hin]; [now apply Hc|now apply Hnot].
      * right. exists (String c a), b. rewrite E.
        split; [reflexivity|]. split; [|reflexivity].
        simpl. intros [->|Hin]; [now apply Hc|now apply Hnot].
Qed.

Lemma split_app (sep : ascii) (a b : string) :
  ~ In sep (JsString.chars a) ->
  JsString.split sep (a +:+ String sep b) = a :: JsString.split sep b.
Proof.
  induction a as [|c a IH]; simpl; intros Hnot.
  - now rewrite bool_decide_eq_true_2.
  - rewrite bool_decide_eq_false_2 by (intros ->; apply Hnot; now left).
    rewrite IH by (intros Hin; apply Hnot; now right). reflexivity.
Qed.

Lemma split_nosep (sep : ascii) (s : string) :
  ~ In sep (JsString.chars s) -> JsString.split sep s = [s].
Proof.
  intros Hnot. destruct (split_cases sep s) as [[_ E]|(a & b & -> & _ & _)];
    [exact E|].
  exfalso. apply Hnot. rewrite chars_app. apply in_or_app. right. now left.
Qed.

Lemma split_two (sep : ascii) (s loc dom : string) :
  JsString.split sep s = [loc; dom]
  <-> s = loc +:+ String sep dom
      /\ ~ In sep (JsString.chars loc) /\ ~ In sep (JsString.chars dom).
Proof.
  split.
  - intros E. destruct (split_cases sep s) as [[_ E1]|(a & b & -> & Ha & E1)];
      [congruence|].
    rewrite E1 in E. inversion E as [[Hloc Hb]]. subst a. clear E E1.
    destruct (split_cases sep b) as [[Hb' E2]|(a' & b' & -> & _ & E2)].
    + rewrite E2 in Hb. inversion Hb. subst b. auto.
    + rewrite E2 in Hb. inversion Hb as [[Ha' Hnil]].
      destruct (split_cases sep b') as [[_ E3]|(? & ? & _ & _ & E3)];
        congruence.
  - intros (-> & Hloc & Hdom). rewrite (split_app sep loc dom Hloc).
    now rewrite (split_nosep sep dom Hdom).
Qed.

Lemma inner_dot (d : list ascii) :
  existsb (fun c => bool_decide (c = "."%char)) (removelast (List.tl d)) = true
  <-> exists b c, d = b ++ "."%char :: c /\ b <> [] /\ c <> [].
Proof.
  split.
  - intros H. apply existsb_exists in H as (x & Hin & Hx).
    apply bool_decide_eq_true in Hx. subst x.
    destruct d as [|x d]; [destruct Hin|]. cbn [List.tl] in Hin.
    destruct d as [|y d]; [destruct Hin|].
    apply in_split in Hin as (l1 & l2 & E).
    assert (Hne : y :: d <> []) by discriminate.
    rewrite (app_removelast_last y Hne), E.
    exists (x :: l1), (l2 ++ [List.last (y :: d) y]).
    split; [now rewrite <- !app_assoc|]. split; [discriminate|].
    now destruct l2.
  - intros (b & c & -> & Hb & Hc). destruct b as [|x b]; [contradiction|].
    cbn [List.tl app].
    rewrite removelast_app by discriminate. rewrite existsb_app.
    destruct c as [|y c]; [contradiction|].
    cbn. now rewrite orb_true_r.
Qed.

Lemma notSpaceNorAt_notAt (l : list ascii) :
  forallb JsString.notSpaceNorAt l = true -> ~ In "@"%char l.
Proof.
  induction l as [|c l IH]; simpl; [tauto|].
  intros H. apply andb_true_iff in H as [Hc Hl]. intros [->|Hin].
  - discriminate.
  - now apply IH.
Qed.

Lemma string_of_chars_app (b c : list ascii) :
  string_of_list_ascii (b ++ c)
  = string_of_list_ascii b +:+ string_of_list_ascii c.
Proof. induction b as [|x b IH]; simpl; [reflexivity|]. now rewrite IH. Qed.

Lemma chars_nonempty (s : string) : s <> "" <-> JsString.chars s <> [].
Proof. destruct s; simpl; split; congruence. Qed.

(** X25.  The e-mail check accepts exactly the strings that the regular
    expression of the source describes: a @ b . c with a, b and c
    non-empty and free of white space and of @.  (b and c may hold
    further dots.) *)
Theorem isValidEmail_regex (email0 : string) :
  isValidEmail email0 = true
  <-> exists a b c,
        email0 = a +:+ "@" +:+ b +:+ "." +:+ c
        /\ a <> "" /\ b <> "" /\ c <> ""
        /\ forallb JsString.notSpaceNorAt (JsString.chars a) = true
        /\ forallb JsString.notSpaceNorAt (JsString.chars b) = true
        /\ forallb JsString.notSpaceNorAt (JsString.chars c) = true.
Proof.
  split.
  - unfold isValidEmail. intros H.
    destruct (JsString.split "@" email0) as [|loc [|dom [|x t]]] eqn:E;
      try discriminate.
    apply split_two in E as (-> & _ & _).
    cbv zeta in H. rewrite !andb_true_iff in H.
    destruct H as (((Hloc & Hl) & Hd) & Hdot).
    apply negb_true_iff, bool_decide_eq_false in Hloc.
    apply inner_dot in Hdot as (b & c & Edom & Hb & Hc).
    rewrite Edom, forallb_app in Hd. cbn [forallb] in Hd.
    rewrite !andb_true_iff in Hd. destruct Hd as (Hfb & _ & Hfc).
    exists loc, (string_of_list_ascii b), (string_of_list_ascii c).
    unfold JsString.chars. rewrite !list_ascii_of_string_of_list_ascii.
    split.
    { f_equal. rewrite <- (string_of_list_ascii_of_string dom).
      unfold JsString.chars in Edom. rewrite Edom.
      now rewrite string_of_chars_app. }
    split; [now apply chars_nonempty|].
    split; [apply chars_nonempty; unfold JsString.chars;
            now rewrite list_ascii_of_string_of_list_ascii|].
    split; [apply chars_nonempty; unfold JsString.chars;
            now rewrite list_ascii_of_string_of_list_ascii|].
    auto.
  - intros (a & b & c & -> & Ha & Hb & Hc & Hfa & Hfb & Hfc).
    unfold isValidEmail.
    change (a +:+ "@" +:+ b +:+ "." +:+ c)
      with (a +:+ String "@" (b +:+ String "." c)).
    assert (Hfd : forallb JsString.notSpaceNorAt
                    (JsString.chars (b +:+ String "." c)) = true).
    { rewrite chars_app, forallb_app, Hfb. cbn [JsString.chars
        list_ascii_of_string forallb]. unfold JsString.chars in Hfc.
      now rewrite Hfc. }
    rewrite (proj2 (split_two "@" _ a (b +:+ String "." c))).
    2:{ split; [reflexivity|].
        split; apply notSpaceNorAt_notAt; assumption. }
    cbv zeta. rewrite Hfa, Hfd.
    rewrite (bool_decide_eq_false_2 _ (proj1 (chars_nonempty a) Ha)).
    cbn [negb andb]. apply inner_dot.
    exists (JsString.chars b), (JsString.chars c).
    split; [now rewrite chars_app|].
    split; now apply chars_nonempty.
Qed.

(** ** Changing the e-mail address *)




(** ** The length of a paid period *)

(** The year counted from 1 March, the month counted from March and the
    day of the year counted from 1 March, of a day number. *)
Lemma civilFromDays_shape (z : Z) :
  exists era yoe doy mp,
    0 <= yoe <= 399 /\ 0 <= mp <= 11
    /\ z + 719468 = era * 146097 + (365 * yoe + yoe / 4 - yoe / 100) + doy
    /\ JsDate.civilFromDays z
       = (if (if mp <? 10 then mp + 3 else mp - 9) <=? 2
          then yoe + era * 400 + 1 else yoe + era * 400,
          if mp <? 10 then mp + 3 else mp - 9,
          doy - (153 * mp + 2) / 5 + 1).
Proof.
  unfold JsDate.civilFromDays. cbv zeta.
  set (era := (z + 719468) / 146097).
  set (doe := z + 719468 - era * 146097).
  assert (Hdoe : 0 <= doe <= 146096)
    by (subst doe era; Z.to_euclidean_division_equations; lia).
  assert (Hz : z + 719468 = era * 146097 + doe) by (subst doe; ring).
  clearbody doe era.
  set (yoe := (doe - doe / 1460 + doe / 36524 - doe / 146096) / 365).
  assert (Hyoe : 0 <= yoe <= 399)
    by (subst yoe; Z.to_euclidean_division_equations; lia).
  set (doy := doe - (365 * yoe + yoe / 4 - yoe / 100)).
  assert (Hdoy : 0 <= doy <= 365)
    by (subst doy yoe; Z.to_euclidean_division_equations; lia).
  exists era, yoe, doy, ((5 * doy + 2) / 153).
  split; [exact Hyoe|].
  split; [clearbody doy; Z.to_euclidean_division_equations; lia|].
  split; [|reflexivity].
  subst doy. clearbody yoe. lia.
Qed.

(** Moving a date to the same day of the next month moves it by the
    length of its month. *)
Lemma nextMonthShift_range (z : Z) : 28 <= JsDate.nextMonthShift z <= 31.
Proof.
  unfold JsDate.nextMonthShift.
  destruct (civilFromDays_shape z)
    as (era & yoe & doy & mp & Hyoe & Hmp & Hz & ->).
  unfold JsDate.MakeDay, JsDate.daysFromCivil. cbv zeta.
  assert (Ez : z = era * 146097 + (365 * yoe + yoe / 4 - yoe / 100) + doy
                   - 719468) by lia.
  clear Hz. subst z.
  repeat match goal with
  | |- context [?a <? ?b] => destruct (Z.ltb_spec a b)
  | |- context [?a <=? ?b] => destruct (Z.leb_spec a b)
  end.
  all: Z.to_euclidean_division_equations; lia.
Qed.

Lemma setMonth_next (LocalTZA : JsDate.TimeZone) (t : Z) :
  let local := JsDate.LocalTime LocalTZA t in
  JsDate.setMonth LocalTZA t (JsDate.getMonth LocalTZA t + 1)
  = JsDate.UTC LocalTZA
      (local + JsDate.nextMonthShift (JsDate.Day local) * JsDate.msPerDay).
Proof.
  intros local.
  unfold JsDate.setMonth, JsDate.getMonth, JsDate.MonthFromTime,
    JsDate.YearFromTime, JsDate.DateFromTime, JsDate.nextMonthShift,
    JsDate.MakeDate, JsDate.TimeWithinDay.
  fold local. cbv zeta.
  destruct (JsDate.civilFromDays (JsDate.Day local)) as [[y m] d].
  cbn [fst snd]. replace (m - 1 + 1) with m by ring. f_equal.
  unfold JsDate.Day, JsDate.msPerDay.
  pose proof (Z.div_mod local 86400000 ltac:(lia)) as E.
  set (q := local / 86400000) in *. set (r := local mod 86400000) in *.
  clearbody q r. lia.
Qed.

(** The row that the update endpoint keyed by oauthId answers with has
    the primary key of the row it found. *)
Lemma patchUser_oauthId_ok (LocalTZA : JsDate.TimeZone) (now : Z) (st : Store)
    (o : string) (u : User) (body : UpdateBody) :
  findUnique (WhereOauthId o) st = Some u ->
  statusCode (fst (RoutesByOauthId.patchUser LocalTZA now o body st)) = 200 ->
  exists u',
    RoutesByOauthId.patchUser LocalTZA now o body st
    = (sendSuccess (DataUser u') (Some "User updated successfully"),
       replaceFirst (matches (WhereOauthId o)) u' st)
    /\ id u' = id u.
Proof.
  intros Hfind. unfold RoutesByOauthId.patchUser. rewrite Hfind.
  repeat handler_step; cbn [fst statusCode sendError];
    try (intros; discriminate).
  intros _.
  match goal with
  | H : update _ _ _ = Ok _ |- _ =>
      apply update_ok_inv in H as (_ & found & Hfound & -> & _ & ->)
  end.
  rewrite Hfind in Hfound. inversion Hfound; subst found.
  eexists. split; reflexivity.
Qed.

(** X27.  How long a paid period lasts.  After a successful change to a
    paid plan through PATCH /api/v1/users/:oauthId at the time now, on
    a table with distinct primary keys, the answer carries the row that
    the primary key then finds; its subscription starts at now and ends
    on the same day and at the same local time of the next month, rolled
    over when that month is shorter: L days later, L between 28 and 31,
    corrected by the difference between the offsets of the server's
    time zone from UTC at the start and at the end.  In a zone with a
    fixed offset (UTC, say) the period is these L days exactly; the user
    then does not count as expired for the monthly job at any time up
    to 28 days after now, and is not picked by the daily sweep at any
    time earlier than 25 days after now (the text of both jobs is the
    same in both revisions). *)
Theorem paid_period_length (LocalTZA : JsDate.TimeZone) (now : Z)
    (st : Store) (o : string) (u : User) (body : UpdateBody) (P : PlanType) :
  let r := RoutesByOauthId.patchUser LocalTZA now o body st in
  b_planType body = Some (planTypeName P) -> P <> planType u -> P <> BASIC ->
  List.NoDup (map id st) ->
  findUnique (WhereOauthId o) st = Some u ->
  statusCode (fst r) = 200 ->
  exists u' L,
    json_data (fst r) = Some (DataUser u')
    /\ snd r = replaceFirst (matches (WhereOauthId o)) u' st
    /\ findUnique (WhereId (id u)) (snd r) = Some u'
    /\ 28 <= L <= 31
    /\ subscriptioStartDate u' = Some now
    /\ subscriptionEndDate u'
       = Some (now + L * 86400000
               + (LocalTZA now true
                  - LocalTZA (now + LocalTZA now true + L * 86400000) false))
    /\ forall offset,
         (forall t isUTC, LocalTZA t isUTC = offset) ->
         subscriptionEndDate u' = Some (now + L * 86400000)
         /\ (forall t, t <= now + 28 * 86400000 ->
                       RoutesById.isExpired t u' = false)
         /\ (forall t, t < now + 25 * 86400000 ->
                       RoutesById.isSoonToExpire t u' = false).
Proof.
  intros r Hplan Hne Hpaid Hnd Hfind Hok. subst r.
  destruct (patchUser_oauthId_plan_change LocalTZA now st o u body P
              Hplan Hne Hfind Hok)
    as (u' & Hrun & _ & _ & _ & _ & _ & Hsub & _).
  destruct (Hsub Hpaid) as (_ & Hstart & Hend).
  rewrite setMonth_next in Hend.
  unfold JsDate.UTC, JsDate.LocalTime, JsDate.msPerDay in Hend.
  pose proof (nextMonthShift_range (JsDate.Day (now + LocalTZA now true)))
    as HL.
  set (L := JsDate.nextMonthShift (JsDate.Day (now + LocalTZA now true))) in *.
  clearbody L.
  assert (Hid : id u' = id u).
  { destruct (patchUser_oauthId_ok LocalTZA now st o u body Hfind Hok)
      as (u'' & Hrun' & Hid).
    rewrite Hrun in Hrun'.
    apply (f_equal (fun x => json_data (fst x))) in Hrun'. cbn in Hrun'.
    inversion Hrun'. now subst u''. }
  exists u', L. rewrite Hrun. cbn [fst snd].
  split; [reflexivity|]. split; [reflexivity|].
  split; [now apply lookup_after_replace|].
  split; [exact HL|]. split; [exact Hstart|].
  split; [rewrite Hend; f_equal; lia|].
  intros offset Hfixed. rewrite !Hfixed in Hend.
  assert (Hend' : subscriptionEndDate u' = Some (now + L * 86400000))
    by (rewrite Hend; f_equal; lia).
  split; [exact Hend'|]. split.
  - intros t Ht. unfold RoutesById.isExpired, RoutesById.ltDate.
    rewrite Hend'. rewrite (proj2 (Z.ltb_ge _ _)) by lia. reflexivity.
  - intros t Ht.
    unfold RoutesById.isSoonToExpire, RoutesById.betweenDates, JsDate.getTime.
    rewrite Hend'.
    rewrite (proj2 (Z.leb_gt (now + L * 86400000)
                      (t + 3 * 24 * 60 * 60 * 1000))) by lia.
    now rewrite andb_false_r.
Qed.

Lemma paid_period_length_witness :
  (exists u' L,
     json_data
       (fst (RoutesByOauthId.patchUser JsDate.utc Sample.jan31 "x1"
               (Sample.planBody CORE) Sample.table))
     = Some (DataUser u')
     /\ 28 <= L <= 31
     /\ subscriptioStartDate u' = Some Sample.jan31
     /\ subscriptionEndDate u' = Some (Sample.jan31 + L * 86400000)
     /\ (forall t, t <= Sample.jan31 + 28 * 86400000 ->
                   RoutesById.isExpired t u' = false)
     /\ (forall t, t < Sample.jan31 + 25 * 86400000 ->
                   RoutesById.isSoonToExpire t u' = false))
  /\ exists u',
       json_data
         (fst (RoutesByOauthId.patchUser Sample.newYork 1707998400000 "x1"
                 (Sample.planBody CORE) Sample.table))
       = Some (DataUser u')
       /\ subscriptioStartDate u' = Some 1707998400000
       /\ subscriptionEndDate u'
          = Some (1707998400000 + 29 * 86400000 - 3600000).
Proof.
  split; cycle 1.
  { destruct (paid_period_length Sample.newYork 1707998400000 Sample.table
                "x1" Sample.alice (Sample.planBody CORE) CORE
                ltac:(reflexivity) ltac:(discriminate) ltac:(discriminate)
                ltac:(repeat constructor; simpl; intuition discriminate)
                ltac:(reflexivity) ltac:(vm_compute; reflexivity))
      as (u' & L & Hdata & _ & _ & _ & Hstart & _).
    exists u'. split; [exact Hdata|]. split; [exact Hstart|].
    vm_compute in Hdata. inversion Hdata. reflexivity. }
  destruct (paid_period_length JsDate.utc Sample.jan31 Sample.table "x1"
              Sample.alice (Sample.planBody CORE) CORE
              ltac:(reflexivity) ltac:(discriminate) ltac:(discriminate)
              ltac:(repeat constructor; simpl; intuition discriminate)
              ltac:(reflexivity) ltac:(vm_compute; reflexivity))
    as (u' & L & Hdata & _ & _ & HL & Hstart & _ & Hfixed).
  destruct (Hfixed 0 ltac:(reflexivity)) as (Hend & Hexp & Hsoon).
  exists u', L. repeat split; assumption || apply HL.
Defined.
